(** * Xgent task pipeline: resource parser, broadcaster, queue, executor

    A shallow embedding of the Go sources of the task execution pipeline
    (packages [crd], [models], [handlers], [orchestrator], [executor]) and
    the properties the specification states about them.

    Conventions.
    - Go [string] and [[]byte] are [string]; [uint] is [N]; [int] is [Z].
    - A Go [error] is its message; [fmt.Errorf("p: %w", err)] is ["p: " +:+ err].
    - A function returning [(T, error)] returns [result T].
    - A function that can panic returns [outcome T].
    - A nil slice and an empty slice are both [[]]; a nil map is [∅] or [None].
    - A name ends in an underscore where Rocq reserves the source's name or
      another definition has it.
    - Third-party libraries (YAML and JSON codecs, the database driver, the
      operating system) are parameters: type classes or fields of the
      environment. *)

From Stdlib Require Import ZArith NArith String Ascii List Bool Lia.
From stdpp Require Import base option list gmap strings pretty.

Set Warnings "-register-all".
Local Open Scope string_scope.
Local Open Scope list_scope.

(** ** Errors, results and panics *)

Definition Error := string.

Inductive result (A : Type) : Type :=
| Ok (a : A)
| Err (e : Error).
Arguments Ok {A} a.
Arguments Err {A} e.

Definition is_ok {A} (r : result A) : bool :=
  match r with Ok _ => true | Err _ => false end.

Definition is_err {A} (r : result A) : bool := negb (is_ok r).

(** A computation that either returns or panics with a value printed by
    [%v]. *)
Inductive outcome (A : Type) : Type :=
| Ret (a : A)
| Panic (v : string).
Arguments Ret {A} a.
Arguments Panic {A} v.

(** Dynamically typed values ([interface{}] holding decoded YAML or JSON);
    a [float64] is given by its IEEE 754 bits. *)
Inductive Dyn : Type :=
| DNull
| DBool (b : bool)
| DInt (z : Z)
| DFloat (bits : N)
| DStr (s : string)
| DList (l : list Dyn)
| DMap (m : list (string * Dyn)).

(** [strings.Contains]. *)
Fixpoint has_prefix (p s : string) : bool :=
  match p, s with
  | EmptyString, _ => true
  | String a p', String b s' => if Ascii.eqb a b then has_prefix p' s' else false
  | String _ _, EmptyString => false
  end.

Fixpoint contains (s sub : string) : bool :=
  if has_prefix sub s then true
  else match s with
       | EmptyString => false
       | String _ s' => contains s' sub
       end.

(** [strings.Join]. *)
Fixpoint join (l : list string) (sep : string) : string :=
  match l with
  | [] => ""
  | [x] => x
  | x :: rest => x +:+ sep +:+ join rest sep
  end.

(** ** Package [crd]: resource types *)

Module Crd.

Definition APIVersion : string := "xgent.ai/v1".

Definition ResourceKind := string.

Definition KindSoul : ResourceKind := "Soul".
Definition KindMind : ResourceKind := "Mind".
Definition KindCraft : ResourceKind := "Craft".
Definition KindRobot : ResourceKind := "Robot".
Definition KindTeam : ResourceKind := "Team".
Definition KindCollaboration : ResourceKind := "Collaboration".

(** [time.Time], as an instant; the zero time is [0]. *)
Definition Time := Z.
Bind Scope Z_scope with Time.

(** [float32], by its bit pattern. *)
Definition float32 := N.
Bind Scope N_scope with float32.

Record Metadata := {
  Name : string;
  Description : string;
  Labels : gmap string string;
  Annotations : gmap string string;
  CreatedAt : Time;
  UpdatedAt : Time
}.

Record SoulSpec := {
  Personality : string;
  Capabilities : list string;
  Constraints : list string;
  Examples : list string
}.

Record Soul := {
  Soul_APIVersion : string;
  Soul_Kind : ResourceKind;
  Soul_Metadata : Metadata;
  Soul_Spec : SoulSpec
}.

Record MindSpec := {
  Provider : string;
  ModelID : string;
  APIKey : string;
  BaseURL : string;
  Temperature : float32;
  MaxTokens : Z;
  Headers : gmap string string
}.

Record Mind := {
  Mind_APIVersion : string;
  Mind_Kind : ResourceKind;
  Mind_Metadata : Metadata;
  Mind_Spec : MindSpec
}.

Record ToolConfig := {
  Tool_Name : string;
  Tool_Type : string;
  Tool_Config : list (string * Dyn);
  Tool_Enabled : bool
}.

Record MCPServer := {
  Server_Name : string;
  Server_Command : string;
  Server_Args : list string;
  Server_Env : gmap string string
}.

Record MCPConfig := { Servers : list MCPServer }.

Record CraftSpec := {
  Tools : list ToolConfig;
  Instructions : string;
  Environment : gmap string string;
  MCP : option MCPConfig
}.

Record Craft := {
  Craft_APIVersion : string;
  Craft_Kind : ResourceKind;
  Craft_Metadata : Metadata;
  Craft_Spec : CraftSpec
}.

Record RobotSpec := {
  Robot_Soul : string;
  Robot_Mind : string;
  Robot_Craft : string;
  Robot_SessionID : string;
  Robot_MaxHistory : Z
}.

Record Robot := {
  Robot_APIVersion : string;
  Robot_Kind : ResourceKind;
  Robot_Metadata : Metadata;
  Robot_Spec : RobotSpec
}.

Definition CollaborationMode := string.
Definition ModeCoordinate : CollaborationMode := "coordinate".
Definition ModeCollaborate : CollaborationMode := "collaborate".
Definition ModeRoute : CollaborationMode := "route".

Record TeamSpec := {
  Team_Leader : string;
  Team_Members : list string;
  Team_Mode : CollaborationMode;
  Team_Craft : string;
  Team_Description : string
}.

Record Team := {
  Team_APIVersion : string;
  Team_Kind : ResourceKind;
  Team_Metadata : Metadata;
  Team_Spec : TeamSpec
}.

Record CollaborationStep := {
  Step_Name : string;
  Step_Agent : string;
  Step_DependsOn : list string;
  Step_Condition : string
}.

Record CollaborationSpec := {
  Collab_Type : string;
  Collab_Steps : list CollaborationStep;
  Collab_Conditions : list (string * Dyn)
}.

Record Collaboration := {
  Collab_APIVersion : string;
  Collab_Kind : ResourceKind;
  Collab_Metadata : Metadata;
  Collab_Spec : CollaborationSpec
}.

(** The [Resource] interface: a pointer to one of the six structs. *)
Inductive Resource : Type :=
| RSoul (s : Soul)
| RMind (m : Mind)
| RCraft (c : Craft)
| RRobot (r : Robot)
| RTeam (t : Team)
| RCollaboration (c : Collaboration).

Definition ErrInvalidMetadata : Error := "invalid metadata".
Definition ErrInvalidSpec : Error := "invalid spec".

Definition is_empty (s : string) : bool := String.eqb s "".

Definition GetKind (r : Resource) : ResourceKind :=
  match r with
  | RSoul _ => KindSoul
  | RMind _ => KindMind
  | RCraft _ => KindCraft
  | RRobot _ => KindRobot
  | RTeam _ => KindTeam
  | RCollaboration _ => KindCollaboration
  end.

Definition GetMetadata (r : Resource) : Metadata :=
  match r with
  | RSoul s => Soul_Metadata s
  | RMind m => Mind_Metadata m
  | RCraft c => Craft_Metadata c
  | RRobot r => Robot_Metadata r
  | RTeam t => Team_Metadata t
  | RCollaboration c => Collab_Metadata c
  end.

(** [Validate] of each kind; [None] is the nil error. *)
Definition Soul_Validate (s : Soul) : option Error :=
  if is_empty (Name (Soul_Metadata s)) then Some ErrInvalidMetadata
  else if is_empty (Personality (Soul_Spec s)) then Some ErrInvalidSpec
  else None.

Definition Mind_Validate (m : Mind) : option Error :=
  if is_empty (Name (Mind_Metadata m)) then Some ErrInvalidMetadata
  else if is_empty (Provider (Mind_Spec m)) || is_empty (ModelID (Mind_Spec m))
       then Some ErrInvalidSpec
  else None.

Definition Craft_Validate (c : Craft) : option Error :=
  if is_empty (Name (Craft_Metadata c)) then Some ErrInvalidMetadata
  else None.

Definition Robot_Validate (r : Robot) : option Error :=
  if is_empty (Name (Robot_Metadata r)) then Some ErrInvalidMetadata
  else if is_empty (Robot_Soul (Robot_Spec r)) || is_empty (Robot_Mind (Robot_Spec r))
       then Some ErrInvalidSpec
  else None.

Definition Team_Validate (t : Team) : option Error :=
  if is_empty (Name (Team_Metadata t)) then Some ErrInvalidMetadata
  else if Nat.eqb (length (Team_Members (Team_Spec t))) 0 then Some ErrInvalidSpec
  else None.

Definition Collaboration_Validate (c : Collaboration) : option Error :=
  if is_empty (Name (Collab_Metadata c)) then Some ErrInvalidMetadata
  else None.

Definition Validate (r : Resource) : option Error :=
  match r with
  | RSoul s => Soul_Validate s
  | RMind m => Mind_Validate m
  | RCraft c => Craft_Validate c
  | RRobot r => Robot_Validate r
  | RTeam t => Team_Validate t
  | RCollaboration c => Collaboration_Validate c
  end.

(** The anonymous struct [Parse] decodes first: the two discriminators. *)
Record TypeMeta := {
  Meta_APIVersion : string;
  Meta_Kind : ResourceKind
}.

(** [gopkg.in/yaml.v3] is not part of the repository.  Its [Unmarshal] at
    each target type the parser uses, and its [Marshal] of a resource, are
    taken as parameters. *)
Class YamlCodec := {
  yaml_Unmarshal_meta : string -> result TypeMeta;
  yaml_Unmarshal_Soul : string -> result Soul;
  yaml_Unmarshal_Mind : string -> result Mind;
  yaml_Unmarshal_Craft : string -> result Craft;
  yaml_Unmarshal_Robot : string -> result Robot;
  yaml_Unmarshal_Team : string -> result Team;
  yaml_Unmarshal_Collaboration : string -> result Collaboration;
  yaml_Marshal : Resource -> result string
}.

Section Parser.
Context `{Yaml : YamlCodec}.

(** The typed decoding step of one [case] of [Parse]. *)
Definition decode_as {T} (what : string) (unmarshal : string -> result T)
    (wrap : T -> Resource) (data : string) : result Resource :=
  match unmarshal data with
  | Err e => Err ("failed to parse " +:+ what +:+ ": " +:+ e)
  | Ok v => Ok (wrap v)
  end.

(** The [switch meta.Kind] of [Parse]. *)
Definition decode_kind (kind : ResourceKind) (data : string) : result Resource :=
  if String.eqb kind KindSoul then decode_as "Soul" yaml_Unmarshal_Soul RSoul data
  else if String.eqb kind KindMind then decode_as "Mind" yaml_Unmarshal_Mind RMind data
  else if String.eqb kind KindCraft then decode_as "Craft" yaml_Unmarshal_Craft RCraft data
  else if String.eqb kind KindRobot then decode_as "Robot" yaml_Unmarshal_Robot RRobot data
  else if String.eqb kind KindTeam then decode_as "Team" yaml_Unmarshal_Team RTeam data
  else if String.eqb kind KindCollaboration
       then decode_as "Collaboration" yaml_Unmarshal_Collaboration RCollaboration data
  else Err ("unknown resource kind: " +:+ kind).

(** [Parser.Parse]. *)
Definition Parse (data : string) : result Resource :=
  match yaml_Unmarshal_meta data with
  | Err e => Err ("failed to parse metadata: " +:+ e)
  | Ok meta =>
      if negb (String.eqb (Meta_APIVersion meta) APIVersion)
      then Err ("unsupported API version: " +:+ Meta_APIVersion meta)
      else
        match decode_kind (Meta_Kind meta) data with
        | Err e => Err e
        | Ok resource =>
            match Validate resource with
            | Some e => Err ("validation failed: " +:+ e)
            | None => Ok resource
            end
        end
  end.

(** [Parser.Marshal]. *)
Definition Marshal (resource : Resource) : result string :=
  yaml_Marshal resource.

End Parser.

End Crd.

(** A [map[string]interface{}] that may be nil, as the runner's [details]. *)
Definition Details := option (list (string * Dyn)).

(** ** Package [models] *)

Module Models.

Definition Time := Z.
Bind Scope Z_scope with Time.

Inductive TaskStatus : Type :=
| TaskStatusPending
| TaskStatusRunning
| TaskStatusCompleted
| TaskStatusFailed
| TaskStatusCancelled.

(** The string each status constant holds. *)
Definition status_string (s : TaskStatus) : string :=
  match s with
  | TaskStatusPending => "pending"
  | TaskStatusRunning => "running"
  | TaskStatusCompleted => "completed"
  | TaskStatusFailed => "failed"
  | TaskStatusCancelled => "cancelled"
  end.

Definition TaskStatus_eqb (a b : TaskStatus) : bool :=
  match a, b with
  | TaskStatusPending, TaskStatusPending
  | TaskStatusRunning, TaskStatusRunning
  | TaskStatusCompleted, TaskStatusCompleted
  | TaskStatusFailed, TaskStatusFailed
  | TaskStatusCancelled, TaskStatusCancelled => true
  | _, _ => false
  end.

(** Terminal statuses, as the streaming endpoint tests them. *)
Definition is_terminal (s : TaskStatus) : bool :=
  match s with
  | TaskStatusCompleted | TaskStatusFailed | TaskStatusCancelled => true
  | _ => false
  end.

(** [models.Task], without the columns the ORM maintains by itself and
    without the preloaded relations. *)
Record Task := {
  ID : N;
  WorkspaceID : N;
  UserID : N;
  Status : TaskStatus;
  Title : string;
  Description : string;
  Prompt : string;
  ResourceType : string;
  ResourceName : string;
  Mode : string;
  GitURL : string;
  BranchName : string;
  Result : string;
  Error_ : string;
  Progress : Z;
  EventLogs : string;
  StartedAt : option Time;
  CompletedAt : option Time;
  Duration : Z
}.

Definition set_Status (s : TaskStatus) (t : Task) : Task :=
  {| ID := ID t; WorkspaceID := WorkspaceID t; UserID := UserID t; Status := s;
     Title := Title t; Description := Description t; Prompt := Prompt t;
     ResourceType := ResourceType t; ResourceName := ResourceName t; Mode := Mode t;
     GitURL := GitURL t; BranchName := BranchName t; Result := Result t;
     Error_ := Error_ t; Progress := Progress t; EventLogs := EventLogs t;
     StartedAt := StartedAt t; CompletedAt := CompletedAt t; Duration := Duration t |}.

Definition set_Progress (p : Z) (t : Task) : Task :=
  {| ID := ID t; WorkspaceID := WorkspaceID t; UserID := UserID t; Status := Status t;
     Title := Title t; Description := Description t; Prompt := Prompt t;
     ResourceType := ResourceType t; ResourceName := ResourceName t; Mode := Mode t;
     GitURL := GitURL t; BranchName := BranchName t; Result := Result t;
     Error_ := Error_ t; Progress := p; EventLogs := EventLogs t;
     StartedAt := StartedAt t; CompletedAt := CompletedAt t; Duration := Duration t |}.

Definition set_Result (r : string) (t : Task) : Task :=
  {| ID := ID t; WorkspaceID := WorkspaceID t; UserID := UserID t; Status := Status t;
     Title := Title t; Description := Description t; Prompt := Prompt t;
     ResourceType := ResourceType t; ResourceName := ResourceName t; Mode := Mode t;
     GitURL := GitURL t; BranchName := BranchName t; Result := r;
     Error_ := Error_ t; Progress := Progress t; EventLogs := EventLogs t;
     StartedAt := StartedAt t; CompletedAt := CompletedAt t; Duration := Duration t |}.

Definition set_Error (e : string) (t : Task) : Task :=
  {| ID := ID t; WorkspaceID := WorkspaceID t; UserID := UserID t; Status := Status t;
     Title := Title t; Description := Description t; Prompt := Prompt t;
     ResourceType := ResourceType t; ResourceName := ResourceName t; Mode := Mode t;
     GitURL := GitURL t; BranchName := BranchName t; Result := Result t;
     Error_ := e; Progress := Progress t; EventLogs := EventLogs t;
     StartedAt := StartedAt t; CompletedAt := CompletedAt t; Duration := Duration t |}.

Definition set_EventLogs (l : string) (t : Task) : Task :=
  {| ID := ID t; WorkspaceID := WorkspaceID t; UserID := UserID t; Status := Status t;
     Title := Title t; Description := Description t; Prompt := Prompt t;
     ResourceType := ResourceType t; ResourceName := ResourceName t; Mode := Mode t;
     GitURL := GitURL t; BranchName := BranchName t; Result := Result t;
     Error_ := Error_ t; Progress := Progress t; EventLogs := l;
     StartedAt := StartedAt t; CompletedAt := CompletedAt t; Duration := Duration t |}.

Definition set_StartedAt (a : option Time) (t : Task) : Task :=
  {| ID := ID t; WorkspaceID := WorkspaceID t; UserID := UserID t; Status := Status t;
     Title := Title t; Description := Description t; Prompt := Prompt t;
     ResourceType := ResourceType t; ResourceName := ResourceName t; Mode := Mode t;
     GitURL := GitURL t; BranchName := BranchName t; Result := Result t;
     Error_ := Error_ t; Progress := Progress t; EventLogs := EventLogs t;
     StartedAt := a; CompletedAt := CompletedAt t; Duration := Duration t |}.

Definition set_Completed (c : Time) (d : Z) (t : Task) : Task :=
  {| ID := ID t; WorkspaceID := WorkspaceID t; UserID := UserID t; Status := Status t;
     Title := Title t; Description := Description t; Prompt := Prompt t;
     ResourceType := ResourceType t; ResourceName := ResourceName t; Mode := Mode t;
     GitURL := GitURL t; BranchName := BranchName t; Result := Result t;
     Error_ := Error_ t; Progress := Progress t; EventLogs := EventLogs t;
     StartedAt := StartedAt t; CompletedAt := Some c; Duration := d |}.

Record TaskLog := {
  Log_TaskID : N;
  Log_Level : string;
  Log_Message : string;
  Log_EventType : string
}.

Definition ResourceType_ := string.
Definition ResourceTypeSoul : ResourceType_ := "Soul".
Definition ResourceTypeMind : ResourceType_ := "Mind".
Definition ResourceTypeCraft : ResourceType_ := "Craft".
Definition ResourceTypeRobot : ResourceType_ := "Robot".
Definition ResourceTypeTeam : ResourceType_ := "Team".
Definition ResourceTypeCollaboration : ResourceType_ := "Collaboration".

(** [models.Resource]: a stored declaration; [Spec] is its YAML text. *)
Record Resource := {
  Res_ID : N;
  Res_WorkspaceID : N;
  Res_Type : ResourceType_;
  Res_Name : string;
  Res_Description : string;
  Res_Spec : string;
  Res_Status : string
}.

(** A value stored under a key of the callback's [metadata] map. *)
Inductive MetaValue : Type :=
| MVString (s : string)
| MVDetails (d : Details).

(** The callback's [metadata map[string]interface{}]; [None] is nil. *)
Definition CallbackMetadata := option (gmap string MetaValue).

End Models.

(** ** Package [handlers]: the event broadcaster *)

Module Broadcaster.

Import Models.

Definition maxEventBuffer : nat := 200.

(** [10 * time.Minute], in nanoseconds. *)
Definition bufferTTL : Z := 600000000000.

(** Capacity of the channel [Subscribe] makes. *)
Definition subscriberCap : nat := 200.

Record TaskEvent := {
  TaskID : N;
  Type_ : string;
  Content : string;
  Details_ : Details;
  Progress_ : Z;
  Status_ : string;
  EventType : string;
  Timestamp : Time
}.

Definition stamp (now : Time) (e : TaskEvent) : TaskEvent :=
  {| TaskID := TaskID e; Type_ := Type_ e; Content := Content e;
     Details_ := Details_ e; Progress_ := Progress_ e; Status_ := Status_ e;
     EventType := EventType e; Timestamp := now |}.

Record eventBuffer := {
  events : list TaskEvent;
  createdAt : Time
}.

(** A [chan TaskEvent]: the queued events, oldest first, its capacity, and
    whether it was closed. *)
Record Chan := {
  items : list TaskEvent;
  cap : nat;
  closed : bool
}.

(** Channels are references; the broadcaster's maps hold their addresses. *)
Definition chan_ref := nat.

Record EventBroadcaster := {
  subscribers : gmap N (list chan_ref);
  buffers : gmap N eventBuffer;
  heap : gmap chan_ref Chan;
  next_ref : chan_ref
}.

(** [NewEventBroadcaster]. *)
Definition NewEventBroadcaster : EventBroadcaster :=
  {| subscribers := ∅; buffers := ∅; heap := ∅; next_ref := 0%nat |}.

(** [select { case ch <- event: default: }] on an open channel: the event
    is queued when there is room, and the flag tells whether it was. *)
Definition try_send (event : TaskEvent) (c : Chan) : Chan * bool :=
  if (length (items c) <? cap c)%nat
  then ({| items := items c ++ [event]; cap := cap c; closed := closed c |}, true)
  else (c, false).

(** The same on a reference into the heap. *)
Definition try_send_ref (event : TaskEvent) (h : gmap chan_ref Chan) (ch : chan_ref)
    : gmap chan_ref Chan :=
  match h !! ch with
  | Some c => <[ch := fst (try_send event c)]> h
  | None => h
  end.

(** The replay loop of [Subscribe]: stops at the first event that does not
    fit. *)
Fixpoint replay (evs : list TaskEvent) (c : Chan) : Chan :=
  match evs with
  | [] => c
  | event :: rest =>
      let '(c', sent) := try_send event c in
      if sent then replay rest c' else c
  end.

Definition subs_of (b : EventBroadcaster) (taskID : N) : list chan_ref :=
  default [] (subscribers b !! taskID).

(** [EventBroadcaster.Subscribe]. *)
Definition Subscribe (taskID : N) (b : EventBroadcaster) : chan_ref * EventBroadcaster :=
  let ch := next_ref b in
  let c0 := {| items := []; cap := subscriberCap; closed := false |} in
  let c := match buffers b !! taskID with
           | Some buf => replay (events buf) c0
           | None => c0
           end in
  (ch, {| subscribers := <[taskID := subs_of b taskID ++ [ch]]> (subscribers b);
          buffers := buffers b;
          heap := <[ch := c]> (heap b);
          next_ref := S ch |}).

(** Removal of the first occurrence of [ch], and whether it was there. *)
Fixpoint remove_first (ch : chan_ref) (subs : list chan_ref) : list chan_ref * bool :=
  match subs with
  | [] => ([], false)
  | sub :: rest =>
      if Nat.eqb sub ch then (rest, true)
      else let '(rest', found) := remove_first ch rest in (sub :: rest', found)
  end.

Definition close_chan (h : gmap chan_ref Chan) (ch : chan_ref) : gmap chan_ref Chan :=
  match h !! ch with
  | Some c => <[ch := {| items := items c; cap := cap c; closed := true |}]> h
  | None => h
  end.

(** [EventBroadcaster.Unsubscribe]. *)
Definition Unsubscribe (taskID : N) (ch : chan_ref) (b : EventBroadcaster)
    : EventBroadcaster :=
  let '(subs', found) := remove_first ch (subs_of b taskID) in
  let h := if found then close_chan (heap b) ch else heap b in
  {| subscribers := if Nat.eqb (length subs') 0 then delete taskID (subscribers b)
                    else <[taskID := subs']> (subscribers b);
     buffers := buffers b;
     heap := h;
     next_ref := next_ref b |}.

(** The buffering step of [Broadcast]; [now] is the clock as it is read
    there, under the lock, for a new buffer. *)
Definition buffer_event (now : Time) (event : TaskEvent) (bufs : gmap N eventBuffer)
    : gmap N eventBuffer :=
  let buf := match bufs !! TaskID event with
             | Some buf => buf
             | None => {| events := []; createdAt := now |}
             end in
  let buf' := if (length (events buf) <? maxEventBuffer)%nat
              then {| events := events buf ++ [event]; createdAt := createdAt buf |}
              else buf in
  <[TaskID event := buf']> bufs.

(** The part of [Broadcast] under the lock, for the event as it was
    stamped before the lock was taken: the event is buffered, in a buffer
    dated [created] when the task had none, and the subscribers of its
    task are copied. *)
Definition Broadcast_locked (created : Time) (event : TaskEvent) (b : EventBroadcaster)
    : list chan_ref * EventBroadcaster :=
  (subs_of b (TaskID event),
   {| subscribers := subscribers b;
      buffers := buffer_event created event (buffers b);
      heap := heap b;
      next_ref := next_ref b |}).

(** One turn of the loop of [Broadcast] over its copy of the
    subscribers, after the lock was released: the [select] with a
    [default] on the channel as it is then.  A send on a closed channel
    panics. *)
Definition send (event : TaskEvent) (ch : chan_ref) (b : EventBroadcaster)
    : outcome EventBroadcaster :=
  match heap b !! ch with
  | Some c =>
      if closed c then Panic "send on closed channel"
      else Ret {| subscribers := subscribers b;
                  buffers := buffers b;
                  heap := <[ch := fst (try_send event c)]> (heap b);
                  next_ref := next_ref b |}
  | None => Ret b
  end.

(** [EventBroadcaster.Broadcast] when its two readings of the clock both
    give [now], the channels listed for the task are open, and no other
    goroutine runs between its unlock and the end of its sends. *)
Definition Broadcast (now : Time) (event0 : TaskEvent) (b : EventBroadcaster)
    : EventBroadcaster :=
  let event := stamp now event0 in
  let subs := subs_of b (TaskID event) in
  {| subscribers := subscribers b;
     buffers := buffer_event now event (buffers b);
     heap := foldl (try_send_ref event) (heap b) subs;
     next_ref := next_ref b |}.

(** [EventBroadcaster.ClearBuffer]. *)
Definition ClearBuffer (taskID : N) (b : EventBroadcaster) : EventBroadcaster :=
  {| subscribers := subscribers b;
     buffers := delete taskID (buffers b);
     heap := heap b;
     next_ref := next_ref b |}.

(** One tick of [cleanupLoop], at time [now]. *)
Definition cleanup (now : Time) (b : EventBroadcaster) : EventBroadcaster :=
  {| subscribers := subscribers b;
     buffers := filter (fun kv => ¬ (now - createdAt (snd kv) > bufferTTL)%Z) (buffers b);
     heap := heap b;
     next_ref := next_ref b |}.

(** A subscriber's [<-ch]: the oldest queued event, if any. *)
Definition receive (ch : chan_ref) (b : EventBroadcaster)
    : option (TaskEvent * EventBroadcaster) :=
  match heap b !! ch with
  | Some c =>
      match items c with
      | event :: rest =>
          Some (event,
                {| subscribers := subscribers b;
                   buffers := buffers b;
                   heap := <[ch := {| items := rest; cap := cap c; closed := closed c |}]> (heap b);
                   next_ref := next_ref b |})
      | [] => None
      end
  | None => None
  end.

(** What a channel still holds. *)
Definition pending (ch : chan_ref) (b : EventBroadcaster) : list TaskEvent :=
  match heap b !! ch with
  | Some c => items c
  | None => []
  end.

End Broadcaster.

(** ** Package [storage]: the repositories the pipeline calls *)

Module Storage.

Import Models.

(** The database behind the repositories.  [db_error], when set, is the
    driver's failure: every call returns it.  [resources] holds the live
    rows in primary-key order. *)
Record Storage := {
  db_error : option Error;
  tasks : gmap N Task;
  task_logs : list TaskLog;
  resources : list Models.Resource
}.

(** The driver's error for a query without rows. *)
Definition ErrRecordNotFound : Error := "record not found".

Definition with_tasks (ts : gmap N Task) (s : Storage) : Storage :=
  {| db_error := db_error s; tasks := ts; task_logs := task_logs s;
     resources := resources s |}.

Definition with_logs (ls : list TaskLog) (s : Storage) : Storage :=
  {| db_error := db_error s; tasks := tasks s; task_logs := ls;
     resources := resources s |}.

(** [TaskRepository.Update]: saves every column of the row. *)
Definition Tasks_Update (task : Task) (s : Storage) : result Storage :=
  match db_error s with
  | Some e => Err e
  | None => Ok (with_tasks (<[ID task := task]> (tasks s)) s)
  end.

(** A call of [Update] whose error is dropped. *)
Definition Tasks_Update_ (task : Task) (s : Storage) : Storage :=
  match Tasks_Update task s with
  | Ok s' => s'
  | Err _ => s
  end.

(** [TaskRepository.GetByID]. *)
Definition Tasks_GetByID (id : N) (s : Storage) : result Task :=
  match db_error s with
  | Some e => Err e
  | None =>
      match tasks s !! id with
      | Some t => Ok t
      | None => Err ErrRecordNotFound
      end
  end.

(** [TaskRepository.AddLog], its error dropped as every caller does. *)
Definition Tasks_AddLog (l : TaskLog) (s : Storage) : Storage :=
  match db_error s with
  | Some _ => s
  | None => with_logs (task_logs s ++ [l]) s
  end.

Definition resource_matches (workspaceID : N) (name : string) (resourceType : ResourceType_)
    (r : Models.Resource) : bool :=
  N.eqb (Res_WorkspaceID r) workspaceID
  && String.eqb (Res_Name r) name
  && String.eqb (Res_Type r) resourceType.

(** [ResourceRepository.GetByName]. *)
Definition Resources_GetByName (workspaceID : N) (name : string)
    (resourceType : ResourceType_) (s : Storage) : result Models.Resource :=
  match db_error s with
  | Some e => Err e
  | None =>
      match List.find (resource_matches workspaceID name resourceType) (resources s) with
      | Some r => Ok r
      | None => Err ErrRecordNotFound
      end
  end.

End Storage.

(** ** The process state the callbacks act on *)

Module World.

Import Models.

(** The database, the process-wide broadcaster and the wall clock.  The
    clock is read, never advanced, by the functions below. *)
Record World := {
  storage : Storage.Storage;
  broadcaster : Broadcaster.EventBroadcaster;
  clock : Time
}.

Definition with_storage (s : Storage.Storage) (w : World) : World :=
  {| storage := s; broadcaster := broadcaster w; clock := clock w |}.

Definition with_broadcaster (b : Broadcaster.EventBroadcaster) (w : World) : World :=
  {| storage := storage w; broadcaster := b; clock := clock w |}.

(** [models.ProgressCallback]. *)
Definition ProgressCallback : Type :=
  N -> Z -> TaskStatus -> string -> CallbackMetadata -> World -> World.

(** [if callback != nil { callback(...) }]. *)
Definition notify (callback : option ProgressCallback) (taskID : N) (progress : Z)
    (status : TaskStatus) (message : string) (metadata : CallbackMetadata)
    (w : World) : World :=
  match callback with
  | Some cb => cb taskID progress status message metadata w
  | None => w
  end.

End World.

(** ** Package [executor]: [AgnoExecutor] *)

Module Executor.

Import Models World.

Record AgnoModelConfig := {
  Model_Provider : string;
  Model_ModelID : string;
  Model_APIKey : string;
  Model_BaseURL : string
}.

Record AgnoSoulConfig := {
  SoulCfg_Name : string;
  SoulCfg_Personality : string
}.

Record AgnoContextConfig := {
  Ctx_Cwd : string;
  Ctx_GitURL : string;
  Ctx_Branch : string;
  Ctx_ProjectPath : string
}.

Record AgnoMCPConfig := {
  MCP_Name : string;
  MCP_Type : string;
  MCP_Command : string;
  MCP_Args : list string;
  MCP_Env : gmap string string;
  MCP_URL : string;
  MCP_Headers : gmap string string;
  MCP_Timeout : Z;
  MCP_SSEReadTimeout : Z
}.

Record AgnoMemberConfig := {
  Member_Name : string;
  Member_Model : AgnoModelConfig;
  Member_Personality : string;
  Member_Description : string
}.

Record AgnoTeamConfig := {
  TeamCfg_Name : string;
  TeamCfg_Mode : string;
  TeamCfg_Leader : option AgnoMemberConfig;
  TeamCfg_Members : list AgnoMemberConfig;
  TeamCfg_Description : string
}.

Record AgnoConfig := {
  Cfg_Type : string;
  Cfg_Prompt : string;
  Cfg_Model : AgnoModelConfig;
  Cfg_Soul : AgnoSoulConfig;
  Cfg_Team : option AgnoTeamConfig;
  Cfg_Context : AgnoContextConfig;
  Cfg_SessionID : string;
  Cfg_MCPTools : list AgnoMCPConfig;
  Cfg_Stream : bool;
  Cfg_Debug : bool;
  Cfg_DebugLevel : Z;
  Cfg_ReuseSession : bool
}.

(** The struct each stdout line is decoded into. *)
Record RunnerEvent := {
  Ev_Type : string;
  Ev_Content : string;
  Ev_Details : Details
}.

(** What the operating system does with the runner: the script is absent,
    a pipe or the start fails, or the process runs and writes the lines
    [stdout], each given without the newline that ends it, and [Wait]
    returns [wait_error].  When the read loop stops before the end of the
    output, [wait_error] is what [Wait] returns for a process that could
    still write the rest and exit; a process that waits for its output to
    be read does not exit, and such a run is not a [Started] one. *)
Inductive Launch : Type :=
| ScriptMissing
| StdinPipeError (e : Error)
| StdoutPipeError (e : Error)
| StderrPipeError (e : Error)
| StartError (e : Error)
| Started (stdout : list string) (wait_error : option Error).

(** The runner script, the operating system and [encoding/json] are not
    part of the repository: the path the script is looked up at, what
    launching it with a configuration on stdin does, and [json.Unmarshal]
    of a line into the event struct ([None] when it returns an error). *)
Class RunnerEnv := {
  scriptPath : string;
  launch : AgnoConfig -> Launch;
  json_Unmarshal_event : string -> option RunnerEvent
}.

(** [bufio.MaxScanTokenSize], the size the buffer of a scanner made by
    [bufio.NewScanner] grows to. *)
Definition MaxScanTokenSize : N := 65536.

Fixpoint byte_length (s : string) : N :=
  match s with
  | EmptyString => 0
  | String _ rest => N.succ (byte_length rest)
  end.

(** A line whose bytes fill the buffer of the scanner before its newline
    is met: [Scan] then sets the error [bufio.ErrTooLong] and returns
    false. *)
Definition too_long (line : string) : bool :=
  (MaxScanTokenSize <=? byte_length line)%N.

(** [dropCR] of [bufio.ScanLines]: one carriage return at the end of a
    line is not part of the token. *)
Fixpoint dropCR (line : string) : string :=
  match line with
  | EmptyString => EmptyString
  | String c EmptyString => if Ascii.eqb c "013"%char then EmptyString else line
  | String c rest => String c (dropCR rest)
  end.

(** The tokens [scanner.Scan] and [scanner.Text] yield on the lines of
    the output, until [Scan] returns false: at the end of the output, or
    at the first line that is too long, whatever follows it
    ([scanner.Err] is not read). *)
Fixpoint scanned (stdout : list string) : list string :=
  match stdout with
  | [] => []
  | line :: rest => if too_long line then [] else dropCR line :: scanned rest
  end.

(** The three values [executeBot], [executeTeam] and [runAgnoScript]
    return: result, event logs, error. *)
Definition ExecResult : Type := string * string * option Error.

Definition failure (e : Error) : ExecResult := ("", "", Some e).

Definition nl : string := String "010"%char "".

(** The locals of the read loop of [runAgnoScript]. *)
Record ScanState := {
  fullContent : string;
  lastError : string;
  eventLogs : list string
}.

Definition md_type (t : string) : CallbackMetadata :=
  Some {[ "type" := MVString t ]}.

Definition md_type_details (t : string) (d : Details) : CallbackMetadata :=
  Some (<["details" := MVDetails d]> {[ "type" := MVString t ]}).

Definition one_of (s : string) (l : list string) : bool :=
  existsb (String.eqb s) l.

Definition is_Some_b {A} (o : option A) : bool :=
  match o with Some _ => true | None => false end.

Section Agno.
Context `{Yaml : Crd.YamlCodec} `{Env : RunnerEnv}.

(** The [switch event.Type] of the read loop.  The flag is [true] when
    the case returns from [runAgnoScript]. *)
Definition handle_event (callback : option ProgressCallback) (taskID : N)
    (event : RunnerEvent) (st : ScanState) (w : World) : ScanState * World * bool :=
  let t := Ev_Type event in
  let running p msg md := (st, notify callback taskID p TaskStatusRunning msg md w, false) in
  if one_of t ["started"] then
    running 20%Z "Agent started" (md_type "started")
  else if one_of t ["content"] then
    ({| fullContent := fullContent st +:+ Ev_Content event;
        lastError := lastError st; eventLogs := eventLogs st |},
     notify callback taskID 50 TaskStatusRunning (Ev_Content event) (md_type "content") w,
     false)
  else if one_of t ["run_started"; "team_run_started"] then
    running 30%Z (Ev_Content event) (md_type t)
  else if one_of t ["run_completed"; "team_run_completed"] then
    running 90%Z (Ev_Content event) (md_type t)
  else if one_of t ["tool_call_started"; "member_tool_started"] then
    running 60%Z "Tool call started" (md_type_details t (Ev_Details event))
  else if one_of t ["tool_call_completed"; "member_tool_completed"] then
    running 70%Z "Tool call completed" (md_type_details t (Ev_Details event))
  else if one_of t ["reasoning"] then
    running 55%Z "Reasoning" (md_type_details "reasoning" (Ev_Details event))
  else if one_of t ["mcp_connected"] then
    running 25%Z (Ev_Content event) (md_type "mcp_connected")
  else if one_of t ["thinking_step"] then
    running 40%Z (Ev_Content event) (md_type_details "thinking_step" (Ev_Details event))
  else if one_of t ["session_reused"] then
    running 25%Z (Ev_Content event) (md_type "session_reused")
  else if one_of t ["git_downloaded"] then
    running 15%Z (Ev_Content event) (md_type_details "git_downloaded" (Ev_Details event))
  else if one_of t ["warning"] then (st, w, false)
  else if one_of t ["completed"] then (st, w, false)
  else if one_of t ["cancelled"] then (st, w, true)
  else if one_of t ["error"] then
    ({| fullContent := fullContent st; lastError := Ev_Content event;
        eventLogs := eventLogs st |}, w, false)
  else (st, w, false).

(** The body of the read loop [for scanner.Scan() { ... }], run on the
    tokens [lines] the scanner yields one after the other. *)
Fixpoint scan (callback : option ProgressCallback) (taskID : N)
    (lines : list string) (st : ScanState) (w : World) : ScanState * World * bool :=
  match lines with
  | [] => (st, w, false)
  | line :: rest =>
      match json_Unmarshal_event line with
      | None => scan callback taskID rest st w
      | Some event =>
          let st1 := {| fullContent := fullContent st; lastError := lastError st;
                        eventLogs := eventLogs st ++ [line] |} in
          let '(st2, w2, returned) := handle_event callback taskID event st1 w in
          if returned then (st2, w2, true)
          else scan callback taskID rest st2 w2
      end
  end.

(** [AgnoExecutor.runAgnoScript]. *)
Definition runAgnoScript (config : AgnoConfig) (taskID : N)
    (callback : option ProgressCallback) (w : World) : ExecResult * World :=
  match launch config with
  | ScriptMissing =>
      (failure ("agno runner script not found at " +:+ scriptPath), w)
  | StdinPipeError err => (failure ("failed to create stdin pipe: " +:+ err), w)
  | StdoutPipeError err => (failure ("failed to create stdout pipe: " +:+ err), w)
  | StderrPipeError err => (failure ("failed to create stderr pipe: " +:+ err), w)
  | StartError err => (failure ("failed to start python script: " +:+ err), w)
  | Started stdout wait_error =>
      let '(st, w', returned) :=
        scan callback taskID (scanned stdout)
             {| fullContent := ""; lastError := ""; eventLogs := [] |} w in
      if returned then ((fullContent st, join (eventLogs st) nl, None), w')
      else
        match wait_error with
        | Some err =>
            if negb (String.eqb (lastError st) "")
            then (failure ("python script error: " +:+ lastError st), w')
            else (failure ("python script finished with error: " +:+ err), w')
        | None => ((fullContent st, join (eventLogs st) nl, None), w')
        end
  end.

(** The name the Go runtime prints for the dynamic type of a resource. *)
Definition dynamic_type (r : Crd.Resource) : string := "*crd." +:+ Crd.GetKind r.

(** [soulDef, _ := parser.Parse(...)] followed by the single-value type
    assertion of [soulDef] to a [Soul] pointer: the parse error is
    dropped, and the assertion panics on a nil interface and on any other
    dynamic type. *)
Definition assert_Soul (def : result Crd.Resource) : outcome Crd.Soul :=
  match def with
  | Ok (Crd.RSoul s) => Ret s
  | Ok other =>
      Panic ("interface conversion: crd.Resource is " +:+ dynamic_type other
             +:+ ", not *crd.Soul")
  | Err _ => Panic "interface conversion: crd.Resource is nil, not *crd.Soul"
  end.

Definition assert_Mind (def : result Crd.Resource) : outcome Crd.Mind :=
  match def with
  | Ok (Crd.RMind m) => Ret m
  | Ok other =>
      Panic ("interface conversion: crd.Resource is " +:+ dynamic_type other
             +:+ ", not *crd.Mind")
  | Err _ => Panic "interface conversion: crd.Resource is nil, not *crd.Mind"
  end.

Definition model_of (mind : Crd.Mind) : AgnoModelConfig :=
  {| Model_Provider := Crd.Provider (Crd.Mind_Spec mind);
     Model_ModelID := Crd.ModelID (Crd.Mind_Spec mind);
     Model_APIKey := Crd.APIKey (Crd.Mind_Spec mind);
     Model_BaseURL := Crd.BaseURL (Crd.Mind_Spec mind) |}.

Definition task_context (task : Task) : AgnoContextConfig :=
  {| Ctx_Cwd := ""; Ctx_GitURL := GitURL task; Ctx_Branch := BranchName task;
     Ctx_ProjectPath := "" |}.

(** [fmt.Sprintf("task-%d", task.ID)]. *)
Definition sessionID (task : Task) : string := "task-" +:+ pretty (ID task).

(** [AgnoExecutor.loadMCPTools]. *)
Definition loadMCPTools (workspaceID : N) (craftName : string) (s : Storage.Storage)
    : list AgnoMCPConfig :=
  match Storage.Resources_GetByName workspaceID craftName ResourceTypeCraft s with
  | Err _ => []
  | Ok craftResource =>
      match Crd.Parse (Res_Spec craftResource) with
      | Err _ => []
      | Ok (Crd.RCraft craft) =>
          match Crd.MCP (Crd.Craft_Spec craft) with
          | Some mcp =>
              map (fun server =>
                     {| MCP_Name := Crd.Server_Name server;
                        MCP_Type := "stdio";
                        MCP_Command := Crd.Server_Command server;
                        MCP_Args := Crd.Server_Args server;
                        MCP_Env := Crd.Server_Env server;
                        MCP_URL := "";
                        MCP_Headers := ∅;
                        MCP_Timeout := 300;
                        MCP_SSEReadTimeout := 0 |})
                  (Crd.Servers mcp)
          | None => []
          end
      | Ok _ => []
      end
  end.

(** The part of [executeBot] before the runner is launched: the
    configuration it builds, the error it returns, or its panic. *)
Definition botConfig (task : Task) (s : Storage.Storage) : outcome (result AgnoConfig) :=
  match Storage.Resources_GetByName (WorkspaceID task) (ResourceName task)
                                    ResourceTypeRobot s with
  | Err err => Ret (Err ("failed to load robot: " +:+ err))
  | Ok robotResource =>
      match Crd.Parse (Res_Spec robotResource) with
      | Err err => Ret (Err ("failed to parse robot spec: " +:+ err))
      | Ok (Crd.RRobot robot) =>
          match Storage.Resources_GetByName (WorkspaceID task)
                  (Crd.Robot_Soul (Crd.Robot_Spec robot)) ResourceTypeSoul s with
          | Err err => Ret (Err ("failed to load soul: " +:+ err))
          | Ok soulResource =>
              match assert_Soul (Crd.Parse (Res_Spec soulResource)) with
              | Panic v => Panic v
              | Ret soul =>
                  match Storage.Resources_GetByName (WorkspaceID task)
                          (Crd.Robot_Mind (Crd.Robot_Spec robot)) ResourceTypeMind s with
                  | Err err => Ret (Err ("failed to load mind: " +:+ err))
                  | Ok mindResource =>
                      match assert_Mind (Crd.Parse (Res_Spec mindResource)) with
                      | Panic v => Panic v
                      | Ret mind =>
                          let mcpTools :=
                            if negb (String.eqb (Crd.Robot_Craft (Crd.Robot_Spec robot)) "")
                            then loadMCPTools (WorkspaceID task)
                                   (Crd.Robot_Craft (Crd.Robot_Spec robot)) s
                            else [] in
                          Ret (Ok {| Cfg_Type := "robot";
                                     Cfg_Prompt := Prompt task;
                                     Cfg_Model := model_of mind;
                                     Cfg_Soul :=
                                       {| SoulCfg_Name := Crd.Name (Crd.Robot_Metadata robot);
                                          SoulCfg_Personality :=
                                            Crd.Personality (Crd.Soul_Spec soul) |};
                                     Cfg_Team := None;
                                     Cfg_Context := task_context task;
                                     Cfg_SessionID := sessionID task;
                                     Cfg_MCPTools := mcpTools;
                                     Cfg_Stream := true;
                                     Cfg_Debug := false;
                                     Cfg_DebugLevel := 2;
                                     Cfg_ReuseSession := true |})
                      end
                  end
              end
          end
      | Ok _ => Ret (Err "invalid robot resource")
      end
  end.

(** [AgnoExecutor.executeBot]. *)
Definition executeBot (task : Task) (callback : option ProgressCallback) (w : World)
    : outcome ExecResult * World :=
  match botConfig task (storage w) with
  | Panic v => (Panic v, w)
  | Ret (Err e) => (Ret (failure e), w)
  | Ret (Ok config) =>
      let '(r, w') := runAgnoScript config (ID task) callback w in (Ret r, w')
  end.

(** [AgnoExecutor.loadRobotAsMember]. *)
Definition loadRobotAsMember (workspaceID : N) (robotName : string) (s : Storage.Storage)
    : outcome (result (AgnoMemberConfig * Crd.Mind)) :=
  match Storage.Resources_GetByName workspaceID robotName ResourceTypeRobot s with
  | Err err => Ret (Err ("failed to load robot: " +:+ err))
  | Ok robotResource =>
      match Crd.Parse (Res_Spec robotResource) with
      | Err err => Ret (Err ("failed to parse robot spec: " +:+ err))
      | Ok (Crd.RRobot robot) =>
          match Storage.Resources_GetByName workspaceID
                  (Crd.Robot_Soul (Crd.Robot_Spec robot)) ResourceTypeSoul s with
          | Err err => Ret (Err ("failed to load soul: " +:+ err))
          | Ok soulResource =>
              match assert_Soul (Crd.Parse (Res_Spec soulResource)) with
              | Panic v => Panic v
              | Ret soul =>
                  match Storage.Resources_GetByName workspaceID
                          (Crd.Robot_Mind (Crd.Robot_Spec robot)) ResourceTypeMind s with
                  | Err err => Ret (Err ("failed to load mind: " +:+ err))
                  | Ok mindResource =>
                      match assert_Mind (Crd.Parse (Res_Spec mindResource)) with
                      | Panic v => Panic v
                      | Ret mind =>
                          Ret (Ok ({| Member_Name := Crd.Name (Crd.Robot_Metadata robot);
                                      Member_Model := model_of mind;
                                      Member_Personality :=
                                        Crd.Personality (Crd.Soul_Spec soul);
                                      Member_Description := "" |},
                                   mind))
                      end
                  end
              end
          end
      | Ok _ => Ret (Err "invalid robot resource")
      end
  end.

(** The leader step of [executeTeam]: the leader's member configuration
    and mind when a leader is named, nothing when none is. *)
Definition load_leader (workspaceID : N) (leader : string) (s : Storage.Storage)
    : outcome (result (option AgnoMemberConfig * option Crd.Mind)) :=
  if negb (String.eqb leader "") then
    match loadRobotAsMember workspaceID leader s with
    | Panic v => Panic v
    | Ret (Err err) => Ret (Err ("failed to load leader robot: " +:+ err))
    | Ret (Ok (leaderMember, leaderMindDef)) =>
        Ret (Ok (Some leaderMember, Some leaderMindDef))
    end
  else Ret (Ok (None, None)).

(** The member loop of [executeTeam], on the members loaded so far and
    the driving mind chosen so far. *)
Fixpoint load_members (workspaceID : N) (names : list string) (s : Storage.Storage)
    (members : list AgnoMemberConfig) (leaderMind : option Crd.Mind)
    : outcome (list AgnoMemberConfig * option Crd.Mind) :=
  match names with
  | [] => Ret (members, leaderMind)
  | memberName :: rest =>
      match loadRobotAsMember workspaceID memberName s with
      | Panic v => Panic v
      | Ret (Err _) => load_members workspaceID rest s members leaderMind
      | Ret (Ok (member, mindDef)) =>
          load_members workspaceID rest s (members ++ [member])
            (match leaderMind with
             | None => Some mindDef
             | Some _ => leaderMind
             end)
      end
  end.

(** The part of [executeTeam] before the runner is launched. *)
Definition teamConfig (task : Task) (s : Storage.Storage) : outcome (result AgnoConfig) :=
  match Storage.Resources_GetByName (WorkspaceID task) (ResourceName task)
                                    ResourceTypeTeam s with
  | Err err => Ret (Err ("failed to load team: " +:+ err))
  | Ok teamResource =>
      match Crd.Parse (Res_Spec teamResource) with
      | Err err => Ret (Err ("failed to parse team spec: " +:+ err))
      | Ok (Crd.RTeam teamDef) =>
          match load_leader (WorkspaceID task) (Crd.Team_Leader (Crd.Team_Spec teamDef)) s with
          | Panic v => Panic v
          | Ret (Err e) => Ret (Err e)
          | Ret (Ok (leader, leaderMind0)) =>
              match load_members (WorkspaceID task)
                      (Crd.Team_Members (Crd.Team_Spec teamDef)) s [] leaderMind0 with
              | Panic v => Panic v
              | Ret (members, leaderMind) =>
                  if Nat.eqb (length members) 0 && negb (is_Some_b leader)
                  then Ret (Err "team has no valid members or leader")
                  else
                    match leaderMind with
                    | None => Ret (Err "no mind found for team")
                    | Some mind =>
                        Ret (Ok {| Cfg_Type := "team";
                                   Cfg_Prompt := Prompt task;
                                   Cfg_Model := model_of mind;
                                   Cfg_Soul := {| SoulCfg_Name := ""; SoulCfg_Personality := "" |};
                                   Cfg_Team :=
                                     Some {| TeamCfg_Name := Crd.Name (Crd.Team_Metadata teamDef);
                                             TeamCfg_Mode := Crd.Team_Mode (Crd.Team_Spec teamDef);
                                             TeamCfg_Leader := leader;
                                             TeamCfg_Members := members;
                                             TeamCfg_Description :=
                                               Crd.Team_Description (Crd.Team_Spec teamDef) |};
                                   Cfg_Context := task_context task;
                                   Cfg_SessionID := sessionID task;
                                   Cfg_MCPTools := [];
                                   Cfg_Stream := true;
                                   Cfg_Debug := false;
                                   Cfg_DebugLevel := 2;
                                   Cfg_ReuseSession := true |})
                    end
              end
          end
      | Ok _ => Ret (Err "invalid team resource")
      end
  end.

(** [AgnoExecutor.executeTeam]. *)
Definition executeTeam (task : Task) (callback : option ProgressCallback) (w : World)
    : outcome ExecResult * World :=
  match teamConfig task (storage w) with
  | Panic v => (Panic v, w)
  | Ret (Err e) => (Ret (failure e), w)
  | Ret (Ok config) =>
      let '(r, w') := runAgnoScript config (ID task) callback w in (Ret r, w')
  end.

(** [completed.Sub(started).Milliseconds()], the clock being in
    nanoseconds. *)
Definition milliseconds_between (started completed : Time) : Z :=
  Z.quot (completed - started) 1000000.

(** [AgnoExecutor.Execute].  It returns its error (or its panic), the
    task struct as it left it, and the world. *)
Definition Execute (task : Task) (callback : option ProgressCallback) (w : World)
    : outcome (option Error) * Task * World :=
  let now := clock w in
  let task1 := set_StartedAt (Some now) (set_Status TaskStatusRunning task) in
  match Storage.Tasks_Update task1 (storage w) with
  | Err err => (Ret (Some ("failed to update task status: " +:+ err)), task1, w)
  | Ok s1 =>
      let w1 := notify callback (ID task1) 10 TaskStatusRunning "Task started" None
                       (with_storage s1 w) in
      let '(r, w2) :=
        if one_of (ResourceType task1) ["bot"; "robot"] then executeBot task1 callback w1
        else if one_of (ResourceType task1) ["team"] then executeTeam task1 callback w1
        else (Ret (failure ("unsupported resource type: " +:+ ResourceType task1)), w1) in
      match r with
      | Panic v => (Panic v, task1, w2)
      | Ret (result, eventLogs, err) =>
          let completed := clock w2 in
          let task2 := set_Completed completed (milliseconds_between now completed) task1 in
          match err with
          | Some e =>
              let task3 := set_Error e (set_Status TaskStatusFailed task2) in
              let w3 := with_storage (Storage.Tasks_Update_ task3 (storage w2)) w2 in
              (Ret (Some e), task3,
               notify callback (ID task3) 0 TaskStatusFailed e None w3)
          | None =>
              let task3 := set_EventLogs eventLogs
                             (set_Progress 100
                                (set_Result result (set_Status TaskStatusCompleted task2))) in
              let w3 := with_storage (Storage.Tasks_Update_ task3 (storage w2)) w2 in
              (Ret None, task3,
               notify callback (ID task3) 100 TaskStatusCompleted "Task completed"
                      (Some {[ "result" := MVString result ]}) w3)
          end
      end
  end.

End Agno.

End Executor.

(** ** Package [orchestrator]: the task queue *)

Module Orchestrator.

Import Models World.

(** [TaskItem].  [Task_] is the task struct as it was when the item was
    made; [Context] is the queue's shared context, see [ctx_done]. *)
Record TaskItem := {
  Task_ : Task;
  Callback : option ProgressCallback
}.

(** [TaskQueue]: the buffered channel [tasks] (its queued items, oldest
    first, its capacity and whether it was closed), whether the shared
    context was cancelled, and the active map. *)
Record TaskQueue := {
  tasks : list TaskItem;
  tasks_cap : nat;
  tasks_closed : bool;
  workers : Z;
  ctx_done : bool;
  active : gmap N TaskItem
}.

(** [NewTaskQueue]. *)
Definition NewTaskQueue (workers : Z) : TaskQueue :=
  {| tasks := []; tasks_cap := 100; tasks_closed := false; workers := workers;
     ctx_done := false; active := ∅ |}.

Definition with_active (a : gmap N TaskItem) (q : TaskQueue) : TaskQueue :=
  {| tasks := tasks q; tasks_cap := tasks_cap q; tasks_closed := tasks_closed q;
     workers := workers q; ctx_done := ctx_done q; active := a |}.

Definition with_tasks (ts : list TaskItem) (q : TaskQueue) : TaskQueue :=
  {| tasks := ts; tasks_cap := tasks_cap q; tasks_closed := tasks_closed q;
     workers := workers q; ctx_done := ctx_done q; active := active q |}.

(** The [TaskExecutor] interface. *)
Class TaskExecutor := {
  Execute : Task -> option ProgressCallback -> World -> outcome (option Error) * Task * World
}.

(** What a queue method did, in the order it did it. *)
Inductive QueueEvent : Type :=
| EvSend (taskID : N)
| EvActiveSet (taskID : N)
| EvActiveDelete (taskID : N)
| EvCallback (taskID : N) (progress : Z) (status : TaskStatus) (message : string)
             (metadata : CallbackMetadata)
| EvExecute (taskID : N).

(** Queue methods act on the queue and on the world, and log their
    steps. *)
Definition QM (A : Type) : Type :=
  TaskQueue * World -> A * (TaskQueue * World) * list QueueEvent.

#[global] Instance QM_ret : MRet QM := fun A a st => (a, st, []).

#[global] Instance QM_bind : MBind QM := fun A B k m st =>
  let '(a, st1, tr1) := m st in
  let '(b, st2, tr2) := k a st1 in
  (b, st2, tr1 ++ tr2).

(** [delete(q.active, taskID)]. *)
Definition delete_active (taskID : N) : QM unit := fun '(q, w) =>
  (tt, (with_active (delete taskID (active q)) q, w), [EvActiveDelete taskID]).

(** [if item.Callback != nil { item.Callback(...) }]. *)
Definition invoke (callback : option ProgressCallback) (taskID : N) (progress : Z)
    (status : TaskStatus) (message : string) (metadata : CallbackMetadata) : QM unit :=
  fun '(q, w) =>
    match callback with
    | Some cb => (tt, (q, cb taskID progress status message metadata w),
                  [EvCallback taskID progress status message metadata])
    | None => (tt, (q, w), [])
    end.

(** [TaskQueue.Enqueue]: the [select] with a [default] case.  A send on a
    closed channel panics. *)
Definition Enqueue (task : Task) (callback : option ProgressCallback)
    : QM (outcome (option Error)) := fun '(q, w) =>
  let item := {| Task_ := task; Callback := callback |} in
  if tasks_closed q then (Panic "send on closed channel", (q, w), [])
  else if (length (tasks q) <? tasks_cap q)%nat then
    (Ret None,
     (with_active (<[ID task := item]> (active q)) (with_tasks (tasks q ++ [item]) q), w),
     [EvSend (ID task); EvActiveSet (ID task)])
  else (Ret (Some "queue is full"), (q, w), []).

(** [TaskQueue.Cancel]. *)
Definition Cancel (taskID : N) : QM (option Error) := fun '(q, w) =>
  match active q !! taskID with
  | None => (Some ("task not found: " +:+ pretty taskID), (q, w), [])
  | Some item =>
      (invoke (Callback item) taskID 0 TaskStatusCancelled "Task cancelled by user" None ≫=
       fun _ => delete_active taskID ≫= fun _ => mret None) (q, w)
  end.

(** [TaskQueue.GetActive]; the order is the map's iteration order. *)
Definition GetActive (q : TaskQueue) : list TaskItem :=
  snd <$> map_to_list (active q).

(** [TaskQueue.Stop], the workers having returned. *)
Definition Stop (q : TaskQueue) : TaskQueue :=
  {| tasks := tasks q; tasks_cap := tasks_cap q; tasks_closed := true;
     workers := workers q; ctx_done := true; active := active q |}.

Section Worker.
Context `{Exec : TaskExecutor}.

(** The call [executor.Execute(item.Context, item.Task, item.Callback)]. *)
Definition run_executor (item : TaskItem) : QM (outcome (option Error)) := fun '(q, w) =>
  let '(r, _, w') := Execute (Task_ item) (Callback item) w in
  (r, (q, w'), [EvExecute (ID (Task_ item))]).

(** [TaskQueue.processTask]: the body, then the deferred function, which
    deletes the active entry and reports a recovered panic. *)
Definition processTask (item : TaskItem) : QM unit :=
  let taskID := ID (Task_ item) in
  r ← run_executor item;
  match r with
  | Ret (Some err) =>
      invoke (Callback item) taskID 0 TaskStatusFailed ("execution failed: " +:+ err) None ≫=
      fun _ => delete_active taskID
  | Ret None => delete_active taskID
  | Panic v =>
      delete_active taskID ≫=
      fun _ => invoke (Callback item) taskID 0 TaskStatusFailed ("panic: " +:+ v) None
  end.

(** How one iteration of the loop of [TaskQueue.worker] ends: the loop
    goes on after an item was processed, the worker returns, or it waits
    on the [select], no case of which is ready. *)
Inductive Turn : Type :=
| GoesOn
| Returned
| Waiting.

(** One iteration of the loop of [TaskQueue.worker], the [select] on
    [ctx.Done] and on the channel.  When the context is done and the
    channel holds an item, both cases are ready and the [select] takes
    either: [done_first] tells which.  A closed channel still yields the
    items it holds, and then [ok] is false. *)
Definition worker_turn (done_first : bool) : QM Turn := fun '(q, w) =>
  match tasks q with
  | item :: rest =>
      if ctx_done q && done_first then (Returned, (q, w), [])
      else (processTask item ≫= fun _ => mret GoesOn) (with_tasks rest q, w)
  | [] =>
      if ctx_done q || tasks_closed q then (Returned, (q, w), [])
      else (Waiting, (q, w), [])
  end.

(** An iteration in which the [select] takes the receive case whenever
    the channel holds an item; [true] when an item was processed. *)
Definition worker_step : QM bool :=
  turn ← worker_turn false;
  mret (match turn with GoesOn => true | _ => false end).

End Worker.

End Orchestrator.

(** ** Package [handlers]: the task handler *)

Module TaskHandler.

Import Models World.

(** [encoding/json] is not part of the repository: the JSON text of the
    log message [{type, content, details?}] is a parameter. *)
Class LogEncoder := {
  json_Marshal_logMessage : string -> string -> Details -> string
}.

Section Handler.
Context `{Enc : LogEncoder}.

(** [metadata["type"].(string)], defaulting to ["info"]. *)
Definition event_type_of (metadata : CallbackMetadata) : string :=
  match metadata with
  | Some m =>
      match m !! "type" with
      | Some (MVString t) => t
      | _ => "info"
      end
  | None => "info"
  end.

(** [metadata["details"].(map[string]interface{})]. *)
Definition details_of (metadata : CallbackMetadata) : Details :=
  match metadata with
  | Some m =>
      match m !! "details" with
      | Some (MVDetails d) => d
      | _ => None
      end
  | None => None
  end.

(** The callback closure [TaskHandler.Create] submits with the task. *)
Definition callback : ProgressCallback :=
  fun taskID progress status message metadata w =>
    let eventType := event_type_of metadata in
    let details := details_of metadata in
    let b := Broadcaster.Broadcast (clock w)
               {| Broadcaster.TaskID := taskID;
                  Broadcaster.Type_ := "log";
                  Broadcaster.Content := message;
                  Broadcaster.Details_ := details;
                  Broadcaster.Progress_ := progress;
                  Broadcaster.Status_ := status_string status;
                  Broadcaster.EventType := eventType;
                  Broadcaster.Timestamp := 0 |}
               (broadcaster w) in
    let w1 := with_broadcaster b w in
    match Storage.Tasks_GetByID taskID (storage w1) with
    | Ok t =>
        let t' := set_Status status (set_Progress progress t) in
        let s1 := Storage.Tasks_Update_ t' (storage w1) in
        let s2 := Storage.Tasks_AddLog
                    {| Log_TaskID := taskID;
                       Log_Level := "info";
                       Log_Message := json_Marshal_logMessage eventType message details;
                       Log_EventType := eventType |} s1 in
        with_storage s2 w1
    | Err _ => w1
    end.

(** The outcomes of [TaskHandler.Cancel], by HTTP status. *)
Inductive CancelResponse : Type :=
| NotFound
| Forbidden
| InternalServerError
| OK.

(** [TaskHandler.Cancel], after the id was read from the request. *)
Definition Cancel (userID taskID : N) : Orchestrator.QM CancelResponse := fun '(q, w) =>
  match Storage.Tasks_GetByID taskID (storage w) with
  | Err _ => (NotFound, (q, w), [])
  | Ok task =>
      if negb (N.eqb (UserID task) userID) then (Forbidden, (q, w), [])
      else
        let '(err, (q', w'), tr) := Orchestrator.Cancel taskID (q, w) in
        match err with
        | Some _ => (InternalServerError, (q', w'), tr)
        | None =>
            let task' := set_Status TaskStatusCancelled task in
            (OK, (q', with_storage (Storage.Tasks_Update_ task' (storage w')) w'), tr)
        end
  end.

End Handler.

End TaskHandler.


(** ** Runs of the broadcaster, as a subscriber sees them *)

Module BroadcasterRuns.

Import Models Broadcaster.

(** A publication: the time of the call and the event passed to
    [Broadcast]. *)
Definition Publication : Type := Time * TaskEvent.

Definition broadcast_all (pubs : list Publication) (b : EventBroadcaster)
    : EventBroadcaster :=
  foldl (fun b p => Broadcast (fst p) (snd p) b) b pubs.

(** The events as [Broadcast] stamps them, in publish order. *)
Definition stamped (pubs : list Publication) : list TaskEvent :=
  map (fun p => stamp (fst p) (snd p)) pubs.

Definition for_task (taskID : N) (evs : list TaskEvent) : list TaskEvent :=
  List.filter (fun e => N.eqb (TaskID e) taskID) evs.

(** The replay buffer of a task, empty when there is none. *)
Definition buffered (b : EventBroadcaster) (taskID : N) : list TaskEvent :=
  match buffers b !! taskID with
  | Some buf => events buf
  | None => []
  end.


(** What happens after a subscriber attached: a broadcast to any task, a
    receive by the subscriber, or another subscriber attaching. *)
Inductive Action : Type :=
| ABroadcast (now : Time) (event : TaskEvent)
| AReceive
| ASubscribe (taskID : N).

(** A run of actions, for the subscriber that holds [ch]; [seen] is what it
    has received so far. *)
Fixpoint run (ch : chan_ref) (acts : list Action) (b : EventBroadcaster)
    (seen : list TaskEvent) : EventBroadcaster * list TaskEvent :=
  match acts with
  | [] => (b, seen)
  | ABroadcast now event :: rest => run ch rest (Broadcast now event b) seen
  | AReceive :: rest =>
      match receive ch b with
      | Some (event, b') => run ch rest b' (seen ++ [event])
      | None => run ch rest b seen
      end
  | ASubscribe taskID :: rest => run ch rest (snd (Subscribe taskID b)) seen
  end.

(** The sequence the subscriber observes: what it received, then what its
    channel still holds. *)
Definition observed (ch : chan_ref) (st : EventBroadcaster * list TaskEvent)
    : list TaskEvent :=
  snd st ++ pending ch (fst st).

(** The events published to a task during a run, as stamped. *)
Fixpoint published (taskID : N) (acts : list Action) : list TaskEvent :=
  match acts with
  | [] => []
  | ABroadcast now event :: rest =>
      if N.eqb (TaskID event) taskID then stamp now event :: published taskID rest
      else published taskID rest
  | _ :: rest => published taskID rest
  end.



(** The event number [i] of a test stream. *)
Definition numbered (taskID : N) (i : nat) : Publication :=
  (Z.of_nat i,
   {| TaskID := taskID; Type_ := "log"; Content := pretty i; Details_ := None;
      Progress_ := Z.of_nat i; Status_ := "running"; EventType := "content";
      Timestamp := 0 |}).

End BroadcasterRuns.


(** ** The parser, in the specification's words *)

Module CrdSpec.

Import Crd.

Definition result_map {A B} (f : A -> B) (r : result A) : result B :=
  match r with
  | Ok a => Ok (f a)
  | Err e => Err e
  end.

(** The six known kinds. *)
Definition known_kind (kind : ResourceKind) : Prop :=
  kind ∈ [KindSoul; KindMind; KindCraft; KindRobot; KindTeam; KindCollaboration].

(** The required fields of section 3: every resource has a name, a Soul a
    personality, a Mind a provider and a model, a Robot a soul and a mind,
    a Team at least one member. *)
Definition required_fields_present (r : Resource) : Prop :=
  Name (GetMetadata r) <> ""
  /\ match r with
     | RSoul s => Personality (Soul_Spec s) <> ""
     | RMind m => Provider (Mind_Spec m) <> "" /\ ModelID (Mind_Spec m) <> ""
     | RRobot r => Robot_Soul (Robot_Spec r) <> "" /\ Robot_Mind (Robot_Spec r) <> ""
     | RTeam t => Team_Members (Team_Spec t) <> []
     | RCraft _ | RCollaboration _ => True
     end.

(** The two discriminator fields a resource carries itself. *)
Definition own_header (r : Resource) : TypeMeta :=
  match r with
  | RSoul s => {| Meta_APIVersion := Soul_APIVersion s; Meta_Kind := Soul_Kind s |}
  | RMind m => {| Meta_APIVersion := Mind_APIVersion m; Meta_Kind := Mind_Kind m |}
  | RCraft c => {| Meta_APIVersion := Craft_APIVersion c; Meta_Kind := Craft_Kind c |}
  | RRobot r => {| Meta_APIVersion := Robot_APIVersion r; Meta_Kind := Robot_Kind r |}
  | RTeam t => {| Meta_APIVersion := Team_APIVersion t; Meta_Kind := Team_Kind t |}
  | RCollaboration c =>
      {| Meta_APIVersion := Collab_APIVersion c; Meta_Kind := Collab_Kind c |}
  end.

Section WithYaml.
Context `{Yaml : YamlCodec}.

(** Deserialization of a text as the typed resource of a kind. *)
Inductive unmarshals (data : string) : ResourceKind -> result Resource -> Prop :=
| unmarshals_Soul :
    unmarshals data KindSoul (result_map RSoul (yaml_Unmarshal_Soul data))
| unmarshals_Mind :
    unmarshals data KindMind (result_map RMind (yaml_Unmarshal_Mind data))
| unmarshals_Craft :
    unmarshals data KindCraft (result_map RCraft (yaml_Unmarshal_Craft data))
| unmarshals_Robot :
    unmarshals data KindRobot (result_map RRobot (yaml_Unmarshal_Robot data))
| unmarshals_Team :
    unmarshals data KindTeam (result_map RTeam (yaml_Unmarshal_Team data))
| unmarshals_Collaboration :
    unmarshals data KindCollaboration
      (result_map RCollaboration (yaml_Unmarshal_Collaboration data)).

(** The rejections the claim lists: the apiVersion is absent or not the
    recognized one, the kind is unknown, or a required field is missing.
    A text whose header cannot be read counts as having no apiVersion. *)
Definition claimed_rejects (data : string) : Prop :=
  match yaml_Unmarshal_meta data with
  | Err _ => True
  | Ok meta =>
      Meta_APIVersion meta <> APIVersion
      \/ ~ known_kind (Meta_Kind meta)
      \/ exists r, unmarshals data (Meta_Kind meta) (Ok r) /\ ~ required_fields_present r
  end.

(** The same, and the text that does not deserialize as its kind. *)
Definition rejects (data : string) : Prop :=
  match yaml_Unmarshal_meta data with
  | Err _ => True
  | Ok meta =>
      Meta_APIVersion meta <> APIVersion
      \/ ~ known_kind (Meta_Kind meta)
      \/ (exists e, unmarshals data (Meta_Kind meta) (Err e))
      \/ exists r, unmarshals data (Meta_Kind meta) (Ok r) /\ ~ required_fields_present r
  end.

(** A text is accepted as [r]: its header names the recognized apiVersion,
    it deserializes as the typed resource [r] of the kind its header
    names, and [r] has its required fields. *)
Definition accepts (data : string) (r : Resource) : Prop :=
  exists meta,
    yaml_Unmarshal_meta data = Ok meta
    /\ Meta_APIVersion meta = APIVersion
    /\ unmarshals data (Meta_Kind meta) (Ok r)
    /\ GetKind r = Meta_Kind meta
    /\ required_fields_present r.

(** The YAML library reads back what it wrote for [r]: the text [out]
    decodes, as a header, to the discriminators of [r] and, at the type of
    [r], to [r]. *)
Definition reads_back (r : Resource) (out : string) : Prop :=
  yaml_Unmarshal_meta out = Ok (own_header r)
  /\ unmarshals out (GetKind r) (Ok r).

(** The header the YAML library decodes from [data] holds the
    discriminators it decodes into the typed resource [r]. *)
Definition header_agrees (data : string) (r : Resource) : Prop :=
  yaml_Unmarshal_meta data = Ok (own_header r).

(** The YAML library reads back whatever it writes for [r]. *)
Definition round_trips (r : Resource) : Prop :=
  forall written, yaml_Marshal r = Ok written -> reads_back r written.

End WithYaml.

End CrdSpec.

(** ** The executor, in the specification's words *)

Module ExecutorSpec.

Import Models World Executor.

Definition is_content (ev : RunnerEvent) : bool := String.eqb (Ev_Type ev) "content".
Definition is_error (ev : RunnerEvent) : bool := String.eqb (Ev_Type ev) "error".
Definition is_cancelled (ev : RunnerEvent) : bool := String.eqb (Ev_Type ev) "cancelled".

(** The concatenation, in order, of the content fields of the [content]
    events. *)
Fixpoint contents (evs : list RunnerEvent) : string :=
  match evs with
  | [] => ""
  | ev :: rest => if is_content ev then Ev_Content ev +:+ contents rest else contents rest
  end.

(** The events before the first [cancelled] event. *)
Fixpoint before_cancelled (evs : list RunnerEvent) : list RunnerEvent :=
  match evs with
  | [] => []
  | ev :: rest => if is_cancelled ev then [] else ev :: before_cancelled rest
  end.

(** The message of the last [error] event, [init] when there is none. *)
Definition last_error (init : string) (evs : list RunnerEvent) : string :=
  foldl (fun acc ev => if is_error ev then Ev_Content ev else acc) init evs.

(** The texts of the lines of an output: each line without the carriage
    return that may end it. *)
Definition texts (lines : list string) : list string := map dropCR lines.

(** Every line of an output is shorter than the 64 KiB the scanner can
    hold, so that the read loop reaches the end of the output. *)
Definition within_limit (lines : list string) : Prop :=
  forallb (fun line => negb (too_long line)) lines = true.

(** No live row of the repository has this workspace, name and type. *)
Definition missing (workspaceID : N) (name : string) (resourceType : ResourceType_)
    (s : Storage.Storage) : Prop :=
  forall r, r ∈ Storage.resources s ->
    Storage.resource_matches workspaceID name resourceType r = false.

(** Two databases that hold the same repository and fail alike. *)
Definition same_repository (s s' : Storage.Storage) : Prop :=
  Storage.db_error s = Storage.db_error s'
  /\ Storage.resources s = Storage.resources s'.

(** A callback that leaves the repository alone: it may write task rows,
    logs and broadcasts. *)
Definition keeps_repository (callback : option ProgressCallback) : Prop :=
  forall taskID progress status message metadata w,
    same_repository
      (storage (notify callback taskID progress status message metadata w))
      (storage w).

Section WithEnv.
Context `{Yaml : Crd.YamlCodec} `{Env : RunnerEnv}.

(** The events the lines read from stdout decode to, in stream order. *)
Definition events (lines : list string) : list RunnerEvent :=
  omap json_Unmarshal_event lines.

(** The lines that decode to an event, up to and with the first
    [cancelled] one. *)
Fixpoint logged (lines : list string) : list string :=
  match lines with
  | [] => []
  | line :: rest =>
      match json_Unmarshal_event line with
      | None => logged rest
      | Some ev => if is_cancelled ev then [line] else line :: logged rest
      end
  end.

(** Resource resolution: the configuration [Execute] obtains for a task
    through [executeBot] or [executeTeam], the error it returns instead,
    or its panic. *)
Definition resolve (task : Task) (s : Storage.Storage) : outcome (result AgnoConfig) :=
  if one_of (ResourceType task) ["bot"; "robot"] then botConfig task s
  else if one_of (ResourceType task) ["team"] then teamConfig task s
  else Ret (Err ("unsupported resource type: " +:+ ResourceType task)).

(** The member robots that load, in the order of their names. *)
Fixpoint loaded (workspaceID : N) (names : list string) (s : Storage.Storage)
    : list (AgnoMemberConfig * Crd.Mind) :=
  match names with
  | [] => []
  | name :: rest =>
      match loadRobotAsMember workspaceID name s with
      | Ret (Ok member) => member :: loaded workspaceID rest s
      | _ => loaded workspaceID rest s
      end
  end.

(** No robot of the list panics while it is loaded. *)
Definition loads_quietly (workspaceID : N) (names : list string) (s : Storage.Storage)
    : Prop :=
  forall name, name ∈ names ->
    forall v, loadRobotAsMember workspaceID name s <> Panic v.

End WithEnv.

End ExecutorSpec.

(** ** Task rows *)

Module TaskRows.

Import Models World.

(** The row stored under a task id. *)
Definition row_of (id : N) (w : World) : option Task :=
  Storage.tasks (storage w) !! id.

(** The status of a task row, if the row exists. *)
Definition status_of (id : N) (w : World) : option TaskStatus :=
  Status <$> row_of id w.

(** The task has a row, stored under its primary key. *)
Definition has_row (id : N) (w : World) : Prop :=
  exists row, row_of id w = Some row /\ ID row = id.

End TaskRows.

(** ** Package [orchestrator]: the executor the orchestrator installs *)

Module Wiring.

(** [orchestrator.New] gives the queue an [AgnoExecutor]. *)
#[global] Instance AgnoExecutor `{Yaml : Crd.YamlCodec} `{Env : Executor.RunnerEnv}
  : Orchestrator.TaskExecutor :=
  {| Orchestrator.Execute := Executor.Execute |}.

End Wiring.

(** ** Sample documents, repository and runner

    Concrete inputs for the examples: YAML documents with the values the
    YAML library decodes them to, a repository holding them, and runner
    streams with the events the JSON library decodes their lines to.  The
    codecs are tables over these inputs; outside the tables they report a
    decoding error. *)

Module Samples.

Import Models.

Definition doc_soul_a : string :=
"apiVersion: xgent.ai/v1
kind: Soul
metadata:
  name: a
spec:
  personality: You are helpful.
".

(** The same Soul, written with a comment and its keys in another order. *)
Definition doc_soul_a_loose : string :=
"# the helper
kind: Soul
apiVersion: xgent.ai/v1
spec:
  personality: You are helpful.
metadata:
  name: a
".

Definition doc_mind_m : string :=
"apiVersion: xgent.ai/v1
kind: Mind
metadata:
  name: m
spec:
  provider: ollama
  model_id: llama3
".

Definition doc_robot_r : string :=
"apiVersion: xgent.ai/v1
kind: Robot
metadata:
  name: r
spec:
  soul: a
  mind: m
".

(** The texts [yaml.Marshal] writes for the Soul, the Mind and the Robot
    above: nested keys are indented by four spaces, empty [omitempty]
    fields are left out. *)
Definition written_soul_a : string :=
"apiVersion: xgent.ai/v1
kind: Soul
metadata:
    name: a
spec:
    personality: You are helpful.
".

Definition written_mind_m : string :=
"apiVersion: xgent.ai/v1
kind: Mind
metadata:
    name: m
spec:
    provider: ollama
    model_id: llama3
".

(** The text [yaml.Marshal] writes for the Mind decoded as a free-form
    map: the keys of a map are written in sorted order. *)
Definition resorted_mind_m : string :=
"apiVersion: xgent.ai/v1
kind: Mind
metadata:
    name: m
spec:
    model_id: llama3
    provider: ollama
".

Definition written_robot_r : string :=
"apiVersion: xgent.ai/v1
kind: Robot
metadata:
    name: r
spec:
    soul: a
    mind: m
".

(** A collaboration whose conditions hold a float of integral value. *)
Definition doc_collab_scale : string :=
"apiVersion: xgent.ai/v1
kind: Collaboration
metadata:
    name: scale
spec:
    type: sequential
    steps: []
    conditions:
        ratio: 3.0
".

(** What [yaml.Marshal] writes for it: the float in its shortest form. *)
Definition written_collab_scale : string :=
"apiVersion: xgent.ai/v1
kind: Collaboration
metadata:
    name: scale
spec:
    type: sequential
    steps: []
    conditions:
        ratio: 3
".

(** A robot whose soul does not exist. *)
Definition doc_robot_haunted : string :=
"apiVersion: xgent.ai/v1
kind: Robot
metadata:
  name: haunted
spec:
  soul: ghost
  mind: m
".

(** A robot whose soul is stored with a text that is not YAML. *)
Definition doc_robot_torn : string :=
"apiVersion: xgent.ai/v1
kind: Robot
metadata:
  name: torn
spec:
  soul: scrap
  mind: m
".

Definition doc_scrap : string := "personality: [unclosed".

(** A well-formed Soul whose [capabilities] is a scalar, not a list. *)
Definition doc_soul_badtype : string :=
"apiVersion: xgent.ai/v1
kind: Soul
metadata:
  name: b
spec:
  personality: You are helpful.
  capabilities: notalist
".

(** A team whose leader does not exist and whose one member does. *)
Definition doc_team_headless : string :=
"apiVersion: xgent.ai/v1
kind: Team
metadata:
  name: headless
spec:
  leader: nobody
  members:
    - r
  mode: coordinate
".

(** A team without leader, with a missing member before a present one. *)
Definition doc_team_pair : string :=
"apiVersion: xgent.ai/v1
kind: Team
metadata:
  name: pair
spec:
  members:
    - absent
    - r
  mode: coordinate
".

Definition meta_of (name : string) : Crd.Metadata :=
  {| Crd.Name := name; Crd.Description := ""; Crd.Labels := ∅; Crd.Annotations := ∅;
     Crd.CreatedAt := 0; Crd.UpdatedAt := 0 |}.

Definition soul_a : Crd.Soul :=
  {| Crd.Soul_APIVersion := "xgent.ai/v1"; Crd.Soul_Kind := "Soul";
     Crd.Soul_Metadata := meta_of "a";
     Crd.Soul_Spec := {| Crd.Personality := "You are helpful."; Crd.Capabilities := [];
                         Crd.Constraints := []; Crd.Examples := [] |} |}.

Definition mind_m : Crd.Mind :=
  {| Crd.Mind_APIVersion := "xgent.ai/v1"; Crd.Mind_Kind := "Mind";
     Crd.Mind_Metadata := meta_of "m";
     Crd.Mind_Spec := {| Crd.Provider := "ollama"; Crd.ModelID := "llama3";
                         Crd.APIKey := ""; Crd.BaseURL := ""; Crd.Temperature := 0;
                         Crd.MaxTokens := 0; Crd.Headers := ∅ |} |}.

Definition robot_of (name soul mind : string) : Crd.Robot :=
  {| Crd.Robot_APIVersion := "xgent.ai/v1"; Crd.Robot_Kind := "Robot";
     Crd.Robot_Metadata := meta_of name;
     Crd.Robot_Spec := {| Crd.Robot_Soul := soul; Crd.Robot_Mind := mind;
                          Crd.Robot_Craft := ""; Crd.Robot_SessionID := "";
                          Crd.Robot_MaxHistory := 0 |} |}.

Definition team_of (name leader : string) (members : list string) : Crd.Team :=
  {| Crd.Team_APIVersion := "xgent.ai/v1"; Crd.Team_Kind := "Team";
     Crd.Team_Metadata := meta_of name;
     Crd.Team_Spec := {| Crd.Team_Leader := leader; Crd.Team_Members := members;
                         Crd.Team_Mode := "coordinate"; Crd.Team_Craft := "";
                         Crd.Team_Description := "" |} |}.

(** The bits of the [float64] 3.0. *)
Definition float64_three : N := 0x4008000000000000.

Definition collab_scale (ratio : Dyn) : Crd.Collaboration :=
  {| Crd.Collab_APIVersion := "xgent.ai/v1"; Crd.Collab_Kind := "Collaboration";
     Crd.Collab_Metadata := meta_of "scale";
     Crd.Collab_Spec := {| Crd.Collab_Type := "sequential"; Crd.Collab_Steps := [];
                           Crd.Collab_Conditions := [("ratio", ratio)] |} |}.

(** Lookup in a table of decoded documents. *)
Fixpoint decoded {T} (table : list (string * T)) (data : string) : result T :=
  match table with
  | [] => Err "yaml: unmarshal errors"
  | (doc, v) :: rest => if String.eqb doc data then Ok v else decoded rest data
  end.

Definition header (kind : string) : Crd.TypeMeta :=
  {| Crd.Meta_APIVersion := "xgent.ai/v1"; Crd.Meta_Kind := kind |}.

(** Equality of resources is decidable. *)
#[global] Instance Dyn_eq_dec : EqDecision Dyn.
Proof.
  refine (fix go (x y : Dyn) {struct x} : Decision (x = y) :=
    match x, y with
    | DNull, DNull => left eq_refl
    | DBool a, DBool b => cast_if (decide (a = b))
    | DInt a, DInt b => cast_if (decide (a = b))
    | DFloat a, DFloat b => cast_if (decide (a = b))
    | DStr a, DStr b => cast_if (decide (a = b))
    | DList a, DList b => cast_if (@decide (a = b) (@list_eq_dec _ go a b))
    | DMap a, DMap b =>
        cast_if (@decide (a = b) (@list_eq_dec _ (@prod_eq_dec _ _ _ go) a b))
    | _, _ => right _
    end); congruence.
Defined.

#[global] Instance Metadata_eq_dec : EqDecision Crd.Metadata.
Proof. solve_decision. Defined.
#[global] Instance SoulSpec_eq_dec : EqDecision Crd.SoulSpec.
Proof. solve_decision. Defined.
#[global] Instance Soul_eq_dec : EqDecision Crd.Soul.
Proof. solve_decision. Defined.
#[global] Instance MindSpec_eq_dec : EqDecision Crd.MindSpec.
Proof. solve_decision. Defined.
#[global] Instance Mind_eq_dec : EqDecision Crd.Mind.
Proof. solve_decision. Defined.
#[global] Instance ToolConfig_eq_dec : EqDecision Crd.ToolConfig.
Proof. solve_decision. Defined.
#[global] Instance MCPServer_eq_dec : EqDecision Crd.MCPServer.
Proof. solve_decision. Defined.
#[global] Instance MCPConfig_eq_dec : EqDecision Crd.MCPConfig.
Proof. solve_decision. Defined.
#[global] Instance CraftSpec_eq_dec : EqDecision Crd.CraftSpec.
Proof. solve_decision. Defined.
#[global] Instance Craft_eq_dec : EqDecision Crd.Craft.
Proof. solve_decision. Defined.
#[global] Instance RobotSpec_eq_dec : EqDecision Crd.RobotSpec.
Proof. solve_decision. Defined.
#[global] Instance Robot_eq_dec : EqDecision Crd.Robot.
Proof. solve_decision. Defined.
#[global] Instance TeamSpec_eq_dec : EqDecision Crd.TeamSpec.
Proof. solve_decision. Defined.
#[global] Instance Team_eq_dec : EqDecision Crd.Team.
Proof. solve_decision. Defined.
#[global] Instance CollaborationStep_eq_dec : EqDecision Crd.CollaborationStep.
Proof. solve_decision. Defined.
#[global] Instance CollaborationSpec_eq_dec : EqDecision Crd.CollaborationSpec.
Proof. solve_decision. Defined.
#[global] Instance Collaboration_eq_dec : EqDecision Crd.Collaboration.
Proof. solve_decision. Defined.
#[global] Instance Resource_eq_dec : EqDecision Crd.Resource.
Proof. solve_decision. Defined.

(** Lookup in a table of encoded resources. *)
Fixpoint encoded (table : list (Crd.Resource * string)) (r : Crd.Resource)
    : result string :=
  match table with
  | [] => Err "yaml: cannot marshal"
  | (r', doc) :: rest => if decide (r' = r) then Ok doc else encoded rest r
  end.

#[global] Instance sample_yaml : Crd.YamlCodec := {|
  Crd.yaml_Unmarshal_meta :=
    decoded [(doc_soul_a, header "Soul"); (doc_soul_a_loose, header "Soul");
             (doc_mind_m, header "Mind");
             (doc_robot_r, header "Robot"); (doc_robot_haunted, header "Robot");
             (doc_robot_torn, header "Robot"); (doc_soul_badtype, header "Soul");
             (doc_team_headless, header "Team"); (doc_team_pair, header "Team");
             (written_soul_a, header "Soul"); (written_mind_m, header "Mind");
             (resorted_mind_m, header "Mind");
             (written_robot_r, header "Robot");
             (doc_collab_scale, header "Collaboration");
             (written_collab_scale, header "Collaboration")];
  Crd.yaml_Unmarshal_Soul :=
    decoded [(doc_soul_a, soul_a); (doc_soul_a_loose, soul_a); (written_soul_a, soul_a)];
  Crd.yaml_Unmarshal_Mind :=
    decoded [(doc_mind_m, mind_m); (written_mind_m, mind_m); (resorted_mind_m, mind_m)];
  Crd.yaml_Unmarshal_Craft := decoded [];
  Crd.yaml_Unmarshal_Robot :=
    decoded [(doc_robot_r, robot_of "r" "a" "m");
             (doc_robot_haunted, robot_of "haunted" "ghost" "m");
             (doc_robot_torn, robot_of "torn" "scrap" "m");
             (written_robot_r, robot_of "r" "a" "m")];
  Crd.yaml_Unmarshal_Team :=
    decoded [(doc_team_headless, team_of "headless" "nobody" ["r"]);
             (doc_team_pair, team_of "pair" "" ["absent"; "r"])];
  Crd.yaml_Unmarshal_Collaboration :=
    decoded [(doc_collab_scale, collab_scale (DFloat float64_three));
             (written_collab_scale, collab_scale (DInt 3))];
  Crd.yaml_Marshal :=
    encoded [(Crd.RSoul soul_a, written_soul_a); (Crd.RMind mind_m, written_mind_m);
             (Crd.RRobot (robot_of "r" "a" "m"), written_robot_r);
             (Crd.RCollaboration (collab_scale (DFloat float64_three)),
              written_collab_scale);
             (Crd.RCollaboration (collab_scale (DInt 3)), written_collab_scale)]
|}.

Definition row (id : N) (type name spec : string) : Models.Resource :=
  {| Res_ID := id; Res_WorkspaceID := 1; Res_Type := type; Res_Name := name;
     Res_Description := ""; Res_Spec := spec; Res_Status := "active" |}.

(** The repository of workspace 1.  There is no Soul named [ghost], no
    Robot named [absent] or [nobody]. *)
Definition repository : list Models.Resource :=
  [ row 1 "Soul" "a" doc_soul_a;
    row 2 "Mind" "m" doc_mind_m;
    row 3 "Robot" "r" doc_robot_r;
    row 4 "Robot" "haunted" doc_robot_haunted;
    row 5 "Soul" "scrap" doc_scrap;
    row 6 "Robot" "torn" doc_robot_torn;
    row 7 "Team" "headless" doc_team_headless;
    row 8 "Team" "pair" doc_team_pair ].

Definition task_for (id : N) (resourceType resourceName prompt : string) : Task :=
  {| ID := id; WorkspaceID := 1; UserID := 1; Status := TaskStatusPending;
     Title := "sample"; Description := ""; Prompt := prompt;
     ResourceType := resourceType; ResourceName := resourceName; Mode := "";
     GitURL := ""; BranchName := ""; Result := ""; Error_ := ""; Progress := 0;
     EventLogs := ""; StartedAt := None; CompletedAt := None; Duration := 0 |}.

(** The double quote. *)
Definition dq : string := String "034"%char "".

(** The JSON text of a flat object of string fields. *)
Fixpoint json_fields (fields : list (string * string)) : string :=
  match fields with
  | [] => ""
  | [(k, v)] => dq +:+ k +:+ dq +:+ ":" +:+ dq +:+ v +:+ dq
  | (k, v) :: rest => dq +:+ k +:+ dq +:+ ":" +:+ dq +:+ v +:+ dq +:+ "," +:+ json_fields rest
  end.

Definition json_object (fields : list (string * string)) : string :=
  "{" +:+ json_fields fields +:+ "}".

Definition line_started : string := json_object [("type", "started")].
Definition line_completed : string := json_object [("type", "completed")].
Definition line_cancelled : string := json_object [("type", "cancelled")].
Definition line_content (c : string) : string :=
  json_object [("type", "content"); ("content", c)].
Definition line_error (c : string) : string :=
  json_object [("type", "error"); ("content", c)].

Definition event (type content : string) : Executor.RunnerEvent :=
  {| Executor.Ev_Type := type; Executor.Ev_Content := content;
     Executor.Ev_Details := None |}.

Fixpoint decoded_line (table : list (string * Executor.RunnerEvent)) (line : string)
    : option Executor.RunnerEvent :=
  match table with
  | [] => None
  | (l, ev) :: rest => if String.eqb l line then Some ev else decoded_line rest line
  end.

(** The runner of the examples; the prompt selects what it does.
    - ["hi"]: started, two contents, completed; exit 0.
    - ["fail"]: a content, an error; exit 1.
    - ["stop"]: a content, cancelled, another content; exit 0.
    - otherwise: no output; exit 0. *)
#[global] Instance sample_runner : Executor.RunnerEnv := {|
  Executor.scriptPath := "/srv/xgent/scripts/agno_runner.py";
  Executor.launch := fun config =>
    let prompt := Executor.Cfg_Prompt config in
    if String.eqb prompt "hi" then
      Executor.Started [line_started; line_content "hello"; line_content " world";
                        line_completed] None
    else if String.eqb prompt "fail" then
      Executor.Started [line_content "partial"; line_error "boom"] (Some "exit status 1")
    else if String.eqb prompt "stop" then
      Executor.Started [line_content "a"; line_cancelled; line_content "b"] None
    else Executor.Started [] None;
  Executor.json_Unmarshal_event :=
    decoded_line [(line_started, event "started" "");
                  (line_completed, event "completed" "");
                  (line_cancelled, event "cancelled" "");
                  (line_content "hello", event "content" "hello");
                  (line_content " world", event "content" " world");
                  (line_content "partial", event "content" "partial");
                  (line_content "a", event "content" "a");
                  (line_content "b", event "content" "b");
                  (line_error "boom", event "error" "boom")]
|}.

(** A log encoder for the examples: the type and content fields only. *)
#[global] Instance sample_encoder : TaskHandler.LogEncoder := {|
  TaskHandler.json_Marshal_logMessage := fun eventType content _ =>
    json_object [("type", eventType); ("content", content)]
|}.

(** A world whose database holds the repository and the given task rows. *)
Definition world_with (rows : list Task) : World.World :=
  {| World.storage :=
       {| Storage.db_error := None;
          Storage.tasks := list_to_map (map (fun t => (ID t, t)) rows);
          Storage.task_logs := [];
          Storage.resources := repository |};
     World.broadcaster := Broadcaster.NewEventBroadcaster;
     World.clock := 1000 |}.

(** A queue item with the handler's callback. *)
Definition item_of (task : Task) : Orchestrator.TaskItem :=
  {| Orchestrator.Task_ := task; Orchestrator.Callback := Some TaskHandler.callback |}.

(** A running queue of the given capacity that holds the given items. *)
Definition queue_holding (capacity : nat) (items : list Orchestrator.TaskItem)
    : Orchestrator.TaskQueue :=
  {| Orchestrator.tasks := items;
     Orchestrator.tasks_cap := capacity;
     Orchestrator.tasks_closed := false;
     Orchestrator.workers := 1;
     Orchestrator.ctx_done := false;
     Orchestrator.active :=
       list_to_map (map (fun i => (ID (Orchestrator.Task_ i), i)) items) |}.

End Samples.
(** ** The broadcaster's methods, as its callers use them *)

Module BroadcasterCalls.

Import Models Broadcaster.

(** A call of [Broadcast] that has released the lock: its event, and the
    channels of its copy of the subscribers it has yet to send to. *)
Record Flight := {
  flying : TaskEvent;
  ahead : list chan_ref
}.

(** The broadcaster with the calls of [Broadcast] that are past their
    unlock. *)
Record State := {
  shared : EventBroadcaster;
  flights : list Flight
}.

Definition initial : State := {| shared := NewEventBroadcaster; flights := [] |}.

Definition with_shared (b : EventBroadcaster) (st : State) : State :=
  {| shared := b; flights := flights st |}.

(** A step of one of the goroutines that use the broadcaster: a call of
    [Subscribe], [Unsubscribe] or [ClearBuffer], a tick of the cleanup
    loop, a receive on a subscriber's channel, the part of a call of
    [Broadcast] up to its unlock ([now] is the clock when it stamps the
    event, [created] when it dates a new buffer), or the next send of
    the call of [Broadcast] number [flight]. *)
Inductive Call : Type :=
| CSubscribe (taskID : N)
| CUnsubscribe (taskID : N) (ch : chan_ref)
| CBroadcast (now created : Time) (event : TaskEvent)
| CSend (flight : nat)
| CClearBuffer (taskID : N)
| CCleanup (now : Time)
| CReceive (ch : chan_ref).

(** A step, with the value of the panic it ends in, if any.  A panic in
    a send ends that call of [Broadcast], which holds no lock then; the
    broadcaster is as the sends before it left it. *)
Definition call (st : State) (c : Call) : State * option string :=
  match c with
  | CSubscribe taskID => (with_shared (snd (Subscribe taskID (shared st))) st, None)
  | CUnsubscribe taskID ch => (with_shared (Unsubscribe taskID ch (shared st)) st, None)
  | CBroadcast now created event0 =>
      let event := stamp now event0 in
      let '(subs, b) := Broadcast_locked created event (shared st) in
      ({| shared := b; flights := flights st ++ [{| flying := event; ahead := subs |}] |},
       None)
  | CSend flight =>
      match flights st !! flight with
      | Some {| flying := event; ahead := ch :: rest |} =>
          match send event ch (shared st) with
          | Ret b =>
              ({| shared := b;
                  flights := <[flight := {| flying := event; ahead := rest |}]> (flights st) |},
               None)
          | Panic v =>
              ({| shared := shared st;
                  flights := <[flight := {| flying := event; ahead := [] |}]> (flights st) |},
               Some v)
          end
      | _ => (st, None)
      end
  | CClearBuffer taskID => (with_shared (ClearBuffer taskID (shared st)) st, None)
  | CCleanup now => (with_shared (cleanup now (shared st)) st, None)
  | CReceive ch =>
      match receive ch (shared st) with
      | Some (_, b) => (with_shared b st, None)
      | None => (st, None)
      end
  end.

(** The state after a sequence of steps, and the panics on the way. *)
Fixpoint calls (cs : list Call) (st : State) : State * list string :=
  match cs with
  | [] => (st, [])
  | c :: rest =>
      let '(st1, panic) := call st c in
      let '(st2, panics) := calls rest st1 in
      (st2, match panic with Some v => v :: panics | None => panics end)
  end.


(** A step that drops no replay buffer. *)
Definition keeps_buffers (c : Call) : bool :=
  match c with CClearBuffer _ | CCleanup _ => false | _ => true end.

(** The broadcasts of a run to a task: the event as stamped, with the
    time read under the lock. *)
Fixpoint broadcasts_to (taskID : N) (cs : list Call) : list (Time * TaskEvent) :=
  match cs with
  | [] => []
  | CBroadcast now created event :: rest =>
      if N.eqb (TaskID event) taskID
      then (created, stamp now event) :: broadcasts_to taskID rest
      else broadcasts_to taskID rest
  | _ :: rest => broadcasts_to taskID rest
  end.

(** The state the broadcaster keeps under its lock is sound: every
    channel listed for a task is allocated and open; a channel is listed
    once, under one task; every channel was made by [Subscribe], with its
    capacity, and holds no more events than that; no replay buffer holds
    more than [maxEventBuffer] events. *)
Record sound (b : EventBroadcaster) : Prop := {
  sound_open : forall t ch, ch ∈ subs_of b t ->
    exists c, heap b !! ch = Some c /\ closed c = false;
  sound_once : forall t, NoDup (subs_of b t);
  sound_apart : forall t t' ch, ch ∈ subs_of b t -> ch ∈ subs_of b t' -> t = t';
  sound_alloc : forall ch c, heap b !! ch = Some c ->
    (ch < next_ref b)%nat /\ cap c = subscriberCap /\ (length (items c) <= cap c)%nat;
  sound_buffer : forall t buf, buffers b !! t = Some buf ->
    (length (events buf) <= maxEventBuffer)%nat
}.

End BroadcasterCalls.

(** ** Package [orchestrator]: the orchestrator and the worker loop *)

Module Orchestration.

Import Models World Orchestrator.

(** [orchestrator.Config]. *)
Record Config := {
  Workers : Z;
  QueueSize : Z;
  WorkspaceDir : string
}.

(** [Orchestrator]: its configuration and its queue.  Its storage is the
    world's, its executor the [TaskExecutor] at hand. *)
Record Orchestrator := {
  config : Config;
  queue : TaskQueue
}.

(** [orchestrator.New]. *)
Definition New (cfg : Config) : Orchestrator :=
  {| config := cfg; queue := NewTaskQueue (Workers cfg) |}.

(** [Orchestrator.SubmitTask], on the orchestrator's queue. *)
Definition SubmitTask (task : Task) (callback : option ProgressCallback)
    : QM (outcome (option Error)) :=
  r ← Enqueue task callback;
  mret (match r with
        | Ret (Some err) => Ret (Some ("failed to enqueue task: " +:+ err))
        | Ret None => Ret None
        | Panic v => Panic v
        end).

(** [Orchestrator.CancelTask]. *)
Definition CancelTask (taskID : N) : QM (option Error) := Cancel taskID.

(** [Orchestrator.GetActiveTasks]. *)
Definition GetActiveTasks (q : TaskQueue) : list TaskItem := GetActive q.

(** Submissions one after the other, with what each returned. *)
Fixpoint submit_all (subs : list (Task * option ProgressCallback))
    : QM (list (outcome (option Error))) :=
  match subs with
  | [] => mret []
  | (task, callback) :: rest =>
      r ← SubmitTask task callback;
      rs ← submit_all rest;
      mret (r :: rs)
  end.

(** The ids of the tasks the executor was called for, in order. *)
Definition executed (tr : list QueueEvent) : list N :=
  omap (fun ev => match ev with EvExecute taskID => Some taskID | _ => None end) tr.

Section Worker.
Context `{Exec : TaskExecutor}.

(** The loop of one [TaskQueue.worker], the only one at work: its
    iterations one after the other, for the choices [done_first] of its
    [select]s, until it returns or waits; [None] when the choices run out
    first. *)
Fixpoint worker (choices : list bool) : QM (option Turn) :=
  match choices with
  | [] => mret None
  | done_first :: rest =>
      turn ← worker_turn done_first;
      match turn with
      | GoesOn => worker rest
      | _ => mret (Some turn)
      end
  end.

End Worker.

End Orchestration.

(** ** More sample documents, rows and runner streams *)

Module MoreSamples.

Import Models.

(** A robot with a craft that is stored. *)
Definition doc_robot_crafty : string :=
"apiVersion: xgent.ai/v1
kind: Robot
metadata:
  name: crafty
spec:
  soul: a
  mind: m
  craft: toolbox
".

(** A robot with a craft that is not stored. *)
Definition doc_robot_tinker : string :=
"apiVersion: xgent.ai/v1
kind: Robot
metadata:
  name: tinker
spec:
  soul: a
  mind: m
  craft: nowhere
".

(** A robot whose soul is stored with the text of a Mind. *)
Definition doc_robot_masked : string :=
"apiVersion: xgent.ai/v1
kind: Robot
metadata:
  name: masked
spec:
  soul: mask
  mind: m
".

Definition doc_craft_toolbox : string :=
"apiVersion: xgent.ai/v1
kind: Craft
metadata:
  name: toolbox
spec:
  mcp:
    servers:
      - name: files
        command: npx
        args:
          - server-filesystem
      - name: web
        command: uvx
".

Definition robot_with (name soul mind craft : string) : Crd.Robot :=
  {| Crd.Robot_APIVersion := "xgent.ai/v1"; Crd.Robot_Kind := "Robot";
     Crd.Robot_Metadata := Samples.meta_of name;
     Crd.Robot_Spec := {| Crd.Robot_Soul := soul; Crd.Robot_Mind := mind;
                          Crd.Robot_Craft := craft; Crd.Robot_SessionID := "";
                          Crd.Robot_MaxHistory := 0 |} |}.

Definition craft_toolbox : Crd.Craft :=
  {| Crd.Craft_APIVersion := "xgent.ai/v1"; Crd.Craft_Kind := "Craft";
     Crd.Craft_Metadata := Samples.meta_of "toolbox";
     Crd.Craft_Spec :=
       {| Crd.Tools := []; Crd.Instructions := ""; Crd.Environment := ∅;
          Crd.MCP :=
            Some {| Crd.Servers :=
                      [ {| Crd.Server_Name := "files"; Crd.Server_Command := "npx";
                           Crd.Server_Args := ["server-filesystem"];
                           Crd.Server_Env := ∅ |};
                        {| Crd.Server_Name := "web"; Crd.Server_Command := "uvx";
                           Crd.Server_Args := []; Crd.Server_Env := ∅ |} ] |} |} |}.

(** The YAML codec of these documents and of those of [Samples] they
    refer to. *)
Definition yaml_codec : Crd.YamlCodec := {|
  Crd.yaml_Unmarshal_meta :=
    Samples.decoded
      [(Samples.doc_soul_a, Samples.header "Soul");
       (Samples.doc_mind_m, Samples.header "Mind");
       (Samples.doc_robot_r, Samples.header "Robot");
       (doc_robot_crafty, Samples.header "Robot");
       (doc_robot_tinker, Samples.header "Robot");
       (doc_robot_masked, Samples.header "Robot");
       (doc_craft_toolbox, Samples.header "Craft");
       (Samples.doc_team_pair, Samples.header "Team")];
  Crd.yaml_Unmarshal_Soul := Samples.decoded [(Samples.doc_soul_a, Samples.soul_a)];
  Crd.yaml_Unmarshal_Mind := Samples.decoded [(Samples.doc_mind_m, Samples.mind_m)];
  Crd.yaml_Unmarshal_Craft := Samples.decoded [(doc_craft_toolbox, craft_toolbox)];
  Crd.yaml_Unmarshal_Robot :=
    Samples.decoded
      [(Samples.doc_robot_r, Samples.robot_of "r" "a" "m");
       (doc_robot_crafty, robot_with "crafty" "a" "m" "toolbox");
       (doc_robot_tinker, robot_with "tinker" "a" "m" "nowhere");
       (doc_robot_masked, robot_with "masked" "mask" "m" "")];
  Crd.yaml_Unmarshal_Team :=
    Samples.decoded [(Samples.doc_team_pair, Samples.team_of "pair" "" ["absent"; "r"])];
  Crd.yaml_Unmarshal_Collaboration := Samples.decoded [];
  Crd.yaml_Marshal := Samples.encoded []
|}.

(** The repository of workspace 1; the row of the Soul [mask] holds the
    text of the Mind [m]. *)
Definition repository : list Models.Resource :=
  [ Samples.row 1 "Soul" "a" Samples.doc_soul_a;
    Samples.row 2 "Mind" "m" Samples.doc_mind_m;
    Samples.row 3 "Robot" "r" Samples.doc_robot_r;
    Samples.row 4 "Robot" "crafty" doc_robot_crafty;
    Samples.row 5 "Craft" "toolbox" doc_craft_toolbox;
    Samples.row 6 "Robot" "tinker" doc_robot_tinker;
    Samples.row 7 "Soul" "mask" Samples.doc_mind_m;
    Samples.row 8 "Robot" "masked" doc_robot_masked;
    Samples.row 9 "Team" "pair" Samples.doc_team_pair ].

Definition database (error : option Error) (rows : list Task) : Storage.Storage :=
  {| Storage.db_error := error;
     Storage.tasks := list_to_map (map (fun t => (ID t, t)) rows);
     Storage.task_logs := [];
     Storage.resources := repository |}.

(** A world whose database holds the repository and the given task rows
    and fails with [error], if any. *)
Definition world (error : option Error) (rows : list Task) : World.World :=
  {| World.storage := database error rows;
     World.broadcaster := Broadcaster.NewEventBroadcaster;
     World.clock := 1000 |}.

Definition line_traceback : string := "Traceback (most recent call last):".

(** [s] written 2^n times. *)
Fixpoint doubled (n : nat) (s : string) : string :=
  match n with
  | O => s
  | S n' => doubled n' (s +:+ s)
  end.

(** A text of 64 KiB. *)
Definition flood : string := doubled 16 "x".

(** A runner; the prompt selects what it does.
    - ["abort"]: a content, a line that is no JSON, cancelled, another
      content; killed by a signal.
    - ["crash"]: a content, a line that is no JSON; exit 139.
    - ["noisy"]: started, a line that is no JSON, a content, completed;
      exit 0.
    - ["flood"]: started, a line that is no JSON, the content [head], a
      content of 64 KiB, the content [tail], completed; exit 0.
    - otherwise: no output; exit 0. *)
Definition runner : Executor.RunnerEnv := {|
  Executor.scriptPath := "/srv/xgent/scripts/agno_runner.py";
  Executor.launch := fun config =>
    let prompt := Executor.Cfg_Prompt config in
    if String.eqb prompt "abort" then
      Executor.Started [Samples.line_content "a"; line_traceback; Samples.line_cancelled;
                        Samples.line_content "b"] (Some "signal: killed")
    else if String.eqb prompt "crash" then
      Executor.Started [Samples.line_content "x"; line_traceback] (Some "exit status 139")
    else if String.eqb prompt "noisy" then
      Executor.Started [Samples.line_started; line_traceback; Samples.line_content "hello";
                        Samples.line_completed] None
    else if String.eqb prompt "flood" then
      Executor.Started [Samples.line_started; line_traceback; Samples.line_content "head";
                        Samples.line_content flood; Samples.line_content "tail";
                        Samples.line_completed] None
    else Executor.Started [] None;
  Executor.json_Unmarshal_event :=
    Samples.decoded_line
      [(Samples.line_started, Samples.event "started" "");
       (Samples.line_completed, Samples.event "completed" "");
       (Samples.line_cancelled, Samples.event "cancelled" "");
       (Samples.line_content "hello", Samples.event "content" "hello");
       (Samples.line_content "a", Samples.event "content" "a");
       (Samples.line_content "b", Samples.event "content" "b");
       (Samples.line_content "x", Samples.event "content" "x");
       (Samples.line_content "head", Samples.event "content" "head");
       (Samples.line_content "tail", Samples.event "content" "tail");
       (Samples.line_content flood, Samples.event "content" flood)]
|}.

End MoreSamples.

(** ** Package [llm]: the clients of the model providers *)

Module Llm.

(** [llm.Message]. *)
Record Message := {
  Msg_Role : string;
  Msg_Content : string
}.

(** The three client types of the package, by their fields. *)
Inductive Client : Type :=
| OllamaClient (model baseURL : string)
| OpenAIClient (model apiKey baseURL : string)
| GeminiClient (model apiKey baseURL : string).

(** [NewOllamaClient]. *)
Definition NewOllamaClient (model baseURL : string) : Client :=
  OllamaClient model (if String.eqb baseURL "" then "http://localhost:11434" else baseURL).

(** [NewOpenAIClient]. *)
Definition NewOpenAIClient (model apiKey : string) : Client :=
  OpenAIClient model apiKey "https://api.openai.com/v1".

(** [NewOpenAICompatibleClient]. *)
Definition NewOpenAICompatibleClient (model apiKey baseURL : string) : Client :=
  OpenAIClient model apiKey
    (if String.eqb baseURL "" then "https://api.openai.com/v1" else baseURL).

(** [NewGeminiClient]. *)
Definition NewGeminiClient (model apiKey : string) : Client :=
  GeminiClient model apiKey "https://generativelanguage.googleapis.com/v1beta".

(** The method [Name] of the three clients. *)
Definition Name (c : Client) : string :=
  match c with
  | OllamaClient model _ => "ollama:" +:+ model
  | OpenAIClient model _ _ => "openai:" +:+ model
  | GeminiClient model _ _ => "gemini:" +:+ model
  end.

Record geminiPart := { Part_Text : string }.

Record geminiContent := {
  Gem_Role : string;
  Gem_Parts : list geminiPart
}.

(** Two newlines. *)
Definition blank_line : string := String "010"%char (String "010"%char "").

(** One iteration of the loop of [convertToGeminiContents], on its two
    locals. *)
Definition convert_message (st : list geminiContent * string) (msg : Message)
    : list geminiContent * string :=
  let '(contents, systemPrompt) := st in
  if String.eqb (Msg_Role msg) "system" then (contents, Msg_Content msg)
  else
    let role := if String.eqb (Msg_Role msg) "assistant" then "model" else Msg_Role msg in
    if negb (String.eqb systemPrompt "") && String.eqb role "user"
    then (contents ++ [{| Gem_Role := role;
                          Gem_Parts := [{| Part_Text := systemPrompt +:+ blank_line
                                                        +:+ Msg_Content msg |}] |}],
          "")
    else (contents ++ [{| Gem_Role := role;
                          Gem_Parts := [{| Part_Text := Msg_Content msg |}] |}],
          systemPrompt).

(** [convertToGeminiContents]. *)
Definition convertToGeminiContents (messages : list Message) : list geminiContent :=
  fst (foldl convert_message ([], "") messages).

(** The role Gemini is given for a message that is no system message. *)
Definition gemini_role (msg : Message) : string :=
  if String.eqb (Msg_Role msg) "assistant" then "model" else Msg_Role msg.

(** A message passed on as it is. *)
Definition passed_on (msg : Message) : geminiContent :=
  {| Gem_Role := gemini_role msg; Gem_Parts := [{| Part_Text := Msg_Content msg |}] |}.

Definition is_system (msg : Message) : bool := String.eqb (Msg_Role msg) "system".

Definition is_user (msg : Message) : bool := String.eqb (Msg_Role msg) "user".

End Llm.

(** ** Package [executor]: the client cache of [Executor] *)

Module LlmExecutor.

(** [os.Getenv] is the operating system's. *)
Class Environ := {
  Getenv : string -> string
}.

(** [Executor], by its client cache. *)
Record Executor := {
  llmClients : gmap string Llm.Client
}.

(** [executor.New]. *)
Definition New : Executor := {| llmClients := ∅ |}.

Section Clients.
Context `{Os : Environ}.

(** [fmt.Sprintf("%s:%s:%s", provider, model, baseURL)]. *)
Definition cacheKey (mind : Crd.Mind) : string :=
  Crd.Provider (Crd.Mind_Spec mind) +:+ ":" +:+ Crd.ModelID (Crd.Mind_Spec mind)
  +:+ ":" +:+ Crd.BaseURL (Crd.Mind_Spec mind).

(** [if apiKey == "" { apiKey = os.Getenv(name) }]. *)
Definition or_env (apiKey name : string) : string :=
  if String.eqb apiKey "" then Getenv name else apiKey.

Definition no_key (provider : string) : Error :=
  "API key not configured for provider: " +:+ provider.

(** The [switch mind.Spec.Provider] of [getLLMClient]. *)
Definition make_client (mind : Crd.Mind) : result Llm.Client :=
  let spec := Crd.Mind_Spec mind in
  let provider := Crd.Provider spec in
  let compatible name url :=
    let apiKey := or_env (Crd.APIKey spec) name in
    if String.eqb apiKey "" then Err (no_key provider)
    else Ok (Llm.NewOpenAICompatibleClient (Crd.ModelID spec) apiKey url) in
  if String.eqb provider "ollama" then
    let baseURL := if String.eqb (Crd.BaseURL spec) "" then "http://localhost:11434"
                   else Crd.BaseURL spec in
    Ok (Llm.NewOllamaClient (Crd.ModelID spec) baseURL)
  else if String.eqb provider "openai" then
    let apiKey := or_env (Crd.APIKey spec) "OPENAI_API_KEY" in
    if String.eqb apiKey "" then Err (no_key provider)
    else if negb (String.eqb (Crd.BaseURL spec) "")
         then Ok (Llm.NewOpenAICompatibleClient (Crd.ModelID spec) apiKey (Crd.BaseURL spec))
         else Ok (Llm.NewOpenAIClient (Crd.ModelID spec) apiKey)
  else if String.eqb provider "groq" then
    compatible "GROQ_API_KEY" "https://api.groq.com/openai/v1"
  else if String.eqb provider "together" then
    compatible "TOGETHER_API_KEY" "https://api.together.xyz/v1"
  else if String.eqb provider "deepseek" then
    compatible "DEEPSEEK_API_KEY" "https://api.deepseek.com/v1"
  else if String.eqb provider "openrouter" then
    compatible "OPENROUTER_API_KEY" "https://openrouter.ai/api/v1"
  else if String.eqb provider "gemini" || String.eqb provider "google" then
    let apiKey := or_env (or_env (Crd.APIKey spec) "GEMINI_API_KEY") "GOOGLE_API_KEY" in
    if String.eqb apiKey "" then Err (no_key provider)
    else Ok (Llm.NewGeminiClient (Crd.ModelID spec) apiKey)
  else if negb (String.eqb (Crd.BaseURL spec) "") then
    Ok (Llm.NewOpenAICompatibleClient (Crd.ModelID spec) (Crd.APIKey spec)
          (Crd.BaseURL spec))
  else Err ("unsupported LLM provider: " +:+ provider
            +:+ " (provide base_url for OpenAI-compatible APIs)").

(** [Executor.getLLMClient]. *)
Definition getLLMClient (mind : Crd.Mind) (e : Executor) : result Llm.Client * Executor :=
  match llmClients e !! cacheKey mind with
  | Some client => (Ok client, e)
  | None =>
      match make_client mind with
      | Err err => (Err err, e)
      | Ok client => (Ok client, {| llmClients := <[cacheKey mind := client]> (llmClients e) |})
      end
  end.

(** The environment variables a provider's key is looked up in, in
    order, when the Mind has none; [None] for the providers that take no
    key from the environment. *)
Definition key_variables (provider : string) : option (list string) :=
  if String.eqb provider "openai" then Some ["OPENAI_API_KEY"]
  else if String.eqb provider "groq" then Some ["GROQ_API_KEY"]
  else if String.eqb provider "together" then Some ["TOGETHER_API_KEY"]
  else if String.eqb provider "deepseek" then Some ["DEEPSEEK_API_KEY"]
  else if String.eqb provider "openrouter" then Some ["OPENROUTER_API_KEY"]
  else if String.eqb provider "gemini" || String.eqb provider "google"
       then Some ["GEMINI_API_KEY"; "GOOGLE_API_KEY"]
  else None.

End Clients.

End LlmExecutor.

(** ** Package [attachment]: the document parser *)

Module Attachment.

(** [models.MaxTextLength]. *)
Definition MaxTextLength : nat := N.to_nat 50000.

(** [models.MaxFileSize]. *)
Definition MaxFileSize : Z := 20 * 1024 * 1024.

(** [models.SupportedMimeTypes]; the order of the groups plays no role in
    the functions below. *)
Definition SupportedMimeTypes : list (string * list string) :=
  [ ("document",
     [ "application/pdf";
       "application/msword";
       "application/vnd.openxmlformats-officedocument.wordprocessingml.document";
       "application/vnd.ms-powerpoint";
       "application/vnd.openxmlformats-officedocument.presentationml.presentation";
       "application/vnd.ms-excel";
       "application/vnd.openxmlformats-officedocument.spreadsheetml.sheet";
       "text/csv" ]);
    ("text",
     [ "text/plain"; "text/markdown"; "text/html"; "application/json";
       "application/xml" ]);
    ("image",
     [ "image/jpeg"; "image/png"; "image/gif"; "image/bmp"; "image/webp";
       "image/svg+xml" ]) ].

(** [DocumentParser.parseText]: the first [MaxTextLength] bytes. *)
Definition parseText (data : string) : result string :=
  if (MaxTextLength <? String.length data)%nat
  then Ok (String.substring 0 MaxTextLength data)
  else Ok data.

(** [DocumentParser.parsePDF], [parseWord] and [parseImage]. *)
Definition parsePDF (data : string) : result string :=
  Ok "[PDF content - parser not implemented yet]".

Definition parseWord (data : string) : result string :=
  Ok "[Word document content - parser not implemented yet]".

Definition parseImage (data : string) : result string :=
  Ok "[Image file - OCR not implemented yet]".

(** [DocumentParser.Parse]. *)
Definition Parse (data mimeType : string) : result string :=
  if Executor.one_of mimeType
       ["text/plain"; "text/markdown"; "text/html"; "application/json"; "application/xml"]
  then parseText data
  else if Executor.one_of mimeType ["application/pdf"] then parsePDF data
  else if Executor.one_of mimeType
            ["application/msword";
             "application/vnd.openxmlformats-officedocument.wordprocessingml.document"]
  then parseWord data
  else if Executor.one_of mimeType
            ["image/jpeg"; "image/png"; "image/gif"; "image/bmp"; "image/webp"]
  then parseImage data
  else Err ("unsupported MIME type: " +:+ mimeType).

(** [IsSupportedMimeType]. *)
Definition IsSupportedMimeType (mimeType : string) : bool :=
  existsb (fun group => existsb (fun t => String.eqb t mimeType) (snd group))
          SupportedMimeTypes.

(** [strings.Split(s, ".")]. *)
Fixpoint split_dots (s : string) : list string :=
  match s with
  | EmptyString => [""]
  | String c rest =>
      if Ascii.eqb c "."%char then "" :: split_dots rest
      else match split_dots rest with
           | part :: parts => String c part :: parts
           | [] => [String c ""]
           end
  end.

(** Whether a string holds a dot. *)
Fixpoint has_dot (s : string) : bool :=
  match s with
  | EmptyString => false
  | String c rest => Ascii.eqb c "."%char || has_dot rest
  end.

(** [GetFileExtension]. *)
Definition GetFileExtension (filename : string) : string :=
  let parts := split_dots filename in
  if (1 <? length parts)%nat then "." +:+ List.last parts "" else "".

(** The types [Upload] accepts and [Parse] has no case for. *)
Definition accepted_but_unparsed : list string :=
  [ "application/vnd.ms-powerpoint";
    "application/vnd.openxmlformats-officedocument.presentationml.presentation";
    "application/vnd.ms-excel";
    "application/vnd.openxmlformats-officedocument.spreadsheetml.sheet";
    "text/csv";
    "image/svg+xml" ].

End Attachment.

(** ** Package [crd]: files and multi-document texts *)

Module CrdDocuments.

Import Crd.

(** The decoder of a multi-document text and the encoder of a decoded
    document are the YAML library's: the results of the successive calls
    of [Decode] up to the end of the text (an error ends the loop, what
    the table holds after it is not looked at), and [yaml.Marshal] of a
    decoded document. *)
Class YamlStream := {
  yaml_Decode_all : string -> list (result Dyn);
  yaml_Marshal_document : Dyn -> result string
}.

Section Multiple.
Context `{Yaml : YamlCodec} `{Stream : YamlStream}.

(** The body of the loop of [ParseMultiple], on what [Decode]
    returned. *)
Definition parse_document (decoded : result Dyn) : result Resource :=
  match decoded with
  | Err err => Err ("failed to decode YAML document: " +:+ err)
  | Ok doc =>
      match yaml_Marshal_document doc with
      | Err err => Err ("failed to marshal document: " +:+ err)
      | Ok docBytes => Parse docBytes
      end
  end.

(** The loop of [ParseMultiple]. *)
Fixpoint parse_documents (decoded : list (result Dyn)) (resources : list Resource)
    : result (list Resource) :=
  match decoded with
  | [] => Ok resources
  | doc :: rest =>
      match parse_document doc with
      | Err err => Err err
      | Ok resource => parse_documents rest (resources ++ [resource])
      end
  end.

(** [Parser.ParseMultiple]. *)
Definition ParseMultiple (data : string) : result (list Resource) :=
  parse_documents (yaml_Decode_all data) [].

End Multiple.

End CrdDocuments.

(** ** Package [repositories]: more of the repositories *)

Module Repositories.

Import Models.

(** [models.Workspace]. *)
Record Workspace := {
  Ws_ID : N;
  Ws_Name : string;
  Ws_Description : string;
  Ws_UserID : N
}.

(** The database's own: the rows [WorkspaceRepository.ListByUser]
    returns, newest first (the workspaces table is not part of
    [Storage.Storage]), and the primary keys it assigns to a new task and
    to a new resource, which are greater than those of the live rows. *)
Class Database := {
  Workspaces_ListByUser : N -> result (list Workspace);
  next_task_id : Storage.Storage -> N;
  next_resource_id : Storage.Storage -> N;
  next_task_id_fresh : forall s id,
    is_Some (Storage.tasks s !! id) -> (id < next_task_id s)%N;
  next_resource_id_fresh : forall s r,
    r ∈ Storage.resources s -> (Res_ID r < next_resource_id s)%N
}.

Definition with_resources (rs : list Models.Resource) (s : Storage.Storage)
    : Storage.Storage :=
  {| Storage.db_error := Storage.db_error s; Storage.tasks := Storage.tasks s;
     Storage.task_logs := Storage.task_logs s; Storage.resources := rs |}.

Definition set_Task_ID (id : N) (t : Task) : Task :=
  {| ID := id; WorkspaceID := WorkspaceID t; UserID := UserID t; Status := Status t;
     Title := Title t; Description := Description t; Prompt := Prompt t;
     ResourceType := ResourceType t; ResourceName := ResourceName t; Mode := Mode t;
     GitURL := GitURL t; BranchName := BranchName t; Result := Result t;
     Error_ := Error_ t; Progress := Progress t; EventLogs := EventLogs t;
     StartedAt := StartedAt t; CompletedAt := CompletedAt t; Duration := Duration t |}.

Definition set_Res_ID (id : N) (r : Models.Resource) : Models.Resource :=
  {| Res_ID := id; Res_WorkspaceID := Res_WorkspaceID r; Res_Type := Res_Type r;
     Res_Name := Res_Name r; Res_Description := Res_Description r;
     Res_Spec := Res_Spec r; Res_Status := Res_Status r |}.

Section WithDatabase.
Context `{Db : Database}.

(** [TaskRepository.Create]: the row is stored under the key the database
    assigns, which the struct is given. *)
Definition Tasks_Create (task : Task) (s : Storage.Storage)
    : result (Task * Storage.Storage) :=
  match Storage.db_error s with
  | Some e => Err e
  | None =>
      let task' := set_Task_ID (next_task_id s) task in
      Ok (task', Storage.with_tasks (<[ID task' := task']> (Storage.tasks s)) s)
  end.

(** [TaskRepository.Delete]. *)
Definition Tasks_Delete (id : N) (s : Storage.Storage) : result Storage.Storage :=
  match Storage.db_error s with
  | Some e => Err e
  | None => Ok (Storage.with_tasks (delete id (Storage.tasks s)) s)
  end.

(** [ResourceRepository.Create]. *)
Definition Resources_Create (resource : Models.Resource) (s : Storage.Storage)
    : result (Models.Resource * Storage.Storage) :=
  match Storage.db_error s with
  | Some e => Err e
  | None =>
      let resource' := set_Res_ID (next_resource_id s) resource in
      Ok (resource', with_resources (Storage.resources s ++ [resource']) s)
  end.

(** A row put at its place in primary-key order. *)
Fixpoint insert_row (resource : Models.Resource) (rows : list Models.Resource)
    : list Models.Resource :=
  match rows with
  | [] => [resource]
  | row :: rest =>
      if (Res_ID resource <? Res_ID row)%N then resource :: rows
      else row :: insert_row resource rest
  end.

(** [ResourceRepository.Update], a save of every column: the row with the
    primary key of [resource] is replaced; a row whose key the table does
    not hold is inserted. *)
Definition Resources_Update (resource : Models.Resource) (s : Storage.Storage)
    : result Storage.Storage :=
  match Storage.db_error s with
  | Some e => Err e
  | None =>
      if existsb (fun row => N.eqb (Res_ID row) (Res_ID resource)) (Storage.resources s)
      then Ok (with_resources
                 (map (fun row => if N.eqb (Res_ID row) (Res_ID resource)
                                  then resource else row) (Storage.resources s)) s)
      else Ok (with_resources (insert_row resource (Storage.resources s)) s)
  end.

End WithDatabase.

End Repositories.

(** ** Package [handlers]: the resource and task endpoints *)

Module Endpoints.

Import Models World Repositories.

(** The value of a decimal digit. *)
Definition digit (c : ascii) : option N :=
  let n := N_of_ascii c in
  if (48 <=? n)%N && (n <=? 57)%N then Some (n - 48)%N else None.

Fixpoint digits (s : string) (acc : N) : option N :=
  match s with
  | EmptyString => Some acc
  | String c rest =>
      match digit c with
      | Some d => digits rest (acc * 10 + d)%N
      | None => None
      end
  end.

(** [strconv.ParseUint(s, 10, 32)]; [None] is an error. *)
Definition ParseUint32 (s : string) : option N :=
  match s with
  | EmptyString => None
  | _ =>
      match digits s 0 with
      | Some n => if (n <? 2 ^ 32)%N then Some n else None
      | None => None
      end
  end.

(** The workspace id a handler reads from the query [workspace_id]; 0
    when there is none or it is no number. *)
Definition query_workspace (wsIDStr : string) : N :=
  if negb (String.eqb wsIDStr "") then default 0%N (ParseUint32 wsIDStr) else 0%N.

Section WithDatabase.
Context `{Yaml : Crd.YamlCodec} `{Db : Database} `{Enc : TaskHandler.LogEncoder}.

(** [if workspaceID == 0 { ... ListByUser ... workspaces[0].ID }]: the
    workspace given, or the first of the user's. *)
Definition default_workspace (userID workspaceID : N) : option N :=
  if N.eqb workspaceID 0 then
    match Workspaces_ListByUser userID with
    | Ok (workspace :: _) => Some (Ws_ID workspace)
    | _ => None
    end
  else Some workspaceID.

(** The [switch resource.GetKind()] of [ResourceHandler.Apply]. *)
Definition type_of_kind (kind : Crd.ResourceKind) : option ResourceType_ :=
  if String.eqb kind Crd.KindSoul then Some ResourceTypeSoul
  else if String.eqb kind Crd.KindMind then Some ResourceTypeMind
  else if String.eqb kind Crd.KindCraft then Some ResourceTypeCraft
  else if String.eqb kind Crd.KindRobot then Some ResourceTypeRobot
  else if String.eqb kind Crd.KindTeam then Some ResourceTypeTeam
  else if String.eqb kind Crd.KindCollaboration then Some ResourceTypeCollaboration
  else None.

(** The answers of [ResourceHandler.Apply]: the HTTP status with the
    error, or with the action and the resource. *)
Inductive ApplyResponse : Type :=
| Apply_BadRequest (error : string)
| Apply_InternalServerError (error : string)
| Apply_OK (action : string) (resource : Models.Resource)
| Apply_Created (action : string) (resource : Models.Resource).

Definition set_Spec_Description (spec description : string) (r : Models.Resource)
    : Models.Resource :=
  {| Res_ID := Res_ID r; Res_WorkspaceID := Res_WorkspaceID r; Res_Type := Res_Type r;
     Res_Name := Res_Name r; Res_Description := description;
     Res_Spec := spec; Res_Status := Res_Status r |}.

(** [ResourceHandler.Apply], on the user of the request, its query
    [workspace_id] and what reading its body returned. *)
Definition Apply (userID : N) (wsIDStr : string) (read : result string)
    (s : Storage.Storage) : ApplyResponse * Storage.Storage :=
  match default_workspace userID (query_workspace wsIDStr) with
  | None => (Apply_BadRequest "No workspace found", s)
  | Some workspaceID =>
      match read with
      | Err _ => (Apply_BadRequest "Failed to read request body", s)
      | Ok body =>
          match Crd.Parse body with
          | Err err => (Apply_BadRequest ("Failed to parse YAML: " +:+ err), s)
          | Ok resource =>
              match type_of_kind (Crd.GetKind resource) with
              | None => (Apply_BadRequest "Unknown resource kind", s)
              | Some resourceType =>
                  let metadata := Crd.GetMetadata resource in
                  match Storage.Resources_GetByName workspaceID (Crd.Name metadata)
                          resourceType s with
                  | Ok existingResource =>
                      let existingResource' :=
                        set_Spec_Description body (Crd.Description metadata)
                          existingResource in
                      match Resources_Update existingResource' s with
                      | Err _ =>
                          (Apply_InternalServerError "Failed to update resource", s)
                      | Ok s' => (Apply_OK "updated" existingResource', s')
                      end
                  | Err _ =>
                      let newResource :=
                        {| Res_ID := 0; Res_WorkspaceID := workspaceID;
                           Res_Type := resourceType; Res_Name := Crd.Name metadata;
                           Res_Description := Crd.Description metadata;
                           Res_Spec := body; Res_Status := "active" |} in
                      match Resources_Create newResource s with
                      | Err _ =>
                          (Apply_InternalServerError "Failed to create resource", s)
                      | Ok (created, s') => (Apply_Created "created" created, s')
                      end
                  end
              end
          end
      end
  end.

(** [CreateTaskRequest], as [ShouldBindJSON] fills it. *)
Record CreateTaskRequest := {
  Req_Title : string;
  Req_Description : string;
  Req_Prompt : string;
  Req_ResourceType : string;
  Req_ResourceName : string;
  Req_Mode : string;
  Req_GitURL : string;
  Req_BranchName : string;
  Req_WorkspaceID : N
}.

(** The answers of [TaskHandler.Create]. *)
Inductive CreateResponse : Type :=
| Create_BadRequest (error : string)
| Create_InternalServerError (error : string)
| Create_Created (task : Task).

(** [TaskHandler.Create], on the user of the request and what
    [ShouldBindJSON] returned for its body.  The callback it submits is
    [TaskHandler.callback]. *)
Definition Create (userID : N) (bound : result CreateTaskRequest)
    : Orchestrator.QM (outcome CreateResponse) := fun '(q, w) =>
  match bound with
  | Err err => (Ret (Create_BadRequest err), (q, w), [])
  | Ok req =>
      match default_workspace userID (Req_WorkspaceID req) with
      | None => (Ret (Create_BadRequest "No workspace found"), (q, w), [])
      | Some workspaceID =>
          let task :=
            {| ID := 0; WorkspaceID := workspaceID; UserID := userID;
               Status := TaskStatusPending; Title := Req_Title req;
               Description := Req_Description req; Prompt := Req_Prompt req;
               ResourceType := Req_ResourceType req;
               ResourceName := Req_ResourceName req; Mode := Req_Mode req;
               GitURL := Req_GitURL req; BranchName := Req_BranchName req;
               Result := ""; Error_ := ""; Progress := 0; EventLogs := "";
               StartedAt := None; CompletedAt := None; Duration := 0 |} in
          match Tasks_Create task (storage w) with
          | Err _ =>
              (Ret (Create_InternalServerError "Failed to create task"), (q, w), [])
          | Ok (task', s') =>
              let '(r, st, tr) :=
                Orchestration.SubmitTask task' (Some TaskHandler.callback)
                  (q, with_storage s' w) in
              match r with
              | Panic v => (Panic v, st, tr)
              | Ret (Some _) =>
                  (Ret (Create_InternalServerError "Failed to submit task"), st, tr)
              | Ret None => (Ret (Create_Created task'), st, tr)
              end
          end
      end
  end.

(** The answers of the endpoints that read or remove one task. *)
Inductive TaskResponse : Type :=
| Task_NotFound
| Task_Forbidden
| Task_InternalServerError
| Task_OK (task : option Task).

(** [TaskHandler.Get], after the id was read from the request. *)
Definition Get (userID taskID : N) (s : Storage.Storage) : TaskResponse :=
  match Storage.Tasks_GetByID taskID s with
  | Err _ => Task_NotFound
  | Ok task =>
      if negb (N.eqb (UserID task) userID) then Task_Forbidden
      else Task_OK (Some task)
  end.

(** [TaskHandler.Delete], after the id was read from the request. *)
Definition Delete (userID taskID : N) (s : Storage.Storage)
    : TaskResponse * Storage.Storage :=
  match Storage.Tasks_GetByID taskID s with
  | Err _ => (Task_NotFound, s)
  | Ok task =>
      if negb (N.eqb (UserID task) userID) then (Task_Forbidden, s)
      else
        match Tasks_Delete taskID s with
        | Err _ => (Task_InternalServerError, s)
        | Ok s' => (Task_OK None, s')
        end
  end.

End WithDatabase.

End Endpoints.

(** ** Sample texts, tables and requests of the endpoints *)

Module EndpointSamples.

Import Models Repositories.

(** The line that separates the documents of a text. *)
Definition separator : string :=
"---
".

(** A document that is a list. *)
Definition doc_list : string :=
"- 1
".

(** A text of two documents, the Soul [a] and the Mind [m], and one with
    a document between them that is no mapping with a kind. *)
Definition two_documents : string :=
  Samples.doc_soul_a +:+ separator +:+ Samples.doc_mind_m.

Definition broken_documents : string :=
  Samples.doc_soul_a +:+ separator +:+ doc_list +:+ separator +:+ Samples.doc_mind_m.

(** The documents as [Decode] gives them for an [interface{}]: maps
    (listed by sorted key, the order [yaml.Marshal] writes them in) and a
    list. *)
Definition decoded_soul : Dyn :=
  DMap [("apiVersion", DStr "xgent.ai/v1"); ("kind", DStr "Soul");
        ("metadata", DMap [("name", DStr "a")]);
        ("spec", DMap [("personality", DStr "You are helpful.")])].

Definition decoded_mind : Dyn :=
  DMap [("apiVersion", DStr "xgent.ai/v1"); ("kind", DStr "Mind");
        ("metadata", DMap [("name", DStr "m")]);
        ("spec", DMap [("model_id", DStr "llama3"); ("provider", DStr "ollama")])].

Definition decoded_list : Dyn := DList [DInt 1].

Definition yaml_stream : CrdDocuments.YamlStream := {|
  CrdDocuments.yaml_Decode_all := fun data =>
    if String.eqb data two_documents then [Ok decoded_soul; Ok decoded_mind]
    else if String.eqb data broken_documents
    then [Ok decoded_soul; Ok decoded_list; Ok decoded_mind]
    else [];
  CrdDocuments.yaml_Marshal_document := fun doc =>
    if decide (doc = decoded_soul) then Ok Samples.written_soul_a
    else if decide (doc = decoded_mind) then Ok Samples.resorted_mind_m
    else if decide (doc = decoded_list) then Ok doc_list
    else Err "yaml: cannot marshal"
|}.

(** The greatest of a list of keys. *)
Definition max_id (ids : list N) : N := foldr N.max 0%N ids.

Definition workspace (id userID : N) (name : string) : Workspace :=
  {| Ws_ID := id; Ws_Name := name; Ws_Description := ""; Ws_UserID := userID |}.

(** User 7 has the workspaces 3 and 1, user 8 has none; a new row gets
    the key after the greatest one. *)
Definition database : Database.
Proof.
  refine {|
    Workspaces_ListByUser := fun userID =>
      if N.eqb userID 7 then Ok [workspace 3 7 "late"; workspace 1 7 "early"]
      else Ok [];
    next_task_id := fun s => N.succ (max_id (fst <$> map_to_list (Storage.tasks s)));
    next_resource_id := fun s => N.succ (max_id (Res_ID <$> Storage.resources s))
  |}.
  all: assert (Hmax : forall (ids : list N) (id : N), id ∈ ids -> (id <= max_id ids)%N)
    by (intros ids id; induction ids as [|x ids IH]; intros Hin;
        [ by apply elem_of_nil in Hin
        | apply elem_of_cons in Hin as [->|Hin]; simpl;
          [lia | specialize (IH Hin); lia] ]).
  - intros s id [t Ht]. apply N.lt_succ_r, Hmax.
    apply list_elem_of_fmap. exists (id, t). split; [done|].
    by apply elem_of_map_to_list.
  - intros s r Hr. apply N.lt_succ_r, Hmax.
    apply list_elem_of_fmap. by exists r.
Defined.

(** The repository of [MoreSamples], with no task. *)
Definition storage : Storage.Storage := MoreSamples.database None [].

(** A request for the robot [r] that names no workspace. *)
Definition request : Endpoints.CreateTaskRequest :=
  {| Endpoints.Req_Title := "greeting"; Endpoints.Req_Description := "";
     Endpoints.Req_Prompt := "hi"; Endpoints.Req_ResourceType := "robot";
     Endpoints.Req_ResourceName := "r"; Endpoints.Req_Mode := "";
     Endpoints.Req_GitURL := ""; Endpoints.Req_BranchName := "";
     Endpoints.Req_WorkspaceID := 0 |}.

(** The queue of a new orchestrator after 100 submissions of task 9, none
    of them taken by a worker. *)
Definition full_queue : Orchestrator.TaskQueue :=
  let item := {| Orchestrator.Task_ := Samples.task_for 9 "robot" "r" "hi";
                 Orchestrator.Callback := None |} in
  Orchestrator.with_active {[ 9%N := item ]}
    (Orchestrator.with_tasks (replicate 100 item) (Orchestrator.NewTaskQueue 2)).

End EndpointSamples.

(** ** Sample Minds and environment of the client cache *)

Module ClientSamples.

(** The environment holds a key for Groq and none for the others. *)
Definition environ : LlmExecutor.Environ := {|
  LlmExecutor.Getenv := fun name =>
    if String.eqb name "GROQ_API_KEY" then "gsk-from-the-environment" else ""
|}.

Definition mind_of (provider model apiKey baseURL : string) : Crd.Mind :=
  {| Crd.Mind_APIVersion := "xgent.ai/v1"; Crd.Mind_Kind := "Mind";
     Crd.Mind_Metadata := Samples.meta_of (provider +:+ "-" +:+ model);
     Crd.Mind_Spec := {| Crd.Provider := provider; Crd.ModelID := model;
                         Crd.APIKey := apiKey; Crd.BaseURL := baseURL;
                         Crd.Temperature := 0; Crd.MaxTokens := 0;
                         Crd.Headers := ∅ |} |}.

End ClientSamples.

(** ** Facts about the parser *)

Module CrdFacts.

Import Crd CrdSpec.

Lemma is_empty_true s : is_empty s = true <-> s = "".
Proof. unfold is_empty. apply String.eqb_eq. Qed.

Lemma is_empty_false s : is_empty s = false <-> s <> "".
Proof. unfold is_empty. apply String.eqb_neq. Qed.

(** [Validate] returns nil exactly on the resources that have their
    required fields. *)
Lemma Validate_None_iff (r : Resource) :
  Validate r = None <-> required_fields_present r.
Proof.
  unfold required_fields_present.
  destruct r as [s|m|c|r|t|c]; simpl;
    unfold Soul_Validate, Mind_Validate, Craft_Validate, Robot_Validate,
      Team_Validate, Collaboration_Validate.
  - destruct (is_empty (Name (Soul_Metadata s))) eqn:En;
      [apply is_empty_true in En|apply is_empty_false in En].
    + split; [discriminate|]. intros [? _]. done.
    + destruct (is_empty (Personality (Soul_Spec s))) eqn:Ep;
        [apply is_empty_true in Ep|apply is_empty_false in Ep].
      * split; [discriminate|]. intros [_ ?]. done.
      * split; done.
  - destruct (is_empty (Name (Mind_Metadata m))) eqn:En;
      [apply is_empty_true in En|apply is_empty_false in En].
    + split; [discriminate|]. intros [? _]. done.
    + destruct (is_empty (Provider (Mind_Spec m))) eqn:Ep;
        [apply is_empty_true in Ep|apply is_empty_false in Ep]; simpl.
      * split; [discriminate|]. intros [_ [? _]]. done.
      * destruct (is_empty (ModelID (Mind_Spec m))) eqn:Em;
          [apply is_empty_true in Em|apply is_empty_false in Em].
        -- split; [discriminate|]. intros [_ [_ ?]]. done.
        -- split; done.
  - destruct (is_empty (Name (Craft_Metadata c))) eqn:En;
      [apply is_empty_true in En|apply is_empty_false in En].
    + split; [discriminate|]. intros [? _]. done.
    + split; done.
  - destruct (is_empty (Name (Robot_Metadata r))) eqn:En;
      [apply is_empty_true in En|apply is_empty_false in En].
    + split; [discriminate|]. intros [? _]. done.
    + destruct (is_empty (Robot_Soul (Robot_Spec r))) eqn:Ep;
        [apply is_empty_true in Ep|apply is_empty_false in Ep]; simpl.
      * split; [discriminate|]. intros [_ [? _]]. done.
      * destruct (is_empty (Robot_Mind (Robot_Spec r))) eqn:Em;
          [apply is_empty_true in Em|apply is_empty_false in Em].
        -- split; [discriminate|]. intros [_ [_ ?]]. done.
        -- split; done.
  - destruct (is_empty (Name (Team_Metadata t))) eqn:En;
      [apply is_empty_true in En|apply is_empty_false in En].
    + split; [discriminate|]. intros [? _]. done.
    + destruct (Team_Members (Team_Spec t)) as [|x l]; simpl.
      * split; [discriminate|]. intros [_ ?]. done.
      * split; done.
  - destruct (is_empty (Name (Collab_Metadata c))) eqn:En;
      [apply is_empty_true in En|apply is_empty_false in En].
    + split; [discriminate|]. intros [? _]. done.
    + split; done.
Qed.

Section WithYaml.
Context `{Yaml : YamlCodec}.

Lemma unmarshals_known data kind res : unmarshals data kind res -> known_kind kind.
Proof.
  unfold known_kind. destruct 1; set_solver.
Qed.

Lemma unmarshals_kind data kind r : unmarshals data kind (Ok r) -> GetKind r = kind.
Proof.
  inversion 1;
    match goal with
    | H : result_map _ ?x = Ok _ |- _ =>
        destruct x; simpl in H; [injection H as <-|discriminate]
    end; reflexivity.
Qed.

Lemma unmarshals_functional data kind r1 r2 :
  unmarshals data kind r1 -> unmarshals data kind r2 -> r1 = r2.
Proof.
  destruct 1; inversion 1; reflexivity.
Qed.

(** The [switch] of [Parse] on a known kind deserializes the text as that
    kind and wraps the library's error. *)
Lemma decode_kind_known data kind res :
  unmarshals data kind res ->
  decode_kind kind data =
    match res with
    | Ok r => Ok r
    | Err e => Err ("failed to parse " +:+ kind +:+ ": " +:+ e)
    end.
Proof.
  destruct 1; unfold decode_kind, decode_as; simpl;
    match goal with |- context [result_map _ ?x] => destruct x end; reflexivity.
Qed.

Lemma decode_kind_unknown data kind :
  ~ known_kind kind ->
  decode_kind kind data = Err ("unknown resource kind: " +:+ kind).
Proof.
  intros Hunknown. unfold decode_kind.
  repeat match goal with
  | |- context [String.eqb kind ?k] =>
      destruct (String.eqb_spec kind k) as [->|_];
        [exfalso; apply Hunknown; unfold known_kind; set_solver|]
  end.
  reflexivity.
Qed.

Lemma known_kind_unmarshals data kind :
  known_kind kind -> exists res, unmarshals data kind res.
Proof.
  unfold known_kind. rewrite !elem_of_cons, elem_of_nil.
  intros [->|[->|[->|[->|[->|[->|[]]]]]]]; eexists; constructor.
Qed.

Lemma known_kind_dec kind : known_kind kind \/ ~ known_kind kind.
Proof.
  unfold known_kind.
  destruct (decide (kind ∈ [KindSoul; KindMind; KindCraft; KindRobot; KindTeam;
                            KindCollaboration])); [left|right]; done.
Qed.

Lemma Parse_Ok_iff (data : string) (r : Resource) :
  Parse data = Ok r <-> accepts data r.
Proof.
  unfold Parse, accepts. split.
  - destruct (yaml_Unmarshal_meta data) as [meta|e]; [|discriminate].
    destruct (String.eqb_spec (Meta_APIVersion meta) APIVersion) as [Hapi|Hapi];
      simpl; [|discriminate].
    destruct (known_kind_dec (Meta_Kind meta)) as [Hk|Hk].
    + destruct (known_kind_unmarshals data _ Hk) as [res Hres].
      rewrite (decode_kind_known _ _ _ Hres).
      destruct res as [r'|e]; [|discriminate].
      destruct (Validate r') eqn:Hv; [discriminate|].
      intros [= <-]. exists meta. repeat split; try done.
      * eapply unmarshals_kind; eauto.
      * apply Validate_None_iff in Hv. apply Hv.
      * apply Validate_None_iff in Hv. apply Hv.
    + rewrite decode_kind_unknown by done. discriminate.
  - intros (meta & -> & Hapi & Hres & _ & Hvalid).
    rewrite Hapi, String.eqb_refl. simpl.
    rewrite (decode_kind_known _ _ _ Hres).
    apply Validate_None_iff in Hvalid. rewrite Hvalid. reflexivity.
Qed.

(** C7, as amended.  [Parse] returns an error exactly when the text does
    not decode as YAML (its header, or the typed resource of its kind), or
    its apiVersion is absent or not the recognized one, or its kind is not
    one of the six, or a required field is missing; otherwise it returns
    the typed resource of the kind the header names. *)
Theorem Parse_rejects_exactly (data : string) :
  ((exists e, Parse data = Err e) <-> rejects data)
  /\ (forall r, Parse data = Ok r <-> accepts data r).
Proof.
  split; [|intros r; apply Parse_Ok_iff].
  unfold rejects. split.
  - intros [e He]. unfold Parse in He.
    destruct (yaml_Unmarshal_meta data) as [meta|e0]; [|done].
    destruct (String.eqb_spec (Meta_APIVersion meta) APIVersion) as [Hapi|Hapi];
      simpl in He; [|left; done].
    right.
    destruct (known_kind_dec (Meta_Kind meta)) as [Hk|Hk]; [|left; done].
    right.
    destruct (known_kind_unmarshals data _ Hk) as [res Hres].
    rewrite (decode_kind_known _ _ _ Hres) in He.
    destruct res as [r|e1]; [|left; eauto].
    right. exists r. split; [done|].
    intros Hvalid. apply Validate_None_iff in Hvalid. rewrite Hvalid in He. done.
  - unfold Parse.
    destruct (yaml_Unmarshal_meta data) as [meta|e0]; [|eauto].
    destruct (String.eqb_spec (Meta_APIVersion meta) APIVersion) as [Hapi|Hapi];
      simpl; [|eauto].
    intros [Hne|[Hk|[[e Hres]|(r & Hres & Hinvalid)]]].
    + done.
    + rewrite decode_kind_unknown by done. eauto.
    + rewrite (decode_kind_known _ _ _ Hres). eauto.
    + rewrite (decode_kind_known _ _ _ Hres).
      destruct (Validate r) eqn:Hv; [eauto|].
      apply Validate_None_iff in Hv. done.
Qed.

(** C8, as amended.  For a resource [r] that [Parse] accepted from a text
    [data], and that the YAML library reads back as it wrote it, parsing
    what [Marshal] writes for [r] yields [r] again; the library is taken to
    decode the header of [data] from the fields it decoded into [r].  The
    text itself is the library's, so whitespace and the order of map
    entries play no part. *)
Theorem Parse_Marshal_roundtrip (data : string) (r : Resource) (out : string) :
  Parse data = Ok r ->
  header_agrees data r ->
  round_trips r ->
  Marshal r = Ok out ->
  Parse out = Ok r.
Proof.
  intros Hparse Hheader Hlib Hout.
  unfold Marshal in Hout. destruct (Hlib out Hout) as [Hmeta' Htyped].
  apply Parse_Ok_iff in Hparse as (meta & Hmeta & Hapi & Hres & Hkind & Hvalid).
  unfold header_agrees in Hheader. rewrite Hmeta in Hheader.
  injection Hheader as ->.
  apply Parse_Ok_iff. exists (own_header r).
  rewrite <- Hkind. repeat split; try done; try apply Hvalid.
Qed.

End WithYaml.

(** An instance of the round trip: the sample Soul, parsed from a text
    with a comment and reordered keys, marshalled, and parsed again. *)
Lemma Parse_Marshal_roundtrip_soul_a :
  Parse Samples.doc_soul_a_loose = Ok (RSoul Samples.soul_a)
  /\ Marshal (RSoul Samples.soul_a) = Ok Samples.written_soul_a
  /\ Parse Samples.written_soul_a = Ok (RSoul Samples.soul_a).
Proof.
  split; [reflexivity|]. split; [reflexivity|].
  apply (Parse_Marshal_roundtrip Samples.doc_soul_a_loose (RSoul Samples.soul_a)
           Samples.written_soul_a).
  - reflexivity.
  - reflexivity.
  - intros written Hwritten. vm_compute in Hwritten.
    injection Hwritten as <-. split; [reflexivity|].
    exact (unmarshals_Soul (Yaml := Samples.sample_yaml) Samples.written_soul_a).
  - reflexivity.
Defined.

(** C8, as stated, fails: a Collaboration whose conditions hold the float
    3.0 is accepted by [Parse]; [Marshal] writes the float in its shortest
    form, 3, and [Parse] reads the text back with the integer 3 in its
    place, which is another resource. *)
Lemma whole_float_reads_back_as_integer :
  Parse Samples.doc_collab_scale
    = Ok (RCollaboration (Samples.collab_scale (DFloat Samples.float64_three)))
  /\ Marshal (RCollaboration (Samples.collab_scale (DFloat Samples.float64_three)))
       = Ok Samples.written_collab_scale
  /\ Parse Samples.written_collab_scale
       = Ok (RCollaboration (Samples.collab_scale (DInt 3)))
  /\ Parse Samples.written_collab_scale
       <> Ok (RCollaboration (Samples.collab_scale (DFloat Samples.float64_three))).
Proof.
  split; [reflexivity|]. split; [reflexivity|]. split; [reflexivity|].
  intros H. vm_compute in H. discriminate H.
Qed.

(** C7, as stated, fails: a Soul whose [capabilities] is a scalar has the
    recognized apiVersion, a known kind and every required field, and
    [Parse] returns the YAML library's type error. *)
Lemma Parse_rejects_mistyped_field :
  Parse Samples.doc_soul_badtype = Err "failed to parse Soul: yaml: unmarshal errors"
  /\ ~ claimed_rejects Samples.doc_soul_badtype.
Proof.
  split; [reflexivity|].
  unfold claimed_rejects. simpl.
  intros [Hapi|[Hkind|(r & Hres & _)]].
  - apply Hapi. reflexivity.
  - apply Hkind. unfold known_kind. set_solver.
  - inversion Hres.
Qed.

End CrdFacts.
(** ** Facts about the broadcaster *)

Module BroadcasterFacts.

Import Models Broadcaster BroadcasterRuns.

Lemma stamp_TaskID now e : TaskID (stamp now e) = TaskID e.
Proof. reflexivity. Qed.

Lemma buffered_Broadcast now e b t :
  buffered (Broadcast now e b) t =
    if N.eqb (TaskID e) t
    then if (length (buffered b t) <? maxEventBuffer)%nat
         then buffered b t ++ [stamp now e]
         else buffered b t
    else buffered b t.
Proof.
  unfold buffered, Broadcast, buffer_event; simpl.
  destruct (N.eqb_spec (TaskID e) t) as [->|Hne].
  - rewrite lookup_insert_eq.
    destruct (buffers b !! t) as [buf|]; simpl.
    + destruct (length (events buf) <? maxEventBuffer)%nat; reflexivity.
    + reflexivity.
  - rewrite lookup_insert_ne by done. reflexivity.
Qed.

Lemma buffered_Broadcast_length now e b t :
  (length (buffered b t) <= maxEventBuffer)%nat ->
  (length (buffered (Broadcast now e b) t) <= maxEventBuffer)%nat.
Proof.
  intros H. rewrite buffered_Broadcast.
  destruct (N.eqb (TaskID e) t); [|done].
  destruct (Nat.ltb_spec (length (buffered b t)) maxEventBuffer); [|done].
  rewrite length_app; simpl. lia.
Qed.

(** The buffer keeps the first [maxEventBuffer] events and drops the
    rest. *)
Lemma buffered_broadcast_all pubs : forall b t,
  (length (buffered b t) <= maxEventBuffer)%nat ->
  buffered (broadcast_all pubs b) t =
    take maxEventBuffer (buffered b t ++ for_task t (stamped pubs)).
Proof.
  induction pubs as [|[now e] pubs IH]; intros b t Hlen.
  - simpl. rewrite app_nil_r. symmetry. apply take_ge. done.
  - change (broadcast_all ((now, e) :: pubs) b)
      with (broadcast_all pubs (Broadcast now e b)).
    rewrite IH by (apply buffered_Broadcast_length; done).
    rewrite buffered_Broadcast. simpl.
    destruct (N.eqb (TaskID e) t) eqn:Et; [|reflexivity].
    destruct (Nat.ltb_spec (length (buffered b t)) maxEventBuffer) as [Hlt|Hge].
    + rewrite <- app_assoc. reflexivity.
    + assert (length (buffered b t) = maxEventBuffer) as Heq by lia.
      rewrite !take_app_le by lia. reflexivity.
Qed.

Lemma replay_items evs : forall c,
  replay evs c =
    {| items := items c ++ take (cap c - length (items c)) evs;
       cap := cap c; closed := closed c |}.
Proof.
  induction evs as [|e evs IH]; intros [its cp cl]; simpl.
  - rewrite take_nil, app_nil_r. reflexivity.
  - unfold try_send; simpl.
    destruct (Nat.ltb_spec (length its) cp) as [Hlt|Hge].
    + rewrite IH; simpl. rewrite length_app; simpl.
      replace (cp - length its)%nat with (S (cp - (length its + 1)))%nat by lia.
      simpl. rewrite <- app_assoc. reflexivity.
    + replace (cp - length its)%nat with 0%nat by lia.
      simpl. rewrite app_nil_r. reflexivity.
Qed.

Lemma pending_Subscribe t b :
  pending (fst (Subscribe t b)) (snd (Subscribe t b)) =
    take subscriberCap (buffered b t).
Proof.
  unfold pending, Subscribe, buffered; simpl.
  rewrite lookup_insert_eq.
  destruct (buffers b !! t) as [buf|]; simpl.
  - rewrite replay_items. cbn [items cap app]. rewrite Nat.sub_0_r. reflexivity.
  - reflexivity.
Qed.

(** The subscriber's channel is listed once under its task and nowhere
    else, is allocated, and was allocated by [Subscribe]. *)
Record attached (ch : chan_ref) (t : N) (b : EventBroadcaster) : Prop := {
  attached_once : exists l1 l2, subs_of b t = l1 ++ ch :: l2 /\ (ch ∉ l1) /\ (ch ∉ l2);
  attached_only : forall t', t' <> t -> ch ∉ subs_of b t';
  attached_alloc : is_Some (heap b !! ch);
  attached_old : (ch < next_ref b)%nat
}.

(** Free slots of a channel. *)
Definition room (ch : chan_ref) (b : EventBroadcaster) : nat :=
  match heap b !! ch with
  | Some c => cap c - length (items c)
  | None => 0
  end.

Lemma try_send_ref_other e h x ch :
  x <> ch -> try_send_ref e h x !! ch = h !! ch.
Proof.
  intros Hne. unfold try_send_ref.
  destruct (h !! x); [|reflexivity].
  rewrite lookup_insert_ne by done. reflexivity.
Qed.

Lemma foldl_try_send_notin e subs : forall h ch,
  ch ∉ subs -> foldl (try_send_ref e) h subs !! ch = h !! ch.
Proof.
  induction subs as [|x subs IH]; intros h ch Hnotin; simpl; [reflexivity|].
  apply not_elem_of_cons in Hnotin as [Hne Hnotin].
  rewrite IH by done. apply try_send_ref_other. congruence.
Qed.

Lemma foldl_try_send_once e l1 l2 h ch c :
  ch ∉ l1 -> ch ∉ l2 -> h !! ch = Some c ->
  foldl (try_send_ref e) h (l1 ++ ch :: l2) !! ch = Some (fst (try_send e c)).
Proof.
  intros H1 H2 Hc. rewrite foldl_app. simpl.
  rewrite foldl_try_send_notin by done.
  unfold try_send_ref at 1.
  rewrite foldl_try_send_notin by done. rewrite Hc.
  apply lookup_insert_eq.
Qed.

Lemma subs_of_Broadcast now e b t : subs_of (Broadcast now e b) t = subs_of b t.
Proof. reflexivity. Qed.

Lemma attached_Broadcast ch t now e b :
  attached ch t b -> attached ch t (Broadcast now e b).
Proof.
  intros [Honce Honly [c Hc] Hold]. split; try done.
  simpl. destruct (decide (TaskID e = t)) as [->|Hne].
  - destruct Honce as (l1 & l2 & -> & H1 & H2).
    erewrite foldl_try_send_once; eauto.
  - rewrite foldl_try_send_notin; [eauto|]. apply Honly. done.
Qed.

(** A broadcast appends the stamped event to the channel of a subscriber
    of its task when the channel has room, and does nothing to it
    otherwise. *)
Lemma pending_Broadcast ch t now e b :
  attached ch t b ->
  pending ch (Broadcast now e b) =
    pending ch b ++
      (if N.eqb (TaskID e) t && (0 <? room ch b)%nat then [stamp now e] else []).
Proof.
  intros [Honce Honly [c Hc] Hold].
  unfold pending, room. simpl. rewrite Hc.
  destruct (N.eqb_spec (TaskID e) t) as [->|Hne]; simpl.
  - destruct Honce as (l1 & l2 & -> & H1 & H2).
    erewrite foldl_try_send_once; eauto.
    unfold try_send.
    destruct (Nat.ltb_spec (length (items c)) (cap c));
      destruct (Nat.ltb_spec 0 (cap c - length (items c))); try lia; simpl.
    + reflexivity.
    + rewrite app_nil_r. reflexivity.
  - rewrite foldl_try_send_notin by (apply Honly; done).
    rewrite Hc, app_nil_r. reflexivity.
Qed.

Lemma room_Broadcast ch t now e b :
  attached ch t b ->
  room ch (Broadcast now e b) =
    (room ch b - (if N.eqb (TaskID e) t && (0 <? room ch b)%nat then 1 else 0))%nat.
Proof.
  intros [Honce Honly [c Hc] Hold].
  unfold room. simpl. rewrite Hc.
  destruct (N.eqb_spec (TaskID e) t) as [->|Hne]; simpl.
  - destruct Honce as (l1 & l2 & -> & H1 & H2).
    erewrite foldl_try_send_once; eauto.
    unfold try_send.
    destruct (Nat.ltb_spec (length (items c)) (cap c));
      destruct (Nat.ltb_spec 0 (cap c - length (items c))); try lia; simpl.
    + rewrite length_app. simpl. lia.
    + lia.
  - rewrite foldl_try_send_notin by (apply Honly; done).
    rewrite Hc. lia.
Qed.

Lemma attached_Subscribe ch t t' b :
  attached ch t b -> attached ch t (snd (Subscribe t' b)).
Proof.
  intros [Honce Honly [c Hc] Hold].
  assert (next_ref b <> ch) as Hfresh by lia.
  split; simpl.
  - unfold subs_of at 1; simpl.
    destruct (decide (t' = t)) as [->|Hne].
    + rewrite lookup_insert_eq. simpl.
      destruct Honce as (l1 & l2 & -> & H1 & H2).
      exists l1, (l2 ++ [next_ref b]). rewrite <- app_assoc. simpl.
      repeat split; try done.
      rewrite elem_of_app, list_elem_of_singleton. intros [?|?]; congruence.
    + rewrite lookup_insert_ne by done. apply Honce.
  - intros t'' Hne. unfold subs_of at 1; simpl.
    destruct (decide (t' = t'')) as [->|Hne'].
    + rewrite lookup_insert_eq. simpl.
      rewrite elem_of_app, list_elem_of_singleton.
      intros [Hin|?]; [|congruence]. eapply Honly; eauto.
    + rewrite lookup_insert_ne by done. apply Honly. done.
  - rewrite lookup_insert_ne by done. eauto.
  - lia.
Qed.

Lemma heap_Subscribe_other ch t' b :
  (ch < next_ref b)%nat -> heap (snd (Subscribe t' b)) !! ch = heap b !! ch.
Proof. intros H. simpl. apply lookup_insert_ne. lia. Qed.

Lemma receive_Some ch t b e b' :
  attached ch t b -> receive ch b = Some (e, b') ->
  attached ch t b' /\ pending ch b = e :: pending ch b' /\ (room ch b <= room ch b')%nat.
Proof.
  intros [Honce Honly [c Hc] Hold] Hrecv.
  unfold receive in Hrecv. rewrite Hc in Hrecv.
  destruct (items c) as [|e0 rest] eqn:Hitems; [discriminate|].
  injection Hrecv as <- <-.
  split; [|split].
  - split; simpl; try done. rewrite lookup_insert_eq. eauto.
  - unfold pending; simpl. rewrite Hc, lookup_insert_eq, Hitems. reflexivity.
  - unfold room; simpl. rewrite Hc, lookup_insert_eq, Hitems. simpl. lia.
Qed.

(** After a subscriber attached, what it observes grows by a subsequence
    of the later publications to its task, in publish order; nothing is
    skipped while its channel has room. *)
Lemma run_observed ch t acts : forall b seen,
  attached ch t b ->
  exists fs,
    observed ch (run ch acts b seen) = observed ch (b, seen) ++ fs
    /\ fs `sublist_of` published t acts
    /\ ((length (published t acts) <= room ch b)%nat -> fs = published t acts).
Proof.
  induction acts as [|a acts IH]; intros b seen Hatt.
  - exists []. simpl. rewrite app_nil_r. repeat split; done.
  - destruct a as [now e| |t'].
    + destruct (IH (Broadcast now e b) seen (attached_Broadcast _ _ now e _ Hatt))
        as (fs & Hobs & Hsub & Hfull).
      change (run ch (ABroadcast now e :: acts) b seen)
        with (run ch acts (Broadcast now e b) seen).
      rewrite Hobs. unfold observed at 1 2. cbn [fst snd].
      rewrite (pending_Broadcast ch t) by done.
      rewrite (room_Broadcast ch t) in Hfull by done.
      cbn [published].
      destruct (N.eqb (TaskID e) t); cbn [andb] in *.
      * destruct (0 <? room ch b)%nat eqn:Hroom.
        -- apply Nat.ltb_lt in Hroom.
           exists (stamp now e :: fs). rewrite <- !app_assoc. simpl.
           repeat split; [by constructor|].
           intros Hlen. simpl in Hlen. f_equal. apply Hfull. lia.
        -- apply Nat.ltb_ge in Hroom.
           exists fs. rewrite app_nil_r. repeat split; [by constructor|].
           intros Hlen. simpl in Hlen. lia.
      * exists fs. rewrite app_nil_r. repeat split; [done|].
        intros Hlen. apply Hfull. lia.
    + cbn [run published].
      destruct (receive ch b) as [[e b']|] eqn:Hrecv.
      * destruct (receive_Some _ _ _ _ _ Hatt Hrecv) as (Hatt' & Hpend & Hroom).
        destruct (IH b' (seen ++ [e]) Hatt') as (fs & Hobs & Hsub & Hfull).
        exists fs. rewrite Hobs. unfold observed. cbn [fst snd].
        rewrite Hpend, <- !app_assoc. simpl.
        repeat split; [done|]. intros Hlen. apply Hfull. lia.
      * apply IH. done.
    + cbn [run published].
      destruct (IH (snd (Subscribe t' b)) seen (attached_Subscribe _ _ t' _ Hatt))
        as (fs & Hobs & Hsub & Hfull).
      exists fs. rewrite Hobs.
      assert (heap (snd (Subscribe t' b)) !! ch = heap b !! ch) as Hheap
        by (apply heap_Subscribe_other, Hatt).
      unfold observed, pending, room in *. cbn [fst snd] in *.
      rewrite Hheap in *. repeat split; done.
Qed.
















End BroadcasterFacts.

(** ** Facts about the task queue *)

Module QueueFacts.

Import Models World Orchestrator.


(** C10.  [Cancel] of an id that is not active returns [task not found],
    invokes no callback (no step logged) and leaves the queue and the world
    as they were.  [Cancel] of an active id whose item has a callback
    invokes it with progress 0 and status cancelled and then deletes the
    entry, in that order; the entry is gone afterwards and the other
    entries and the channel are as they were.  An item without callback is
    only deleted. *)
Theorem Cancel_unknown_or_notified (taskID : N) (q : TaskQueue) (w : World) :
  (active q !! taskID = None ->
     Cancel taskID (q, w) = (Some ("task not found: " +:+ pretty taskID), (q, w), []))
  /\ (forall item cb,
        active q !! taskID = Some item -> Callback item = Some cb ->
        exists q',
          Cancel taskID (q, w)
            = (None,
               (q', cb taskID 0%Z TaskStatusCancelled "Task cancelled by user" None w),
               [EvCallback taskID 0 TaskStatusCancelled "Task cancelled by user" None;
                EvActiveDelete taskID])
          /\ active q' !! taskID = None
          /\ tasks q' = tasks q
          /\ forall id, id <> taskID -> active q' !! id = active q !! id)
  /\ (forall item,
        active q !! taskID = Some item -> Callback item = None ->
        Cancel taskID (q, w)
          = (None, (with_active (delete taskID (active q)) q, w),
             [EvActiveDelete taskID])).
Proof.
  split; [|split].
  - intros Hnone. unfold Cancel. rewrite Hnone. reflexivity.
  - intros item cb Hitem Hcb. unfold Cancel. rewrite Hitem.
    unfold mbind, QM_bind, invoke, delete_active, mret, QM_ret. rewrite Hcb.
    eexists. split; [reflexivity|]. simpl. repeat split.
    + apply lookup_delete_eq.
    + intros id Hne. apply lookup_delete_ne. done.
  - intros item Hitem Hcb. unfold Cancel. rewrite Hitem.
    unfold mbind, QM_bind, invoke, delete_active, mret, QM_ret. rewrite Hcb.
    reflexivity.
Qed.

(** After [Stop] the channel is closed, and [Enqueue] panics. *)
Lemma Enqueue_after_Stop (task : Task) (callback : option ProgressCallback)
    (q : TaskQueue) (w : World) :
  Enqueue task callback (Stop q, w) = (Panic "send on closed channel", (Stop q, w), []).
Proof. reflexivity. Qed.


(** Scenario S5, as far as the queue goes: cancelling the active task 1
    invokes its callback with status cancelled, the row becomes cancelled
    and the entry leaves the active map; cancelling task 9 does nothing. *)
Lemma Cancel_active_and_unknown :
  let first := Samples.task_for 1 "robot" "r" "hi" in
  let q := Samples.queue_holding 1 [Samples.item_of first] in
  let w := Samples.world_with [first] in
  Cancel 9 (q, w) = (Some "task not found: 9", (q, w), [])
  /\ exists q',
       Cancel 1 (q, w)
         = (None,
            (q', TaskHandler.callback 1%N 0%Z TaskStatusCancelled
                   "Task cancelled by user" None w),
            [EvCallback 1 0 TaskStatusCancelled "Task cancelled by user" None;
             EvActiveDelete 1])
       /\ active q' !! 1%N = None
       /\ TaskRows.status_of 1
            (TaskHandler.callback 1%N 0%Z TaskStatusCancelled
               "Task cancelled by user" None w)
          = Some TaskStatusCancelled.
Proof.
  intros first q w.
  destruct (Cancel_unknown_or_notified 9 q w) as [Hunknown _].
  split; [apply Hunknown; reflexivity|].
  destruct (Cancel_unknown_or_notified 1 q w) as (_ & Hactive & _).
  destruct (Hactive (Samples.item_of first) TaskHandler.callback eq_refl eq_refl)
    as (q' & Hcancel & Hgone & _).
  exists q'. split; [exact Hcancel|]. split; [exact Hgone|reflexivity].
Defined.

End QueueFacts.

(** ** Facts about the executor *)

Module ExecutorFacts.

Import Models World Executor ExecutorSpec.

Lemma string_app_assoc (a b c : string) : (a +:+ b) +:+ c = a +:+ (b +:+ c).
Proof.
  induction a as [|x a IH]; [reflexivity|].
  change (String x ((a +:+ b) +:+ c) = String x (a +:+ (b +:+ c))).
  f_equal. exact IH.
Qed.

Lemma string_app_nil_r (a : string) : a +:+ "" = a.
Proof.
  induction a as [|x a IH]; [reflexivity|].
  change (String x (a +:+ "") = String x a).
  f_equal. exact IH.
Qed.

Section WithEnv.
Context `{Yaml : Crd.YamlCodec} `{Env : RunnerEnv}.

(** Case analysis on the type of an event, one comparison of the
    [switch] at a time. *)
Ltac by_event_type t :=
  repeat match goal with
  | |- context [String.eqb t ?k] =>
      destruct (String.eqb_spec t k) as [->|?]; simpl; [solve [eauto 10]|]
  end.

(** What one event does to the locals of the read loop: a [content] event
    appends its content, an [error] event replaces the last error, nothing
    else changes them, and only a [cancelled] event returns. *)
Lemma handle_event_state callback taskID ev st w :
  fst (fst (handle_event callback taskID ev st w))
    = {| fullContent := if is_content ev then fullContent st +:+ Ev_Content ev
                        else fullContent st;
         lastError := if is_error ev then Ev_Content ev else lastError st;
         eventLogs := eventLogs st |}
  /\ snd (handle_event callback taskID ev st w) = is_cancelled ev.
Proof.
  destruct ev as [t c d], st as [fc le logs].
  unfold handle_event, is_content, is_error, is_cancelled, one_of. simpl.
  by_event_type t. eauto.
Qed.

(** What one event does to the world: nothing, or one call of the callback
    with status running. *)
Lemma handle_event_world callback taskID ev st w :
  snd (fst (handle_event callback taskID ev st w)) = w
  \/ exists progress message metadata,
       snd (fst (handle_event callback taskID ev st w))
         = notify callback taskID progress TaskStatusRunning message metadata w.
Proof.
  destruct ev as [t c d], st as [fc le logs].
  unfold handle_event, one_of. simpl.
  by_event_type t. eauto.
Qed.

(** The locals of the read loop after a stream. *)
Lemma scan_state callback taskID lines : forall st w,
  let '(st', _, returned) := scan callback taskID lines st w in
  fullContent st' = fullContent st +:+ contents (before_cancelled (events lines))
  /\ lastError st' = last_error (lastError st) (before_cancelled (events lines))
  /\ eventLogs st' = eventLogs st ++ logged lines
  /\ returned = existsb is_cancelled (events lines).
Proof.
  induction lines as [|line lines IH]; intros st w.
  - simpl. rewrite string_app_nil_r, app_nil_r. done.
  - cbn [scan events omap list_omap logged]. fold (events lines).
    destruct (json_Unmarshal_event line) as [ev|]; [|apply IH].
    set (st1 := {| fullContent := fullContent st; lastError := lastError st;
                   eventLogs := eventLogs st ++ [line] |}).
    destruct (handle_event_state callback taskID ev st1 w) as [Hst Hret].
    destruct (handle_event callback taskID ev st1 w) as [[st2 w2] returned].
    simpl in Hst, Hret. subst st2 returned.
    cbn [before_cancelled existsb].
    destruct (is_cancelled ev) eqn:Hc.
    + assert (is_content ev = false /\ is_error ev = false) as [-> ->].
      { unfold is_content, is_error, is_cancelled in *.
        apply String.eqb_eq in Hc. rewrite Hc. done. }
      simpl. rewrite string_app_nil_r. done.
    + match goal with |- context [scan _ _ _ ?s ?x] => specialize (IH s x) end.
      destruct (scan callback taskID lines _ w2) as [[st' w'] returned].
      destruct IH as (Hfc & Hle & Hlogs & Hret). simpl in Hfc, Hle, Hlogs.
      cbn [contents last_error foldl]. fold (last_error).
      repeat split; try done.
      * rewrite Hfc. destruct (is_content ev); [apply string_app_assoc|reflexivity].
      * rewrite Hlogs, <- app_assoc. reflexivity.
Qed.

(** An invariant of the world that every call of the callback keeps is
    kept by the read loop. *)
Lemma scan_world (P : World -> Prop) callback taskID lines :
  (forall progress status message metadata w,
     P w -> P (notify callback taskID progress status message metadata w)) ->
  forall st w, P w -> P (snd (fst (scan callback taskID lines st w))).
Proof.
  intros Hkeep. induction lines as [|line lines IH]; intros st w HP; [done|].
  cbn [scan]. destruct (json_Unmarshal_event line) as [ev|]; [|by apply IH].
  match goal with |- context [handle_event _ _ _ ?s _] => set (st1 := s) end.
  assert (P (snd (fst (handle_event callback taskID ev st1 w)))) as HP'.
  { destruct (handle_event_world callback taskID ev st1 w) as [->|(p & m & md & ->)];
      [done|by apply Hkeep]. }
  destruct (handle_event callback taskID ev st1 w) as [[st2 w2] returned].
  destruct returned; [done|]. apply IH. done.
Qed.

Lemma before_cancelled_none evs :
  existsb is_cancelled evs = false -> before_cancelled evs = evs.
Proof.
  induction evs as [|ev evs IH]; simpl; [done|].
  destruct (is_cancelled ev); simpl; [done|]. intros H. rewrite IH; done.
Qed.

(** The scanner reads an output within its limit to the end. *)
Lemma scanned_within_limit lines : within_limit lines -> scanned lines = texts lines.
Proof.
  unfold within_limit. induction lines as [|line lines IH]; [done|].
  cbn [forallb scanned texts map]. intros H.
  apply andb_true_iff in H as [Hline H]. apply negb_true_iff in Hline.
  rewrite Hline. f_equal. by apply IH.
Qed.

(** A line that is too long ends the reading, whatever follows it. *)
Lemma scanned_too_long lines long rest :
  too_long long = true -> scanned (lines ++ long :: rest) = scanned lines.
Proof.
  intros Hlong. induction lines as [|line lines IH]; simpl.
  - by rewrite Hlong.
  - destruct (too_long line); [done|]. by rewrite IH.
Qed.

(** What [runAgnoScript] returns once the runner has started, by the
    lines [read := scanned lines] of its output: with a [cancelled] event,
    the content and the lines up to it, and no error, whatever the exit
    status; otherwise the error of a failed exit, or the whole content and
    every decoded line. *)
Lemma runAgnoScript_started config taskID callback w lines wait_error :
  launch config = Started lines wait_error ->
  let read := scanned lines in
  fst (runAgnoScript config taskID callback w) =
    if existsb is_cancelled (events read)
    then (contents (before_cancelled (events read)), join (logged read) nl, None)
    else match wait_error with
         | Some err =>
             if negb (String.eqb (last_error "" (events read)) "")
             then failure ("python script error: " +:+ last_error "" (events read))
             else failure ("python script finished with error: " +:+ err)
         | None => (contents (events read), join (logged read) nl, None)
         end.
Proof.
  intros Hlaunch. unfold runAgnoScript. rewrite Hlaunch.
  generalize (scanned lines). clear lines Hlaunch. intros lines. cbv zeta.
  pose proof (scan_state callback taskID lines
                {| fullContent := ""; lastError := ""; eventLogs := [] |} w) as Hscan.
  destruct (scan callback taskID lines _ w) as [[st w'] returned].
  destruct Hscan as (Hfc & Hle & Hlogs & ->). simpl in Hfc, Hle, Hlogs.
  destruct (existsb is_cancelled (events lines)) eqn:Hc.
  - simpl. rewrite Hfc, Hlogs. reflexivity.
  - rewrite (before_cancelled_none _ Hc) in Hfc, Hle.
    destruct wait_error as [err|]; simpl.
    + rewrite Hle. destruct (String.eqb (last_error "" (events lines)) ""); reflexivity.
    + rewrite Hfc, Hlogs. reflexivity.
Qed.

Lemma runAgnoScript_world (P : World -> Prop) config taskID callback w :
  (forall progress status message metadata w,
     P w -> P (notify callback taskID progress status message metadata w)) ->
  P w -> P (snd (runAgnoScript config taskID callback w)).
Proof.
  intros Hkeep HP. unfold runAgnoScript.
  destruct (launch config) as [| | | | |lines wait_error]; try done.
  pose proof (scan_world P callback taskID (scanned lines) Hkeep
                {| fullContent := ""; lastError := ""; eventLogs := [] |} w HP) as Hw.
  destruct (scan callback taskID (scanned lines) _ w) as [[st w'] returned]. simpl in Hw.
  destruct returned; [done|].
  destruct wait_error; [|done].
  destruct (negb (String.eqb (lastError st) "")); done.
Qed.

(** Resolution reads the repository only. *)
Lemma GetByName_same workspaceID name resourceType s s' :
  same_repository s s' ->
  Storage.Resources_GetByName workspaceID name resourceType s
    = Storage.Resources_GetByName workspaceID name resourceType s'.
Proof.
  intros [Herr Hres]. unfold Storage.Resources_GetByName. rewrite Herr, Hres. done.
Qed.

Ltac same_lookups H :=
  repeat (rewrite ?(GetByName_same _ _ _ _ _ H); first [reflexivity | case_match]).

Lemma loadMCPTools_same workspaceID craftName s s' :
  same_repository s s' ->
  loadMCPTools workspaceID craftName s = loadMCPTools workspaceID craftName s'.
Proof. intros H. unfold loadMCPTools. same_lookups H. Qed.

Lemma botConfig_same task s s' :
  same_repository s s' -> botConfig task s = botConfig task s'.
Proof.
  intros H. unfold botConfig.
  repeat (rewrite ?(GetByName_same _ _ _ _ _ H), ?(loadMCPTools_same _ _ _ _ H);
          first [reflexivity | case_match]).
Qed.

Lemma loadRobotAsMember_same workspaceID robotName s s' :
  same_repository s s' ->
  loadRobotAsMember workspaceID robotName s = loadRobotAsMember workspaceID robotName s'.
Proof. intros H. unfold loadRobotAsMember. same_lookups H. Qed.

Lemma load_members_same workspaceID names s s' :
  same_repository s s' ->
  forall members leaderMind,
    load_members workspaceID names s members leaderMind
      = load_members workspaceID names s' members leaderMind.
Proof.
  intros H. induction names as [|name names IH]; intros members leaderMind; [done|].
  simpl. rewrite (loadRobotAsMember_same _ _ _ _ H).
  destruct (loadRobotAsMember workspaceID name s') as [[[member mind]|e]|v]; auto.
Qed.

Lemma teamConfig_same task s s' :
  same_repository s s' -> teamConfig task s = teamConfig task s'.
Proof.
  intros H. unfold teamConfig, load_leader.
  repeat (rewrite ?(GetByName_same _ _ _ _ _ H), ?(loadRobotAsMember_same _ _ _ _ H),
            ?(load_members_same _ _ _ _ H);
          first [reflexivity | case_match]).
Qed.

Lemma resolve_same task s s' :
  same_repository s s' -> resolve task s = resolve task s'.
Proof.
  intros H. unfold resolve.
  rewrite (botConfig_same _ _ _ H), (teamConfig_same _ _ _ H). reflexivity.
Qed.

(** [Execute] on a task whose resources resolve to a configuration: the
    row is saved as running, the callback is told, the runner is run with
    that configuration. *)
Lemma Execute_resolved task callback w config :
  Storage.db_error (storage w) = None ->
  keeps_repository callback ->
  resolve task (storage w) = Ret (Ok config) ->
  let task1 := set_StartedAt (Some (clock w)) (set_Status TaskStatusRunning task) in
  let w1 := notify callback (ID task) 10 TaskStatusRunning "Task started" None
              (with_storage (Storage.with_tasks
                               (<[ID task := task1]> (Storage.tasks (storage w)))
                               (storage w)) w) in
  let '(r, task', w') := Execute task callback w in
  let '(res, w2) := runAgnoScript config (ID task) callback w1 in
  Storage.db_error (storage w2) = None
  /\ exists task3,
       task' = task3
       /\ w' = notify callback (ID task)
                 (match snd res with Some _ => 0%Z | None => 100%Z end) (Status task3)
                 (match snd res with Some e => e | None => "Task completed" end)
                 (match snd res with
                  | Some _ => None
                  | None => Some {[ "result" := MVString (fst (fst res)) ]}
                  end)
                 (with_storage (Storage.with_tasks
                                  (<[ID task := task3]> (Storage.tasks (storage w2)))
                                  (storage w2)) w2)
       /\ match snd res with
          | Some e =>
              r = Ret (Some e) /\ Status task3 = TaskStatusFailed /\ Error_ task3 = e
              /\ Result task3 = Result task /\ EventLogs task3 = EventLogs task
              /\ Progress task3 = Progress task
          | None =>
              r = Ret None /\ Status task3 = TaskStatusCompleted /\ Progress task3 = 100%Z
              /\ Result task3 = fst (fst res) /\ EventLogs task3 = snd (fst res)
              /\ Error_ task3 = Error_ task
          end.
Proof.
  intros Hdb Hkeep Hres task1 w1.
  assert (same_repository (storage w1) (storage w)) as Hsame.
  { unfold w1. destruct (Hkeep (ID task) 10%Z TaskStatusRunning "Task started" None
      (with_storage (Storage.with_tasks (<[ID task := task1]> (Storage.tasks (storage w)))
                       (storage w)) w)) as [H1 H2].
    split; [rewrite H1|rewrite H2]; reflexivity. }
  assert (resolve task1 (storage w1) = Ret (Ok config)) as Hres1.
  { rewrite (resolve_same _ _ _ Hsame). exact Hres. }
  unfold Execute, Storage.Tasks_Update. rewrite Hdb.
  change (ID (set_StartedAt (Some (clock w)) (set_Status TaskStatusRunning task)))
    with (ID task).
  fold task1. fold w1.
  unfold resolve in Hres1. unfold executeBot, executeTeam.
  assert (Storage.db_error (storage (snd (runAgnoScript config (ID task) callback w1)))
          = None) as Hdb2.
  { apply (runAgnoScript_world (fun w => Storage.db_error (storage w) = None)).
    - intros p st m md w0 H0. destruct (Hkeep (ID task) p st m md w0) as [-> _]. done.
    - destruct Hsame as [-> _]. done. }
  destruct (one_of (ResourceType task1) ["bot"; "robot"]).
  - rewrite Hres1. change (ID task1) with (ID task).
    destruct (runAgnoScript config (ID task) callback w1) as [[[result eventLogs] err] w2].
    simpl in Hdb2. cbn [fst snd].
    unfold Storage.Tasks_Update_, Storage.Tasks_Update. rewrite Hdb2.
    destruct err as [e|]; cbv beta iota zeta; (split; [done|]);
      eexists; (split; [reflexivity|]); simpl; done.
  - destruct (one_of (ResourceType task1) ["team"]); [|discriminate].
    rewrite Hres1. change (ID task1) with (ID task).
    destruct (runAgnoScript config (ID task) callback w1) as [[[result eventLogs] err] w2].
    simpl in Hdb2. cbn [fst snd].
    unfold Storage.Tasks_Update_, Storage.Tasks_Update. rewrite Hdb2.
    destruct err as [e|]; cbv beta iota zeta; (split; [done|]);
      eexists; (split; [reflexivity|]); simpl; done.
Qed.

(** C9, as amended.  The task resolves to a configuration, the runner
    starts, writes [lines], each shorter than 64 KiB, and exits with status
    0.  Then [Execute] returns nil and writes status completed, progress
    100 and, as the result, the concatenation in stream order of the
    content fields of the [content] events that precede the first
    [cancelled] event (of all of them when there is none); events of other
    types add nothing.  That task struct is the row it saves, and the
    callback is then told of the completion. *)
Theorem Execute_clean_exit (task : Task) (callback : option ProgressCallback)
    (w : World) (config : AgnoConfig) (lines : list string) :
  Storage.db_error (storage w) = None ->
  keeps_repository callback ->
  resolve task (storage w) = Ret (Ok config) ->
  launch config = Started lines None ->
  within_limit lines ->
  let '(r, task', w') := Execute task callback w in
  r = Ret None
  /\ Status task' = TaskStatusCompleted
  /\ Progress task' = 100%Z
  /\ Result task' = contents (before_cancelled (events (texts lines)))
  /\ (existsb is_cancelled (events (texts lines)) = false ->
      Result task' = contents (events (texts lines)))
  /\ exists w3,
       Storage.tasks (storage w3) !! ID task = Some task'
       /\ w' = notify callback (ID task) 100 TaskStatusCompleted "Task completed"
                 (Some {[ "result" := MVString (Result task') ]}) w3.
Proof.
  intros Hdb Hkeep Hres Hlaunch Hlimit.
  pose proof (Execute_resolved task callback w config Hdb Hkeep Hres) as Hexec.
  cbv zeta in Hexec.
  destruct (Execute task callback w) as [[r task'] w'].
  match type of Hexec with
  | context [runAgnoScript config (ID task) callback ?x] =>
      pose proof (runAgnoScript_started config (ID task) callback x lines None Hlaunch)
        as Hrun;
      destruct (runAgnoScript config (ID task) callback x) as [res w2]
  end.
  destruct Hexec as (Hdb2 & task3 & -> & -> & Hfinal).
  cbv zeta in Hrun. rewrite (scanned_within_limit _ Hlimit) in Hrun.
  set (read := texts lines) in *. cbn [fst] in Hrun.
  assert (res = (contents (before_cancelled (events read)), join (logged read) nl, None))
    as ->.
  { rewrite Hrun. destruct (existsb is_cancelled (events read)) eqn:Hc; [done|].
    rewrite (before_cancelled_none _ Hc). done. }
  cbn [fst snd] in Hfinal |- *.
  destruct Hfinal as (-> & Hstatus & Hprogress & Hresult & Hlogs & _).
  repeat split; try done.
  - intros Hc. rewrite Hresult, (before_cancelled_none _ Hc). done.
  - eexists. split; [|rewrite Hstatus, Hresult; reflexivity].
    simpl. apply lookup_insert_eq.
Qed.

(** C2, as amended.  The task resolves to a configuration, the runner
    starts, writes [lines], each shorter than 64 KiB, without a [cancelled]
    event and with a last [error] event of non-empty message [msg], and
    exits with a non-zero status.  Then [Execute] returns the error [python
    script error: msg], writes status failed and that error, and leaves the
    result and the event logs of the task as they were: neither the partial
    content nor the event lines are kept.  That task struct is the row it
    saves, and the callback is then told of the failure. *)
Theorem Execute_failed_exit (task : Task) (callback : option ProgressCallback)
    (w : World) (config : AgnoConfig) (lines : list string) (exit msg : string) :
  Storage.db_error (storage w) = None ->
  keeps_repository callback ->
  resolve task (storage w) = Ret (Ok config) ->
  launch config = Started lines (Some exit) ->
  within_limit lines ->
  existsb is_cancelled (events (texts lines)) = false ->
  last_error "" (events (texts lines)) = msg ->
  msg <> "" ->
  let '(r, task', w') := Execute task callback w in
  r = Ret (Some ("python script error: " +:+ msg))
  /\ Status task' = TaskStatusFailed
  /\ Error_ task' = "python script error: " +:+ msg
  /\ Result task' = Result task
  /\ EventLogs task' = EventLogs task
  /\ exists w3,
       Storage.tasks (storage w3) !! ID task = Some task'
       /\ w' = notify callback (ID task) 0 TaskStatusFailed
                 ("python script error: " +:+ msg) None w3.
Proof.
  intros Hdb Hkeep Hres Hlaunch Hlimit Hc Hmsg Hne.
  pose proof (Execute_resolved task callback w config Hdb Hkeep Hres) as Hexec.
  cbv zeta in Hexec.
  destruct (Execute task callback w) as [[r task'] w'].
  match type of Hexec with
  | context [runAgnoScript config (ID task) callback ?x] =>
      pose proof (runAgnoScript_started config (ID task) callback x lines (Some exit)
                    Hlaunch) as Hrun;
      destruct (runAgnoScript config (ID task) callback x) as [res w2]
  end.
  destruct Hexec as (Hdb2 & task3 & -> & -> & Hfinal).
  cbv zeta in Hrun. rewrite (scanned_within_limit _ Hlimit) in Hrun.
  cbn [fst] in Hrun. rewrite Hc, Hmsg in Hrun.
  apply String.eqb_neq in Hne. rewrite Hne in Hrun. simpl in Hrun. subst res.
  unfold failure in Hfinal |- *. cbn [fst snd] in Hfinal |- *.
  destruct Hfinal as (-> & Hstatus & Herror & Hresult & Hlogs & _).
  repeat split; try done.
  eexists. split; [|rewrite Hstatus; reflexivity].
  simpl. apply lookup_insert_eq.
Qed.

Lemma GetByName_missing workspaceID name resourceType s :
  Storage.db_error s = None ->
  missing workspaceID name resourceType s ->
  Storage.Resources_GetByName workspaceID name resourceType s
    = Err Storage.ErrRecordNotFound.
Proof.
  intros Hdb Hmissing. unfold Storage.Resources_GetByName. rewrite Hdb.
  destruct (List.find _ (Storage.resources s)) as [r|] eqn:Hfind; [|done].
  apply List.find_some in Hfind as [Hin Hmatch].
  rewrite (Hmissing r) in Hmatch; [done|]. apply list_elem_of_In. done.
Qed.

(** C4, as amended.  A robot task whose robot loads and parses, and whose
    Soul (or, the Soul being there and parsing as a Soul, whose Mind) is
    missing from the repository, gets no configuration: [executeBot]
    returns the error [failed to load soul: ] (or [failed to load mind: ])
    followed by the database's error for a query without rows: it names
    the kind of the dangling reference, and the executor adds no name to
    it.  It calls no callback and writes nothing. *)
Theorem executeBot_missing_reference (task : Task) (callback : option ProgressCallback)
    (w : World) (robotRow : Models.Resource) (robot : Crd.Robot) :
  Storage.db_error (storage w) = None ->
  Storage.Resources_GetByName (WorkspaceID task) (ResourceName task) ResourceTypeRobot
    (storage w) = Ok robotRow ->
  Crd.Parse (Res_Spec robotRow) = Ok (Crd.RRobot robot) ->
  (missing (WorkspaceID task) (Crd.Robot_Soul (Crd.Robot_Spec robot)) ResourceTypeSoul
     (storage w) ->
   executeBot task callback w
     = (Ret (failure ("failed to load soul: " +:+ Storage.ErrRecordNotFound)), w))
  /\ (forall soulRow soul,
        Storage.Resources_GetByName (WorkspaceID task)
          (Crd.Robot_Soul (Crd.Robot_Spec robot)) ResourceTypeSoul (storage w)
          = Ok soulRow ->
        Crd.Parse (Res_Spec soulRow) = Ok (Crd.RSoul soul) ->
        missing (WorkspaceID task) (Crd.Robot_Mind (Crd.Robot_Spec robot))
          ResourceTypeMind (storage w) ->
        executeBot task callback w
          = (Ret (failure ("failed to load mind: " +:+ Storage.ErrRecordNotFound)), w)).
Proof.
  intros Hdb Hrow Hrobot. split.
  - intros Hmissing. unfold executeBot, botConfig.
    rewrite Hrow, Hrobot, (GetByName_missing _ _ _ _ Hdb Hmissing). reflexivity.
  - intros soulRow soul Hsoul Hparse Hmissing. unfold executeBot, botConfig.
    rewrite Hrow, Hrobot, Hsoul, Hparse. simpl.
    rewrite (GetByName_missing _ _ _ _ Hdb Hmissing). reflexivity.
Qed.

(** The member loop, when no member panics: it appends the members that
    load, in order, and keeps the driving mind it has, or takes the mind
    of the first member that loads. *)
Lemma load_members_loaded workspaceID names s :
  loads_quietly workspaceID names s ->
  forall members leaderMind,
    load_members workspaceID names s members leaderMind
      = Ret (members ++ map fst (loaded workspaceID names s),
             match leaderMind with
             | Some mind => Some mind
             | None => head (map snd (loaded workspaceID names s))
             end).
Proof.
  induction names as [|name names IH]; intros Hquiet members leaderMind.
  - simpl. rewrite app_nil_r. destruct leaderMind; reflexivity.
  - assert (loads_quietly workspaceID names s) as Hrest.
    { intros n Hn. apply Hquiet. apply elem_of_cons. right. done. }
    pose proof (Hquiet name ltac:(apply elem_of_cons; left; done)) as Hname.
    simpl. destruct (loadRobotAsMember workspaceID name s) as [[[member mind]|e]|v].
    + rewrite (IH Hrest). simpl. rewrite <- app_assoc. simpl.
      destruct leaderMind; reflexivity.
    + apply IH. done.
    + exfalso. eapply Hname. reflexivity.
Qed.

(** C5, as amended.  A team task whose team loads and parses, none of
    whose member robots panics while it is loaded.  A member that fails to
    load is skipped.  Without a named leader the plan fails exactly when no
    member loaded, and otherwise the driving mind is the mind of the first
    member that loaded.  With a named leader the plan fails when the leader
    fails to load, whatever members there are, and otherwise the driving
    mind is the leader's and the plan does not fail, even with no member
    loaded. *)
Theorem teamConfig_members_and_leader (task : Task) (s : Storage.Storage)
    (teamRow : Models.Resource) (teamDef : Crd.Team) :
  Storage.Resources_GetByName (WorkspaceID task) (ResourceName task) ResourceTypeTeam s
    = Ok teamRow ->
  Crd.Parse (Res_Spec teamRow) = Ok (Crd.RTeam teamDef) ->
  loads_quietly (WorkspaceID task) (Crd.Team_Members (Crd.Team_Spec teamDef)) s ->
  let members := loaded (WorkspaceID task) (Crd.Team_Members (Crd.Team_Spec teamDef)) s in
  let leader := Crd.Team_Leader (Crd.Team_Spec teamDef) in
  (leader = "" ->
     match members with
     | [] => teamConfig task s = Ret (Err "team has no valid members or leader")
     | first :: _ =>
         exists config team,
           teamConfig task s = Ret (Ok config)
           /\ Cfg_Model config = model_of (snd first)
           /\ Cfg_Team config = Some team
           /\ TeamCfg_Leader team = None
           /\ TeamCfg_Members team = map fst members
     end)
  /\ (leader <> "" ->
       match loadRobotAsMember (WorkspaceID task) leader s with
       | Panic _ => True
       | Ret (Err e) => teamConfig task s = Ret (Err ("failed to load leader robot: " +:+ e))
       | Ret (Ok (leaderMember, leaderMind)) =>
           exists config team,
             teamConfig task s = Ret (Ok config)
             /\ Cfg_Model config = model_of leaderMind
             /\ Cfg_Team config = Some team
             /\ TeamCfg_Leader team = Some leaderMember
             /\ TeamCfg_Members team = map fst members
       end).
Proof.
  intros Hrow Hteam Hquiet members leader. split.
  - intros Hnone. unfold teamConfig, load_leader. rewrite Hrow, Hteam.
    fold leader. rewrite Hnone. simpl.
    rewrite (load_members_loaded _ _ _ Hquiet). fold members. simpl.
    destruct members as [|first rest]; simpl; [reflexivity|].
    eexists _, _. repeat split; reflexivity.
  - intros Hsome. unfold teamConfig, load_leader. rewrite Hrow, Hteam.
    fold leader. apply String.eqb_neq in Hsome. rewrite Hsome. simpl.
    destruct (loadRobotAsMember (WorkspaceID task) leader s)
      as [[[leaderMember leaderMind]|e]|v]; [|reflexivity|exact I].
    rewrite (load_members_loaded _ _ _ Hquiet). fold members. simpl.
    rewrite andb_false_r.
    eexists _, _. repeat split; reflexivity.
Qed.

End WithEnv.

End ExecutorFacts.

(** ** Facts about the task lifecycle *)

Module LifecycleFacts.

Import Models World Executor ExecutorSpec ExecutorFacts TaskRows.

Section WithEnv.
Context `{Yaml : Crd.YamlCodec} `{Env : RunnerEnv} `{Enc : TaskHandler.LogEncoder}.

(** What the handler's callback does to the database. *)
Lemma callback_storage taskID progress status message metadata w :
  storage (TaskHandler.callback taskID progress status message metadata w) =
    match Storage.Tasks_GetByID taskID (storage w) with
    | Ok t =>
        Storage.Tasks_AddLog
          {| Log_TaskID := taskID; Log_Level := "info";
             Log_Message :=
               TaskHandler.json_Marshal_logMessage
                 (TaskHandler.event_type_of metadata) message
                 (TaskHandler.details_of metadata);
             Log_EventType := TaskHandler.event_type_of metadata |}
          (Storage.Tasks_Update_ (set_Status status (set_Progress progress t)) (storage w))
    | Err _ => storage w
    end.
Proof.
  unfold TaskHandler.callback. cbn [storage with_broadcaster].
  destruct (Storage.Tasks_GetByID taskID (storage w)); reflexivity.
Qed.

Lemma callback_keeps_repository : keeps_repository (Some TaskHandler.callback).
Proof.
  intros taskID progress status message metadata w. cbn [notify].
  rewrite callback_storage. unfold same_repository.
  unfold Storage.Tasks_GetByID, Storage.Tasks_AddLog, Storage.Tasks_Update_,
    Storage.Tasks_Update.
  destruct (Storage.db_error (storage w)) eqn:Hdb; [done|].
  destruct (Storage.tasks (storage w) !! taskID); simpl; rewrite ?Hdb; done.
Qed.

(** The callback writes the progress and the status it is called with on
    the row of the task, whatever status the row has. *)
Lemma callback_row taskID progress status message metadata w row :
  Storage.db_error (storage w) = None ->
  row_of taskID w = Some row ->
  ID row = taskID ->
  row_of taskID (TaskHandler.callback taskID progress status message metadata w)
    = Some (set_Status status (set_Progress progress row)).
Proof.
  intros Hdb Hrow Hid. unfold row_of in *. rewrite callback_storage.
  unfold Storage.Tasks_GetByID, Storage.Tasks_AddLog, Storage.Tasks_Update_,
    Storage.Tasks_Update.
  rewrite Hdb, Hrow. simpl. rewrite Hdb. simpl.
  change (ID (set_Status status (set_Progress progress row))) with (ID row).
  rewrite Hid. apply lookup_insert_eq.
Qed.

Lemma callback_status taskID progress status message metadata w :
  Storage.db_error (storage w) = None ->
  has_row taskID w ->
  status_of taskID (TaskHandler.callback taskID progress status message metadata w)
    = Some status
  /\ has_row taskID (TaskHandler.callback taskID progress status message metadata w).
Proof.
  intros Hdb (row & Hrow & Hid). unfold status_of, has_row.
  rewrite (callback_row _ _ _ _ _ _ row Hdb Hrow Hid). split; [reflexivity|].
  eexists. split; [reflexivity|]. exact Hid.
Qed.

Lemma callback_db_ok taskID progress status message metadata w :
  Storage.db_error (storage w) = None ->
  Storage.db_error (storage (TaskHandler.callback taskID progress status message metadata w))
    = None.
Proof.
  intros Hdb.
  destruct (callback_keeps_repository taskID progress status message metadata w)
    as [H _].
  cbn [notify] in H. rewrite H. done.
Qed.

(** With the handler's callback, [Execute] leaves the row running when it
    panics, completed when it returns nil and failed when it returns an
    error, whatever the status of the row and of the task was before. *)
Lemma Execute_final_status task w :
  Storage.db_error (storage w) = None ->
  let '(r, _, w') := Execute task (Some TaskHandler.callback) w in
  Storage.db_error (storage w') = None
  /\ has_row (ID task) w'
  /\ status_of (ID task) w' =
       Some match r with
            | Panic _ => TaskStatusRunning
            | Ret None => TaskStatusCompleted
            | Ret (Some _) => TaskStatusFailed
            end.
Proof.
  intros Hdb. unfold Execute, Storage.Tasks_Update. rewrite Hdb.
  set (task1 := set_StartedAt (Some (clock w)) (set_Status TaskStatusRunning task)).
  change (ID task1) with (ID task).
  set (w0 := with_storage _ w).
  assert (Storage.db_error (storage w0) = None) as Hdb0 by exact Hdb.
  assert (has_row (ID task) w0) as Hrow0.
  { exists task1. split; [apply lookup_insert_eq|reflexivity]. }
  set (w1 := notify _ _ _ _ _ _ w0).
  assert (Storage.db_error (storage w1) = None) as Hdb1 by (apply callback_db_ok; done).
  assert (status_of (ID task) w1 = Some TaskStatusRunning /\ has_row (ID task) w1)
    as [Hst1 Hrow1] by (apply callback_status; done).
  assert (forall r w2,
            Storage.db_error (storage w2) = None ->
            let '(o, _, w') :=
              match r with
              | (result, eventLogs, Some e) =>
                  (Ret (Some e),
                   set_Error e (set_Status TaskStatusFailed
                     (set_Completed (clock w2) (milliseconds_between (clock w) (clock w2))
                        task1)),
                   notify (Some TaskHandler.callback) (ID task) 0 TaskStatusFailed e None
                     (with_storage
                        (Storage.Tasks_Update_
                           (set_Error e (set_Status TaskStatusFailed
                              (set_Completed (clock w2)
                                 (milliseconds_between (clock w) (clock w2)) task1)))
                           (storage w2)) w2))
              | (result, eventLogs, None) =>
                  (Ret None,
                   set_EventLogs eventLogs (set_Progress 100 (set_Result result
                     (set_Status TaskStatusCompleted
                        (set_Completed (clock w2)
                           (milliseconds_between (clock w) (clock w2)) task1)))),
                   notify (Some TaskHandler.callback) (ID task) 100 TaskStatusCompleted
                     "Task completed" (Some {[ "result" := MVString result ]})
                     (with_storage
                        (Storage.Tasks_Update_
                           (set_EventLogs eventLogs (set_Progress 100 (set_Result result
                              (set_Status TaskStatusCompleted
                                 (set_Completed (clock w2)
                                    (milliseconds_between (clock w) (clock w2)) task1)))))
                           (storage w2)) w2))
              end in
            Storage.db_error (storage w') = None
            /\ has_row (ID task) w'
            /\ status_of (ID task) w' =
                 Some match o with
                      | Panic _ => TaskStatusRunning
                      | Ret None => TaskStatusCompleted
                      | Ret (Some _) => TaskStatusFailed
                      end) as Hfinal.
  { intros [[result eventLogs] [e|]] w2 Hdb2; cbn [notify];
      match goal with
      | |- context [TaskHandler.callback ?i ?p ?st ?m ?md ?x] =>
          assert (Storage.db_error (storage x) = None) as Hx
            by (unfold Storage.Tasks_Update_, Storage.Tasks_Update; simpl;
                rewrite Hdb2; exact Hdb2);
          assert (has_row i x) as Hr
            by (unfold has_row, row_of, Storage.Tasks_Update_, Storage.Tasks_Update;
                simpl; rewrite Hdb2; simpl; eexists;
                split; [apply lookup_insert_eq|reflexivity]);
          destruct (callback_status i p st m md x Hx Hr) as [Hs Hr'];
          pose proof (callback_db_ok i p st m md x Hx)
      end; done. }
  assert (forall config,
            Storage.db_error
              (storage (snd (runAgnoScript config (ID task) (Some TaskHandler.callback) w1)))
            = None) as Hrun.
  { intros config.
    apply (runAgnoScript_world (fun w => Storage.db_error (storage w) = None)); [|done].
    intros p st m md w2 H2. cbn [notify]. apply callback_db_ok. done. }
  unfold executeBot, executeTeam. change (ID task1) with (ID task).
  destruct (one_of (ResourceType task1) ["bot"; "robot"]).
  - destruct (botConfig task1 (storage w1)) as [[config|e]|v].
    + specialize (Hrun config).
      destruct (runAgnoScript config (ID task) (Some TaskHandler.callback) w1)
        as [r w2].
      apply (Hfinal r w2 Hrun).
    + apply (Hfinal (failure e) w1 Hdb1).
    + done.
  - destruct (one_of (ResourceType task1) ["team"]).
    + destruct (teamConfig task1 (storage w1)) as [[config|e]|v].
      * specialize (Hrun config).
        destruct (runAgnoScript config (ID task) (Some TaskHandler.callback) w1)
          as [r w2].
        apply (Hfinal r w2 Hrun).
      * apply (Hfinal (failure e) w1 Hdb1).
      * done.
    + apply (Hfinal (failure _) w1 Hdb1).
Qed.

(** A worker that processes an item with the handler's callback leaves
    the row completed or failed. *)
Lemma processTask_final_status item q w :
  Orchestrator.Callback item = Some TaskHandler.callback ->
  Storage.db_error (storage w) = None ->
  let '(_, (_, w'), _) := Orchestrator.processTask item (q, w) in
  status_of (ID (Orchestrator.Task_ item)) w' = Some TaskStatusCompleted
  \/ status_of (ID (Orchestrator.Task_ item)) w' = Some TaskStatusFailed.
Proof.
  intros Hcb Hdb.
  pose proof (Execute_final_status (Orchestrator.Task_ item) w Hdb) as Hexec.
  unfold Orchestrator.processTask, Orchestrator.run_executor, mbind,
    Orchestrator.QM_bind.
  rewrite Hcb. cbn [Orchestrator.Execute Wiring.AgnoExecutor].
  destruct (Execute (Orchestrator.Task_ item) (Some TaskHandler.callback) w)
    as [[r task'] w'].
  destruct Hexec as (Hdb' & Hrow' & Hstatus).
  destruct r as [[e|]|v]; cbn.
  - right. apply callback_status; done.
  - left. done.
  - right. apply callback_status; done.
Qed.

(** C1, as amended.  With the database reachable: the progress callback
    sets the row of a task to the status it is called with, whatever the
    row's status is; [Execute] leaves the row completed when it returns
    nil, failed when it returns an error and running when it panics, and a
    worker then leaves it completed or failed, whatever the status was
    before the run (cancelled included); [Cancel] of an active task sets
    its row to cancelled and removes it from the active map.  No write
    looks at the current status. *)
Theorem status_writes_are_unguarded (w : World) :
  Storage.db_error (storage w) = None ->
  (forall taskID progress status message metadata,
     has_row taskID w ->
     status_of taskID (TaskHandler.callback taskID progress status message metadata w)
       = Some status)
  /\ (forall task,
        let '(r, _, w') := Execute task (Some TaskHandler.callback) w in
        status_of (ID task) w' =
          Some match r with
               | Panic _ => TaskStatusRunning
               | Ret None => TaskStatusCompleted
               | Ret (Some _) => TaskStatusFailed
               end)
  /\ (forall item q,
        Orchestrator.Callback item = Some TaskHandler.callback ->
        let '(_, (_, w'), _) := Orchestrator.processTask item (q, w) in
        status_of (ID (Orchestrator.Task_ item)) w' = Some TaskStatusCompleted
        \/ status_of (ID (Orchestrator.Task_ item)) w' = Some TaskStatusFailed)
  /\ (forall taskID item q,
        Orchestrator.active q !! taskID = Some item ->
        Orchestrator.Callback item = Some TaskHandler.callback ->
        has_row taskID w ->
        let '(err, (q', w'), _) := Orchestrator.Cancel taskID (q, w) in
        err = None
        /\ status_of taskID w' = Some TaskStatusCancelled
        /\ Orchestrator.active q' !! taskID = None).
Proof.
  intros Hdb. repeat split.
  - intros taskID progress status message metadata Hrow.
    apply callback_status; done.
  - intros task.
    pose proof (Execute_final_status task w Hdb) as Hexec.
    destruct (Execute task (Some TaskHandler.callback) w) as [[r task'] w'].
    apply Hexec.
  - intros item q Hcb. apply processTask_final_status; done.
  - intros taskID item q Hitem Hcb Hrow.
    unfold Orchestrator.Cancel. rewrite Hitem.
    unfold mbind, Orchestrator.QM_bind, Orchestrator.invoke,
      Orchestrator.delete_active, mret, Orchestrator.QM_ret.
    rewrite Hcb. cbn. repeat split.
    + apply callback_status; done.
    + apply lookup_delete_eq.
Qed.

End WithEnv.

(** C1, as stated, fails.  Task 1 is pending in the queue.  The handler
    cancels it: its row is cancelled, a terminal status.  A worker then
    receives the item from the channel and runs it: the row ends
    completed.  A progress callback on the cancelled row makes it running
    as well. *)
Lemma cancelled_task_runs_and_completes :
  let task := Samples.task_for 1 "robot" "r" "hi" in
  let st0 := (Samples.queue_holding 1 [Samples.item_of task], Samples.world_with [task]) in
  let st1 := snd (fst (TaskHandler.Cancel 1 1 st0)) in
  let st2 := snd (fst (Orchestrator.worker_step st1)) in
  status_of 1 (snd st0) = Some TaskStatusPending
  /\ fst (fst (TaskHandler.Cancel 1 1 st0)) = TaskHandler.OK
  /\ status_of 1 (snd st1) = Some TaskStatusCancelled
  /\ is_terminal TaskStatusCancelled = true
  /\ status_of 1 (snd st2) = Some TaskStatusCompleted
  /\ status_of 1 (TaskHandler.callback 1%N 50%Z TaskStatusRunning "late" None (snd st1))
     = Some TaskStatusRunning.
Proof.
  intros task st0 st1 st2.
  repeat split; vm_compute; reflexivity.
Qed.

(** An instance: in the world of the sample task 1, cancelled by its
    handler, the callback, a worker and [Cancel] write as the theorem
    says. *)
Lemma status_writes_on_sample_task :
  let task := Samples.task_for 1 "robot" "r" "hi" in
  let w := Samples.world_with [set_Status TaskStatusCancelled task] in
  Storage.db_error (storage w) = None
  /\ status_of 1 w = Some TaskStatusCancelled
  /\ status_of 1 (TaskHandler.callback 1%N 50%Z TaskStatusRunning "late" None w)
     = Some TaskStatusRunning
  /\ (let '(_, (_, w'), _) :=
        Orchestrator.processTask (Samples.item_of task) (Orchestrator.NewTaskQueue 1, w) in
      status_of 1 w' = Some TaskStatusCompleted \/ status_of 1 w' = Some TaskStatusFailed).
Proof.
  intros task w.
  split; [reflexivity|]. split; [reflexivity|].
  destruct (status_writes_are_unguarded w eq_refl) as (Hcallback & _ & Hworker & _).
  split.
  - apply (Hcallback 1%N 50%Z TaskStatusRunning "late" None).
    eexists. split; reflexivity.
  - apply (Hworker (Samples.item_of task) (Orchestrator.NewTaskQueue 1) eq_refl).
Defined.

End LifecycleFacts.

(** ** The scenarios of the specification, on the samples *)

Module Scenarios.

Import Models World Executor ExecutorSpec ExecutorFacts TaskRows LifecycleFacts.

Lemma repository_has_no (name type : string) :
  (forallb (fun r => negb (Storage.resource_matches 1 name type r)) Samples.repository
   = true) ->
  forall rows, missing 1 name type (storage (Samples.world_with rows)).
Proof.
  intros Hall rows r Hin. apply list_elem_of_In in Hin.
  rewrite forallb_forall in Hall. specialize (Hall r Hin).
  apply negb_true_iff in Hall. exact Hall.
Qed.

(** Scenario S1: the runner emits started, two contents and completed, and
    exits 0; the task ends completed, progress 100, result [hello
    world]. *)
Lemma robot_happy_path :
  let task := Samples.task_for 1 "robot" "r" "hi" in
  let w := Samples.world_with [task] in
  let '(r, task', w') := Execute task (Some TaskHandler.callback) w in
  r = Ret None
  /\ Status task' = TaskStatusCompleted
  /\ Progress task' = 100%Z
  /\ Result task' = "hello world"
  /\ row_of 1 w' = Some task'.
Proof.
  intros task w.
  pose proof (Execute_clean_exit task (Some TaskHandler.callback) w _ _
                eq_refl callback_keeps_repository eq_refl eq_refl eq_refl) as H.
  destruct (Execute task (Some TaskHandler.callback) w) as [[r task'] w'] eqn:Hexec.
  destruct H as (Hr & Hstatus & Hprogress & Hresult & _ & w3 & Hrow & Hw').
  repeat split; try done.
  vm_compute in Hexec. injection Hexec as <- <- <-. vm_compute. reflexivity.
Defined.

(** C9, as stated, fails on a stream with a [cancelled] event before a
    [content] event: the runner exits 0 after the contents [a] and [b],
    and the result is [a]. *)
Lemma content_after_cancelled_is_dropped :
  let task := Samples.task_for 1 "robot" "r" "stop" in
  let w := Samples.world_with [task] in
  let lines := [Samples.line_content "a"; Samples.line_cancelled;
                Samples.line_content "b"] in
  let res := Execute task (Some TaskHandler.callback) w in
  (exists config, resolve task (storage w) = Ret (Ok config)
                  /\ launch config = Started lines None)
  /\ fst (fst res) = Ret None
  /\ Status (snd (fst res)) = TaskStatusCompleted
  /\ Result (snd (fst res)) = "a"
  /\ contents (events lines) = "ab".
Proof.
  intros task w lines res.
  split; [eexists; split; reflexivity|].
  repeat split; vm_compute; reflexivity.
Qed.

(** Scenario S3, as the code runs it: the runner emits a content and the
    error [boom] and exits 1; the task ends failed with the error
    [python script error: boom], an empty result and empty event logs. *)
Lemma runner_error :
  let task := Samples.task_for 1 "robot" "r" "fail" in
  let w := Samples.world_with [task] in
  let '(r, task', w') := Execute task (Some TaskHandler.callback) w in
  r = Ret (Some "python script error: boom")
  /\ Status task' = TaskStatusFailed
  /\ Error_ task' = "python script error: boom"
  /\ Result task' = ""
  /\ EventLogs task' = "".
Proof.
  intros task w.
  assert ("boom" <> "") as Hne by discriminate.
  pose proof (Execute_failed_exit task (Some TaskHandler.callback) w _ _ _ "boom"
                eq_refl callback_keeps_repository eq_refl eq_refl eq_refl eq_refl eq_refl
                Hne)
    as H.
  destruct (Execute task (Some TaskHandler.callback) w) as [[r task'] w'].
  destruct H as (Hr & Hstatus & Herror & Hresult & Hlogs & _).
  repeat split; done.
Defined.

(** C2, as stated, fails in its last part: both lines of scenario S3 are
    decoded as events, and neither is in the event logs of the task or of
    its row when the run has failed. *)
Lemma failed_run_keeps_no_event_line :
  let task := Samples.task_for 1 "robot" "r" "fail" in
  let w := Samples.world_with [task] in
  let lines := [Samples.line_content "partial"; Samples.line_error "boom"] in
  let res := Execute task (Some TaskHandler.callback) w in
  (exists config, resolve task (storage w) = Ret (Ok config)
                  /\ launch config = Started lines (Some "exit status 1"))
  /\ logged lines = lines
  /\ fst (fst res) = Ret (Some "python script error: boom")
  /\ EventLogs (snd (fst res)) = ""
  /\ (EventLogs <$> row_of 1 (snd res)) = Some ""
  /\ (Status <$> row_of 1 (snd res)) = Some TaskStatusFailed.
Proof.
  intros task w lines res.
  split; [eexists; split; reflexivity|].
  repeat split; vm_compute; reflexivity.
Qed.

(** Scenario S2, as the code runs it: the robot names the Soul [ghost],
    which does not exist; the error names the kind and the database's
    error. *)
Lemma missing_soul :
  let task := Samples.task_for 1 "robot" "haunted" "hi" in
  let w := Samples.world_with [task] in
  executeBot task (Some TaskHandler.callback) w
    = (Ret (failure "failed to load soul: record not found"), w).
Proof.
  intros task w.
  destruct (executeBot_missing_reference (Yaml := Samples.sample_yaml)
              (Env := Samples.sample_runner) task (Some TaskHandler.callback) w _
              (Samples.robot_of "haunted" "ghost" "m") eq_refl eq_refl eq_refl)
    as [Hsoul _].
  apply Hsoul. apply repository_has_no. reflexivity.
Defined.

(** C4, as stated, fails twice.  The error for the missing Soul [ghost]
    does not name it.  A Soul stored with a text that does not parse makes
    [executeBot] panic instead of returning an error. *)
Lemma dangling_reference_unnamed_and_panic :
  let s := storage (Samples.world_with []) in
  botConfig (Samples.task_for 1 "robot" "haunted" "hi") s
    = Ret (Err "failed to load soul: record not found")
  /\ contains "failed to load soul: record not found" "ghost" = false
  /\ is_err (Crd.Parse Samples.doc_scrap) = true
  /\ botConfig (Samples.task_for 2 "robot" "torn" "hi") s
     = Panic "interface conversion: crd.Resource is nil, not *crd.Soul".
Proof.
  intros s. repeat split; vm_compute; reflexivity.
Qed.

(** A team without leader whose first member is absent: the member is
    skipped, the second member is loaded and its mind drives the team. *)
Lemma team_skips_absent_member :
  let task := Samples.task_for 1 "team" "pair" "hi" in
  let s := storage (Samples.world_with [task]) in
  exists config team,
    teamConfig task s = Ret (Ok config)
    /\ Cfg_Model config = model_of Samples.mind_m
    /\ Cfg_Team config = Some team
    /\ TeamCfg_Leader team = None
    /\ map Member_Name (TeamCfg_Members team) = ["r"].
Proof.
  intros task s.
  assert (loads_quietly 1 ["absent"; "r"] s) as Hquiet.
  { intros name Hin v.
    apply elem_of_cons in Hin as [->|Hin]; [vm_compute; discriminate|].
    apply elem_of_cons in Hin as [->|Hin]; [vm_compute; discriminate|].
    inversion Hin. }
  destruct (teamConfig_members_and_leader (Yaml := Samples.sample_yaml) task s _
              (Samples.team_of "pair" "" ["absent"; "r"]) eq_refl eq_refl Hquiet)
    as [Hnoleader _].
  specialize (Hnoleader eq_refl).
  destruct Hnoleader as (config & team & Hconfig & Hmodel & Hteam & Hleader & Hmembers).
  exists config, team. repeat split; try done.
  rewrite Hmembers. reflexivity.
Defined.

(** C5, as stated, fails: the team names a leader that does not exist and
    a member that loads; one valid member remains and the plan fails. *)
Lemma team_fails_for_its_leader :
  let task := Samples.task_for 1 "team" "headless" "hi" in
  let s := storage (Samples.world_with [task]) in
  teamConfig task s
    = Ret (Err "failed to load leader robot: failed to load robot: record not found")
  /\ map (fun m => Member_Name (fst m)) (loaded 1 ["r"] s) = ["r"].
Proof.
  intros task s. split; vm_compute; reflexivity.
Qed.

End Scenarios.
(** ** Facts about the broadcaster's state *)

Module BroadcasterCallFacts.

Import Models Broadcaster BroadcasterRuns BroadcasterFacts BroadcasterCalls.

Lemma subs_of_Subscribe t b t' :
  subs_of (snd (Subscribe t b)) t' =
    if N.eqb t' t then subs_of b t ++ [next_ref b] else subs_of b t'.
Proof.
  unfold subs_of at 1. simpl.
  destruct (N.eqb_spec t' t) as [->|Hne].
  - rewrite lookup_insert_eq. reflexivity.
  - rewrite lookup_insert_ne by done. reflexivity.
Qed.

Lemma remove_first_notin ch l : ch ∉ l -> remove_first ch l = (l, false).
Proof.
  induction l as [|x l IH]; intros Hn; [reflexivity|].
  apply not_elem_of_cons in Hn as [Hne Hn]. simpl.
  destruct (Nat.eqb_spec x ch) as [->|_]; [done|].
  rewrite (IH Hn). reflexivity.
Qed.

Lemma remove_first_in ch l : ch ∈ l -> snd (remove_first ch l) = true.
Proof.
  induction l as [|x l IH]; intros Hin; [by apply elem_of_nil in Hin|].
  simpl. destruct (Nat.eqb_spec x ch) as [->|Hne]; [reflexivity|].
  apply elem_of_cons in Hin as [->|Hin]; [done|].
  specialize (IH Hin). destruct (remove_first ch l). exact IH.
Qed.


Lemma remove_first_keeps ch l x : x ∈ l -> x <> ch -> x ∈ fst (remove_first ch l).
Proof.
  induction l as [|y l IH]; simpl; [done|].
  intros Hin Hne. destruct (Nat.eqb_spec y ch) as [->|Hy]; simpl.
  - apply elem_of_cons in Hin as [->|Hin]; done.
  - destruct (remove_first ch l) as [l' f]. simpl in *.
    apply elem_of_cons in Hin as [->|Hin]; [apply list_elem_of_here|].
    apply list_elem_of_further, IH; done.
Qed.


Lemma remove_first_last ch l : ch ∉ l -> remove_first ch (l ++ [ch]) = (l, true).
Proof.
  induction l as [|x l IH]; intros Hn; simpl.
  - rewrite Nat.eqb_refl. reflexivity.
  - apply not_elem_of_cons in Hn as [Hne Hn].
    destruct (Nat.eqb_spec x ch) as [->|_]; [done|].
    rewrite (IH Hn). reflexivity.
Qed.

Lemma subs_of_Unsubscribe t ch b t' :
  subs_of (Unsubscribe t ch b) t' =
    if N.eqb t' t then fst (remove_first ch (subs_of b t)) else subs_of b t'.
Proof.
  unfold Unsubscribe.
  destruct (remove_first ch (subs_of b t)) as [subs' found].
  unfold subs_of at 1. simpl.
  destruct (Nat.eqb_spec (length subs') 0) as [H0|H0].
  - destruct (N.eqb_spec t' t) as [->|Hne].
    + rewrite lookup_delete_eq. destruct subs'; [reflexivity|discriminate].
    + rewrite lookup_delete_ne by done. reflexivity.
  - destruct (N.eqb_spec t' t) as [->|Hne].
    + rewrite lookup_insert_eq. reflexivity.
    + rewrite lookup_insert_ne by done. reflexivity.
Qed.

Lemma heap_Unsubscribe t ch b :
  heap (Unsubscribe t ch b) =
    if snd (remove_first ch (subs_of b t)) then close_chan (heap b) ch else heap b.
Proof.
  unfold Unsubscribe.
  destruct (remove_first ch (subs_of b t)) as [subs' found]. reflexivity.
Qed.

Lemma close_chan_lookup h ch x :
  close_chan h ch !! x =
    if Nat.eqb x ch
    then (fun c => {| items := items c; cap := cap c; closed := true |}) <$> h !! x
    else h !! x.
Proof.
  unfold close_chan, chan_ref in *. destruct (Nat.eqb_spec x ch) as [->|Hne].
  - destruct (h !! ch) as [c|] eqn:E.
    + rewrite lookup_insert_eq. reflexivity.
    + rewrite E. reflexivity.
  - destruct (h !! ch) as [c|]; [|reflexivity].
    rewrite lookup_insert_ne by done. reflexivity.
Qed.

(** A channel after a send attempt: same capacity, still open or still
    closed, and within its capacity if it was. *)
Definition sent_to (c c' : Chan) : Prop :=
  cap c' = cap c /\ closed c' = closed c
  /\ ((length (items c) <= cap c)%nat -> (length (items c') <= cap c')%nat).

Lemma sent_to_refl c : sent_to c c.
Proof. repeat split; done. Qed.

Lemma sent_to_trans c1 c2 c3 : sent_to c1 c2 -> sent_to c2 c3 -> sent_to c1 c3.
Proof.
  intros (Ha & Hb & Hc) (Ha' & Hb' & Hc'). repeat split; [congruence..|].
  intros H. apply Hc', Hc, H.
Qed.

Lemma sent_to_try_send e c : sent_to c (fst (try_send e c)).
Proof.
  unfold try_send.
  destruct (Nat.ltb_spec (length (items c)) (cap c)) as [Hlt|Hge]; simpl.
  - repeat split. intros _. simpl. rewrite length_app. simpl. lia.
  - apply sent_to_refl.
Qed.

Definition heap_sent_to (h h' : gmap chan_ref Chan) : Prop :=
  forall ch,
    match h !! ch, h' !! ch with
    | Some c, Some c' => sent_to c c'
    | None, None => True
    | _, _ => False
    end.

Lemma heap_sent_to_Some h h' ch c' :
  heap_sent_to h h' -> h' !! ch = Some c' -> exists c, h !! ch = Some c /\ sent_to c c'.
Proof.
  intros H Hc'. specialize (H ch). rewrite Hc' in H.
  destruct (h !! ch) as [c|]; [eauto|done].
Qed.

Lemma heap_sent_to_Some_l h h' ch c :
  heap_sent_to h h' -> h !! ch = Some c -> exists c', h' !! ch = Some c' /\ sent_to c c'.
Proof.
  intros H Hc. specialize (H ch). rewrite Hc in H.
  destruct (h' !! ch) as [c'|]; [eauto|done].
Qed.

Lemma heap_sent_to_step e h x : heap_sent_to h (try_send_ref e h x).
Proof.
  intros ch. unfold try_send_ref.
  destruct (h !! x) as [c|] eqn:Ex.
  - destruct (Nat.eq_dec ch x) as [->|Hne].
    + rewrite Ex, lookup_insert_eq. apply sent_to_try_send.
    + rewrite lookup_insert_ne by done.
      destruct (h !! ch); [apply sent_to_refl|done].
  - destruct (h !! ch); [apply sent_to_refl|done].
Qed.

Lemma heap_sent_to_foldl e subs : forall h,
  heap_sent_to h (foldl (try_send_ref e) h subs).
Proof.
  induction subs as [|x subs IH]; intros h ch; simpl.
  - destruct (h !! ch); [apply sent_to_refl|done].
  - pose proof (heap_sent_to_step e h x ch) as H1.
    pose proof (IH (try_send_ref e h x) ch) as H2.
    destruct (h !! ch), (try_send_ref e h x !! ch),
      (foldl (try_send_ref e) (try_send_ref e h x) subs !! ch); try done.
    eapply sent_to_trans; eassumption.
Qed.

Lemma sound_New : sound NewEventBroadcaster.
Proof.
  split; simpl.
  - intros t ch. unfold subs_of. simpl. rewrite lookup_empty. simpl.
    intros H. by apply elem_of_nil in H.
  - intros t. unfold subs_of. simpl. rewrite lookup_empty. constructor.
  - intros t t' ch. unfold subs_of. simpl. rewrite lookup_empty. simpl.
    intros H. by apply elem_of_nil in H.
  - intros ch c. rewrite lookup_empty. discriminate.
  - intros t buf. rewrite lookup_empty. discriminate.
Qed.

Lemma sound_listed_old b t ch : sound b -> ch ∈ subs_of b t -> (ch < next_ref b)%nat.
Proof.
  intros Hs Hin. destruct (sound_open b Hs t ch Hin) as (c & Hc & _).
  apply (sound_alloc b Hs ch c Hc).
Qed.




Lemma sound_Broadcast now e b : sound b -> sound (Broadcast now e b).
Proof.
  intros Hs.
  pose proof (heap_sent_to_foldl (stamp now e) (subs_of b (TaskID e)) (heap b))
    as Hsent.
  split.
  - intros t ch Hin. change (subs_of (Broadcast now e b) t) with (subs_of b t) in Hin.
    destruct (sound_open b Hs t ch Hin) as (c & Hc & Ho).
    destruct (heap_sent_to_Some_l _ _ _ _ Hsent Hc) as (c' & Hc' & _ & Hcl & _).
    exists c'. split; [exact Hc'|congruence].
  - intros t. apply (sound_once b Hs).
  - intros t t' ch. apply (sound_apart b Hs).
  - intros ch c' Hc'.
    destruct (heap_sent_to_Some _ _ _ _ Hsent Hc') as (c & Hc & Hcap' & _ & Hlen').
    destruct (sound_alloc b Hs ch c Hc) as (Hlt & Hcap & Hlen).
    repeat split; [exact Hlt|congruence|auto].
  - intros t buf. simpl. unfold buffer_event.
    destruct (N.eq_dec t (TaskID e)) as [->|Hne].
    + rewrite lookup_insert_eq. intros [= <-].
      destruct (buffers b !! TaskID e) as [buf0|] eqn:Hb.
      * pose proof (sound_buffer b Hs _ _ Hb) as Hlen.
        destruct (Nat.ltb_spec (length (events buf0)) maxEventBuffer); simpl; [|done].
        rewrite length_app. simpl. lia.
      * simpl. unfold maxEventBuffer. lia.
    + rewrite lookup_insert_ne by done. apply (sound_buffer b Hs).
Qed.











(** The sends of a call of [Broadcast] that nothing comes between. *)
Lemma sends_alone ev subs : forall sbs bufs h nr,
  (forall ch, ch ∈ subs -> exists c, h !! ch = Some c /\ closed c = false) ->
  calls (replicate (length subs) (CSend 0))
        {| shared := {| subscribers := sbs; buffers := bufs; heap := h; next_ref := nr |};
           flights := [{| flying := ev; ahead := subs |}] |}
    = ({| shared := {| subscribers := sbs; buffers := bufs;
                       heap := foldl (try_send_ref ev) h subs; next_ref := nr |};
          flights := [{| flying := ev; ahead := [] |}] |}, []).
Proof.
  induction subs as [|ch subs IH]; intros sbs bufs h nr Hopen; [reflexivity|].
  destruct (Hopen ch ltac:(apply list_elem_of_here)) as (c & Hc & Ho).
  cbn [length replicate calls call lookup list_lookup flights shared foldl].
  unfold send. cbn [heap subscribers buffers next_ref]. rewrite Hc, Ho.
  cbn [list_insert insert].
  rewrite IH.
  - assert (try_send_ref ev h ch = <[ch := fst (try_send ev c)]> h) as ->
      by (unfold try_send_ref; rewrite Hc; reflexivity).
    reflexivity.
  - intros x Hx. destruct (Nat.eq_dec x ch) as [->|Hne].
    + rewrite lookup_insert_eq. eexists. split; [reflexivity|].
      destruct (sent_to_try_send ev c) as (_ & -> & _). exact Ho.
    + rewrite lookup_insert_ne by done. apply Hopen. by apply list_elem_of_further.
Qed.

(** [Broadcast] is the call whose steps nothing comes between: the part
    under the lock with both readings of the clock equal, then one send
    for every channel of the copy. *)
Lemma Broadcast_alone now e b :
  sound b ->
  calls (CBroadcast now now e :: replicate (length (subs_of b (TaskID e))) (CSend 0))
        {| shared := b; flights := [] |}
    = ({| shared := Broadcast now e b;
          flights := [{| flying := stamp now e; ahead := [] |}] |}, []).
Proof.
  intros Hs. cbn [calls call Broadcast_locked app flights shared].
  change (TaskID (stamp now e)) with (TaskID e).
  rewrite sends_alone; [reflexivity|].
  intros ch Hin. apply (sound_open b Hs _ _ Hin).
Qed.




(** X2.  Subscribing and then unsubscribing leaves the subscriber lists
    and the buffers as they were.  The channel was closed, holding what was
    replayed into it; no later broadcast changes it, and a second
    [Unsubscribe] does nothing more. *)
Theorem Unsubscribe_after_Subscribe (t : N) (b : EventBroadcaster) :
  sound b ->
  let ch := fst (Subscribe t b) in
  let b1 := Unsubscribe t ch (snd (Subscribe t b)) in
  (forall t', subs_of b1 t' = subs_of b t')
  /\ buffers b1 = buffers b
  /\ heap b1 !! ch = Some {| items := take subscriberCap (buffered b t);
                             cap := subscriberCap; closed := true |}
  /\ (forall x, x <> ch -> heap b1 !! x = heap b !! x)
  /\ (forall now e, heap (Broadcast now e b1) !! ch = heap b1 !! ch)
  /\ heap (Unsubscribe t ch b1) = heap b1
  /\ forall t', subs_of (Unsubscribe t ch b1) t' = subs_of b1 t'.
Proof.
  intros Hs ch b1.
  assert (forall t', ch ∉ subs_of b t') as Hfresh.
  { intros t' Hin. apply (sound_listed_old b t' _ Hs) in Hin. unfold ch in Hin.
    simpl in Hin. lia. }
  assert (remove_first ch (subs_of (snd (Subscribe t b)) t) = (subs_of b t, true)) as Hrm.
  { rewrite subs_of_Subscribe, N.eqb_refl. apply remove_first_last, Hfresh. }
  assert (forall t', subs_of b1 t' = subs_of b t') as Hsubs.
  { intros t'. unfold b1. rewrite subs_of_Unsubscribe, Hrm, subs_of_Subscribe.
    destruct (N.eqb_spec t' t) as [->|Hne]; reflexivity. }
  assert (heap b1 = close_chan (heap (snd (Subscribe t b))) ch) as Hheap.
  { unfold b1. rewrite heap_Unsubscribe, Hrm. reflexivity. }
  assert (heap b1 !! ch = Some {| items := take subscriberCap (buffered b t);
                                  cap := subscriberCap; closed := true |}) as Hch.
  { rewrite Hheap, close_chan_lookup, Nat.eqb_refl. unfold ch. simpl.
    rewrite lookup_insert_eq. simpl. unfold buffered.
    destruct (buffers b !! t) as [buf|].
    - rewrite replay_items. cbn [items cap closed app]. rewrite Nat.sub_0_r.
      reflexivity.
    - reflexivity. }
  assert (ch ∉ subs_of b1 t) as Hgone by (rewrite Hsubs; apply Hfresh).
  pose proof (remove_first_notin ch _ Hgone) as Hrm2.
  repeat split.
  - exact Hsubs.
  - unfold b1, Unsubscribe. rewrite Hrm. reflexivity.
  - exact Hch.
  - intros x Hne. rewrite Hheap, close_chan_lookup.
    destruct (Nat.eqb_spec x ch) as [->|_]; [done|].
    simpl. apply lookup_insert_ne. unfold ch in Hne. simpl in Hne. congruence.
  - intros now e. simpl. apply foldl_try_send_notin.
    rewrite Hsubs. apply Hfresh.
  - rewrite heap_Unsubscribe, Hrm2. reflexivity.
  - intros t'. rewrite subs_of_Unsubscribe, Hrm2.
    destruct (N.eqb_spec t' t) as [->|Hne]; reflexivity.
Qed.

(** Three events were broadcast to task 7 before the subscriber came
    and went: its closed channel holds the three, and the broadcaster
    lists nobody. *)
Lemma subscriber_comes_and_goes :
  let b := broadcast_all (map (numbered 7) (seq 1 3)) NewEventBroadcaster in
  let ch := fst (Subscribe 7 b) in
  let b1 := Unsubscribe 7 ch (snd (Subscribe 7 b)) in
  subs_of b1 7 = []
  /\ heap b1 !! ch = Some {| items := stamped (map (numbered 7) (seq 1 3));
                             cap := subscriberCap; closed := true |}
  /\ heap (Broadcast 9 (snd (numbered 7 4)) b1) !! ch = heap b1 !! ch.
Proof.
  intros b ch b1.
  assert (sound b) as Hs.
  { unfold b, broadcast_all. generalize sound_New.
    generalize NewEventBroadcaster.
    induction (map (numbered 7) (seq 1 3)) as [|p l IH]; intros b0 H0; simpl; [done|].
    apply IH, sound_Broadcast, H0. }
  destruct (Unsubscribe_after_Subscribe 7 b Hs) as (H1 & _ & H3 & _ & H5 & _).
  fold ch b1 in H1, H3, H5. split; [|split].
  - rewrite H1. reflexivity.
  - rewrite H3. reflexivity.
  - apply H5.
Defined.

(** X3.  [Unsubscribe] with a channel that is not listed under the task
    (it never subscribed there, or was unsubscribed before) changes
    nothing: the lists and the buffers stay, and no channel is closed. *)
Theorem Unsubscribe_unlisted_channel (t : N) (ch : chan_ref) (b : EventBroadcaster) :
  ch ∉ subs_of b t ->
  (forall t', subs_of (Unsubscribe t ch b) t' = subs_of b t')
  /\ heap (Unsubscribe t ch b) = heap b
  /\ buffers (Unsubscribe t ch b) = buffers b
  /\ next_ref (Unsubscribe t ch b) = next_ref b.
Proof.
  intros Hn. pose proof (remove_first_notin ch _ Hn) as Hrm. repeat split.
  - intros t'. rewrite subs_of_Unsubscribe, Hrm.
    destruct (N.eqb_spec t' t) as [->|Hne]; reflexivity.
  - rewrite heap_Unsubscribe, Hrm. reflexivity.
  - unfold Unsubscribe. rewrite Hrm. reflexivity.
  - unfold Unsubscribe. rewrite Hrm. reflexivity.
Qed.

(** A subscriber of task 7 that unsubscribes from task 8 stays
    subscribed, its channel open. *)
Lemma unsubscribe_from_the_wrong_task :
  let b := snd (Subscribe 7 NewEventBroadcaster) in
  subs_of (Unsubscribe 8 0%nat b) 7 = [0%nat]
  /\ (closed <$> heap (Unsubscribe 8 0%nat b) !! 0%nat) = Some false.
Proof.
  intros b.
  assert (0%nat ∉ subs_of b 8) as Hn by (vm_compute; apply not_elem_of_nil).
  destruct (Unsubscribe_unlisted_channel 8 0%nat b Hn) as (H1 & H2 & _).
  rewrite H1, H2. split; reflexivity.
Defined.

Lemma buffered_cleanup now b t :
  buffered (cleanup now b) t =
    match buffers b !! t with
    | Some buf => if (now - createdAt buf >? bufferTTL)%Z then [] else events buf
    | None => []
    end.
Proof.
  unfold buffered. simpl.
  destruct (buffers b !! t) as [buf|] eqn:Hb.
  - destruct (Z.gtb_spec (now - createdAt buf) bufferTTL) as [Hgt|Hle].
    + rewrite (proj2 (map_lookup_filter_None _ _ _)); [reflexivity|].
      right. intros buf' Hb'. simpl. rewrite Hb in Hb'. injection Hb' as <-. lia.
    + rewrite (proj2 (map_lookup_filter_Some _ _ _ buf)); [reflexivity|].
      split; [done|]. simpl. lia.
  - rewrite (proj2 (map_lookup_filter_None _ _ _)); [reflexivity|]. by left.
Qed.

(** Of the steps that drop no buffer, only the part of [Broadcast] under
    the lock touches the buffers. *)
Lemma call_buffers st c :
  keeps_buffers c = true ->
  buffers (shared (fst (call st c))) =
    match c with
    | CBroadcast now created e => buffer_event created (stamp now e) (buffers (shared st))
    | _ => buffers (shared st)
    end.
Proof.
  intros Hc. destruct c as [t|t ch|now created e|flight|t|now|ch]; simpl;
    try discriminate; try reflexivity.
  - unfold Unsubscribe. destruct (remove_first ch (subs_of (shared st) t)). reflexivity.
  - destruct (flights st !! flight) as [[ev [|ch rest]]|]; try reflexivity.
    unfold send. destruct (heap (shared st) !! ch) as [c|]; [|reflexivity].
    destruct (closed c); reflexivity.
  - unfold receive. destruct (heap (shared st) !! ch) as [c|]; [|reflexivity].
    destruct (items c); reflexivity.
Qed.

(** The buffer of a task after steps that drop no buffer: it is dated by
    the first broadcast that found none, and holds the first events up to
    [maxEventBuffer]. *)
Lemma buffer_event_lookup created ev bufs t :
  buffer_event created ev bufs !! t =
    if N.eqb (TaskID ev) t
    then Some (match bufs !! t with
               | Some buf =>
                   if (length (events buf) <? maxEventBuffer)%nat
                   then {| events := events buf ++ [ev]; createdAt := createdAt buf |}
                   else buf
               | None => {| events := [ev]; createdAt := created |}
               end)
    else bufs !! t.
Proof.
  unfold buffer_event. destruct (N.eqb_spec (TaskID ev) t) as [He|Hne].
  - rewrite He, lookup_insert_eq. destruct (bufs !! t); reflexivity.
  - by rewrite lookup_insert_ne.
Qed.

Lemma calls_buffer cs t : forall st,
  forallb keeps_buffers cs = true ->
  (forall buf, buffers (shared st) !! t = Some buf ->
     (length (events buf) <= maxEventBuffer)%nat) ->
  buffers (shared (fst (calls cs st))) !! t =
    match buffers (shared st) !! t, broadcasts_to t cs with
    | Some buf, pubs =>
        Some {| events := take maxEventBuffer (events buf ++ map snd pubs);
                createdAt := createdAt buf |}
    | None, [] => None
    | None, (created, _) :: _ =>
        Some {| events := take maxEventBuffer (map snd (broadcasts_to t cs));
                createdAt := created |}
    end.
Proof.
  induction cs as [|c cs IH]; intros st Hcs Hlen.
  - simpl. destruct (buffers (shared st) !! t) as [[evs created]|]; [|reflexivity].
    simpl. rewrite app_nil_r, take_ge; [reflexivity|]. apply (Hlen _ eq_refl).
  - cbn [forallb] in Hcs. apply andb_true_iff in Hcs as [Hc Hcs].
    pose proof (call_buffers st c Hc) as Hbuf.
    cbn [calls]. destruct (call st c) as [st1 panic]. cbn [fst] in Hbuf.
    specialize (IH st1 Hcs).
    destruct (calls cs st1) as [st2 panics]. cbn [fst] in IH |- *.
    assert ((exists now created e, c = CBroadcast now created e /\ TaskID e = t)
            \/ ~ (exists now created e, c = CBroadcast now created e /\ TaskID e = t))
      as [(now & created & e & -> & He)|Hnot].
    { destruct c as [| |now created e| | | |]; try (right; intros (? & ? & ? & ? & ?); done).
      destruct (N.eq_dec (TaskID e) t) as [He|He]; [left; eauto|].
      right. intros (? & ? & ? & [= <- <- <-] & ?). done. }
    + assert (N.eqb (TaskID e) t = true) as Heq by (by apply N.eqb_eq).
      cbn [broadcasts_to]. rewrite Heq.
      assert (buffers (shared st1) !! t
              = Some (match buffers (shared st) !! t with
                      | Some buf =>
                          if (length (events buf) <? maxEventBuffer)%nat
                          then {| events := events buf ++ [stamp now e];
                                  createdAt := createdAt buf |}
                          else buf
                      | None => {| events := [stamp now e]; createdAt := created |}
                      end)) as Hst1.
      { rewrite Hbuf, buffer_event_lookup.
        change (TaskID (stamp now e)) with (TaskID e). rewrite Heq.
        reflexivity. }
      rewrite IH; rewrite Hst1.
      * destruct (buffers (shared st) !! t) as [buf|] eqn:Hb; cbn [map snd].
        -- pose proof (Hlen _ eq_refl) as Hle.
           destruct (Nat.ltb_spec (length (events buf)) maxEventBuffer) as [Hlt|Hge];
             simpl; [by rewrite <- app_assoc|].
           rewrite !take_app_le by lia. reflexivity.
        -- reflexivity.
      * intros buf' [= <-].
        destruct (buffers (shared st) !! t) as [buf|] eqn:Hb.
        -- pose proof (Hlen _ eq_refl) as Hle.
           destruct (Nat.ltb_spec (length (events buf)) maxEventBuffer); simpl; [|done].
           rewrite length_app. simpl. lia.
        -- simpl. unfold maxEventBuffer. lia.
    + assert (buffers (shared st1) !! t = buffers (shared st) !! t
              /\ broadcasts_to t (c :: cs) = broadcasts_to t cs) as [Hsame Hpubs].
      { destruct c as [t'|t' ch|now created e|flight|t'|now|ch];
          try (rewrite Hbuf; split; reflexivity).
        cbn [broadcasts_to]. destruct (N.eqb_spec (TaskID e) t) as [He|He].
        - exfalso. apply Hnot. eauto.
        - split; [|reflexivity]. rewrite Hbuf, buffer_event_lookup.
          change (TaskID (stamp now e)) with (TaskID e).
          by apply N.eqb_neq in He as ->. }
      rewrite Hpubs, IH; rewrite Hsame; [reflexivity|exact Hlen].
Qed.

(** X4.  A replay buffer lives ten minutes from the moment the first
    broadcast to its task read the clock under the lock, to date the
    buffer: not from the stamp of that event, which is read before the
    lock is taken, and not from a later broadcast.  For a task without
    buffer, after any steps that drop no buffer, a tick of the cleanup loop
    drops the task's buffer exactly when more than [bufferTTL] has passed
    since that moment, however recent the other events are; otherwise the
    buffer holds the first 200 events of the task. *)
Theorem buffer_expires_from_first_broadcast (st : State) (cs : list Call) (t : N)
    (tick : Time) :
  buffers (shared st) !! t = None ->
  forallb keeps_buffers cs = true ->
  buffered (cleanup tick (shared (fst (calls cs st)))) t =
    match broadcasts_to t cs with
    | [] => []
    | (created, _) :: _ =>
        if (tick - created >? bufferTTL)%Z then []
        else take maxEventBuffer (map snd (broadcasts_to t cs))
    end.
Proof.
  intros Hnone Hcs. rewrite buffered_cleanup.
  rewrite (calls_buffer cs t st Hcs) by (rewrite Hnone; discriminate).
  rewrite Hnone. destruct (broadcasts_to t cs) as [|[created first] pubs]; reflexivity.
Qed.

(** An event stamped at time 1 whose buffer is dated 4, and an event ten
    minutes later.  A tick at 600000000003, more than ten minutes after the
    stamp of the first event and less after the date of the buffer, keeps
    the buffer; a tick at 600000000005 drops it, the second event with
    it. *)
Lemma buffer_dropped_with_a_fresh_event :
  let cs := [CBroadcast 1 4 (snd (numbered 7 1)); CSend 0;
             CBroadcast 600000000000 600000000001 (snd (numbered 7 2))] in
  let b := shared (fst (calls cs initial)) in
  buffered (cleanup 600000000003 b) 7
    = [stamp 1 (snd (numbered 7 1)); stamp 600000000000 (snd (numbered 7 2))]
  /\ buffered (cleanup 600000000005 b) 7 = [].
Proof.
  intros cs b. unfold b.
  rewrite !(buffer_expires_from_first_broadcast initial cs 7) by reflexivity.
  split; reflexivity.
Defined.

(** X5.  [ClearBuffer] empties the replay buffer of its task only, and
    touches no subscriber: the broadcasts that follow are buffered from
    the first again, up to 200, and are what a subscriber that comes after
    them is replayed. *)
Theorem ClearBuffer_restarts_replay (b : EventBroadcaster) (t : N)
    (pubs : list Publication) :
  let b' := broadcast_all pubs (ClearBuffer t b) in
  buffered b' t = take maxEventBuffer (for_task t (stamped pubs))
  /\ pending (fst (Subscribe t b')) (snd (Subscribe t b'))
       = take maxEventBuffer (for_task t (stamped pubs))
  /\ (forall t', t' <> t -> buffered (ClearBuffer t b) t' = buffered b t')
  /\ heap (ClearBuffer t b) = heap b
  /\ subscribers (ClearBuffer t b) = subscribers b.
Proof.
  intros b'.
  assert (buffered (ClearBuffer t b) t = []) as Hclear.
  { unfold buffered. simpl. rewrite lookup_delete_eq. reflexivity. }
  assert (buffered b' t = take maxEventBuffer (for_task t (stamped pubs))) as Hb.
  { unfold b'. rewrite buffered_broadcast_all by (rewrite Hclear; simpl; lia).
    rewrite Hclear. reflexivity. }
  repeat split.
  - exact Hb.
  - rewrite pending_Subscribe, Hb. change subscriberCap with maxEventBuffer.
    rewrite take_take. reflexivity.
  - intros t' Hne. unfold buffered. simpl. rewrite lookup_delete_ne by done.
    reflexivity.
Qed.

End BroadcasterCallFacts.

(** ** Facts about the orchestrator and the worker loop *)

Module OrchestrationFacts.

Import Models World Orchestrator Orchestration.

Section WithExecutor.
Context `{Exec : TaskExecutor}.

(** What [processTask] does to the queue: it releases the item's id and
    nothing else, and calls the executor once. *)
Lemma processTask_queue (item : TaskItem) (q : TaskQueue) (w : World) :
  let '(_, (q', _), tr) := processTask item (q, w) in
  q' = with_active (delete (ID (Task_ item)) (active q)) q
  /\ executed tr = [ID (Task_ item)].
Proof.
  unfold processTask, run_executor, mbind, QM_bind.
  destruct (Execute (Task_ item) (Callback item) w) as [[r task'] w1].
  destruct r as [[err|]|v]; unfold invoke, delete_active;
    destruct (Callback item); simpl; split; reflexivity.
Qed.

(** X6.  One worker, alone on a queue whose context is not done,
    executes every queued item once, in the order of the channel, whatever
    each execution does (it may return, fail or panic) and whatever its
    [select]s would choose; then the channel is empty, the ids of the
    items it took are no longer active, the other active entries are as
    before, and the worker waits, or returns when the channel was closed.
    On a queue whose context is done a worker need not take anything: when
    its [select] takes the [Done] case it returns at once and leaves the
    channel as it is. *)
Theorem worker_takes_tasks_in_order (q : TaskQueue) (w : World) (choices : list bool) :
  (ctx_done q = false ->
   (length (tasks q) < length choices)%nat ->
   let ids := map (fun item => ID (Task_ item)) (tasks q) in
   let '(turn, (q', _), tr) := worker choices (q, w) in
   turn = Some (if tasks_closed q then Returned else Waiting)
   /\ executed tr = ids
   /\ tasks q' = []
   /\ forall id, active q' !! id = if decide (id ∈ ids) then None else active q !! id)
  /\ (ctx_done q = true ->
      worker (true :: choices) (q, w) = (Some Returned, (q, w), [])).
Proof.
  split.
  - destruct q as [ts cp cl wk dn act]. simpl. intros ->.
    revert choices act w. induction ts as [|item rest IH]; intros choices act w Hlen.
    + destruct choices as [|c choices]; [simpl in Hlen; lia|].
      simpl. unfold mbind, QM_bind, worker_turn. simpl.
      destruct cl; simpl; (split; [reflexivity|]; split; [reflexivity|];
        split; [reflexivity|]);
        intros id; destruct (decide (id ∈ [])) as [H|_]; try reflexivity;
        by apply elem_of_nil in H.
    + destruct choices as [|c choices]; [simpl in Hlen; lia|].
      simpl in Hlen. simpl. unfold mbind, QM_bind, worker_turn. simpl.
      pose proof (processTask_queue item
                    {| tasks := rest; tasks_cap := cp; tasks_closed := cl;
                       workers := wk; ctx_done := false; active := act |} w) as Hp.
      unfold mbind, QM_bind, mret, QM_ret.
      destruct (processTask item _) as [[[] [q1 w1]] tr1]. simpl.
      destruct Hp as [-> Hex]. unfold with_active. simpl.
      specialize (IH choices (delete (ID (Task_ item)) act) w1 ltac:(lia)).
      destruct (worker choices _) as [[turn [q2 w2]] tr2].
      destruct IH as (Hturn & He & Ht & Ha). simpl. split; [|split; [|split]].
      * exact Hturn.
      * unfold executed in *. rewrite !omap_app. simpl.
        rewrite Hex. simpl. f_equal. exact He.
      * exact Ht.
      * intros id. rewrite Ha.
        destruct (decide (id ∈ map (fun i => ID (Task_ i)) rest)) as [Hin|Hn].
        -- rewrite decide_True; [reflexivity|]. by apply list_elem_of_further.
        -- destruct (decide (id = ID (Task_ item))) as [->|Hne].
           ++ rewrite decide_True by apply list_elem_of_here.
              apply lookup_delete_eq.
           ++ rewrite decide_False.
              ** apply lookup_delete_ne. congruence.
              ** intros [?|?]%elem_of_cons; done.
  - intros Hdone. simpl. unfold mbind, QM_bind, worker_turn.
    destruct (tasks q); rewrite Hdone; reflexivity.
Qed.

End WithExecutor.

Lemma SubmitTask_room (task : Task) (callback : option ProgressCallback)
    (q : TaskQueue) (w : World) :
  tasks_closed q = false ->
  (length (tasks q) < tasks_cap q)%nat ->
  SubmitTask task callback (q, w) =
    (Ret None,
     (with_active (<[ID task := {| Task_ := task; Callback := callback |}]> (active q))
        (with_tasks (tasks q ++ [{| Task_ := task; Callback := callback |}]) q), w),
     [EvSend (ID task); EvActiveSet (ID task)]).
Proof.
  intros Hopen Hroom. unfold SubmitTask, mbind, QM_bind, Enqueue.
  rewrite Hopen. apply Nat.ltb_lt in Hroom. rewrite Hroom. reflexivity.
Qed.

Lemma SubmitTask_full (task : Task) (callback : option ProgressCallback)
    (q : TaskQueue) (w : World) :
  tasks_closed q = false ->
  (tasks_cap q <= length (tasks q))%nat ->
  SubmitTask task callback (q, w) =
    (Ret (Some "failed to enqueue task: queue is full"), (q, w), []).
Proof.
  intros Hopen Hfull. unfold SubmitTask, mbind, QM_bind, Enqueue.
  rewrite Hopen. apply Nat.ltb_ge in Hfull. rewrite Hfull. reflexivity.
Qed.

Lemma submit_all_room (subs : list (Task * option ProgressCallback)) :
  forall (q : TaskQueue) (w : World),
    tasks_closed q = false ->
    (length (tasks q) + length subs <= tasks_cap q)%nat ->
    let '(rs, (q', w'), _) := submit_all subs (q, w) in
    rs = map (fun _ => Ret None) subs
    /\ w' = w
    /\ tasks q' = tasks q ++ map (fun s => {| Task_ := fst s; Callback := snd s |}) subs
    /\ tasks_cap q' = tasks_cap q
    /\ tasks_closed q' = false.
Proof.
  induction subs as [|[task cb] rest IH]; intros q w Hopen Hroom.
  - simpl. rewrite app_nil_r. repeat split; done.
  - simpl in Hroom. cbn [submit_all]. unfold mbind, QM_bind, mret, QM_ret.
    rewrite SubmitTask_room by (done || lia). cbv beta iota zeta.
    match goal with |- context [submit_all rest (?q1, w)] =>
      specialize (IH q1 w) end.
    cbn [tasks tasks_cap tasks_closed with_active with_tasks] in IH.
    rewrite length_app in IH. cbn [length] in IH.
    specialize (IH Hopen ltac:(lia)).
    destruct (submit_all rest _) as [[rs [q' w']] tr].
    destruct IH as (-> & -> & Ht & Hc & Ho).
    rewrite Ht, <- app_assoc. repeat split; done.
Qed.

(** X7.  The queue of an orchestrator holds 100 tasks, whatever its
    configuration says (its [QueueSize] is not used): with no worker
    taking any, the first 100 submissions succeed and are queued in the
    order they came, and once 100 are queued every further submission
    returns the error [failed to enqueue task: queue is full] and changes
    nothing. *)
Theorem queue_holds_100_whatever_the_config (cfg : Config)
    (subs : list (Task * option ProgressCallback)) (w : World) :
  (length subs <= 100)%nat ->
  let '(rs, (q, w'), _) := submit_all subs (queue (New cfg), w) in
  rs = map (fun _ => Ret None) subs
  /\ w' = w
  /\ tasks q = map (fun s => {| Task_ := fst s; Callback := snd s |}) subs
  /\ (length subs = 100%nat ->
      forall task callback,
        SubmitTask task callback (q, w)
          = (Ret (Some "failed to enqueue task: queue is full"), (q, w), [])).
Proof.
  intros Hlen.
  pose proof (submit_all_room subs (queue (New cfg)) w eq_refl) as H.
  simpl in H. specialize (H Hlen).
  destruct (submit_all subs _) as [[rs [q w']] tr].
  destruct H as (-> & -> & Ht & Hc & Ho). repeat split; [done|].
  intros Hfull task callback. apply SubmitTask_full; [done|].
  rewrite Hc, Ht, length_map. lia.
Qed.

(** An orchestrator configured with a queue size of 5 queues 100 tasks
    and refuses the next one. *)
Lemma queue_size_5_queues_100 :
  let cfg := {| Workers := 2; QueueSize := 5; WorkspaceDir := "/tmp/w" |} in
  let subs := map (fun i => (Samples.task_for (N.of_nat i) "robot" "r" "hi", None))
                  (seq 1 100) in
  let w := Samples.world_with [] in
  let q := fst (snd (fst (submit_all subs (queue (New cfg), w)))) in
  length (tasks q) = 100%nat
  /\ SubmitTask (Samples.task_for 101 "robot" "r" "hi") None (q, w)
       = (Ret (Some "failed to enqueue task: queue is full"), (q, w), []).
Proof.
  intros cfg subs w q.
  pose proof (queue_holds_100_whatever_the_config cfg subs w) as H.
  assert (length subs = 100%nat) as Hlen by reflexivity.
  rewrite Hlen in H. specialize (H ltac:(lia)).
  unfold q. destruct (submit_all subs _) as [[rs [q0 w']] tr]. simpl.
  destruct H as (_ & _ & Ht & Hfull). split.
  - rewrite Ht, length_map. exact Hlen.
  - apply Hfull. reflexivity.
Defined.

End OrchestrationFacts.

(** ** More facts about the executor *)

Module ExecutorMoreFacts.

Import Models World Executor ExecutorSpec ExecutorFacts TaskRows.

Section WithEnv.
Context `{Yaml : Crd.YamlCodec} `{Env : RunnerEnv}.

(** The stdout lines that decode as an event. *)
Definition decodable (lines : list string) : list string :=
  List.filter (fun line => is_Some_b (json_Unmarshal_event line)) lines.

(** X8.  What the read loop takes from the runner's output.  Lines that
    do not decode as a JSON event change nothing: the loop ends with the
    same content, last error and event logs, has made the same callbacks
    and returns at the same place as on the output without them.  A line
    of 64 KiB or more ends the reading: the loop ends as if the output
    stopped before that line, whatever the line and the lines after it
    hold. *)
Theorem scan_skips_undecodable_lines (callback : option ProgressCallback) (taskID : N)
    (lines : list string) (st : ScanState) (w : World) :
  scan callback taskID (scanned lines) st w
    = scan callback taskID (decodable (scanned lines)) st w
  /\ forall long rest,
       too_long long = true ->
       scan callback taskID (scanned (lines ++ long :: rest)) st w
         = scan callback taskID (scanned lines) st w.
Proof.
  split; [|intros long rest Hlong; by rewrite scanned_too_long].
  generalize (scanned lines). clear lines. intros lines.
  revert st w. induction lines as [|line rest IH]; intros st w; [reflexivity|].
  unfold decodable. cbn [List.filter scan].
  destruct (json_Unmarshal_event line) as [event|] eqn:Hev; cbn [is_Some_b].
  - cbn [scan]. rewrite Hev.
    destruct (handle_event callback taskID event _ w) as [[st2 w2] returned].
    destruct returned; [reflexivity|]. apply IH.
  - apply IH.
Qed.

Lemma logged_decodable (lines : list string) :
  existsb is_cancelled (events lines) = false -> logged lines = decodable lines.
Proof.
  induction lines as [|line rest IH]; [reflexivity|].
  unfold events, decodable in *. cbn [omap list_omap logged List.filter].
  destruct (json_Unmarshal_event line) as [event|]; cbn [is_Some_b].
  - cbn [existsb]. destruct (is_cancelled event); [discriminate|].
    cbn [orb]. intros H. rewrite (IH H). reflexivity.
  - exact IH.
Qed.

(** What [Execute] does once the task resolved and the runner ran, by the
    lines [read] of its output. *)
Lemma Execute_ran (task : Task) (callback : option ProgressCallback) (w : World)
    (config : AgnoConfig) (lines : list string) (wait_error : option Error) :
  Storage.db_error (storage w) = None ->
  keeps_repository callback ->
  resolve task (storage w) = Ret (Ok config) ->
  launch config = Started lines wait_error ->
  let read := scanned lines in
  let res :=
    if existsb is_cancelled (events read)
    then (contents (before_cancelled (events read)), join (logged read) nl, None)
    else match wait_error with
         | Some err =>
             if negb (String.eqb (last_error "" (events read)) "")
             then failure ("python script error: " +:+ last_error "" (events read))
             else failure ("python script finished with error: " +:+ err)
         | None => (contents (events read), join (logged read) nl, None)
         end in
  let '(r, task', w') := Execute task callback w in
  match snd res with
     | Some e =>
         r = Ret (Some e) /\ Status task' = TaskStatusFailed /\ Error_ task' = e
         /\ Result task' = Result task /\ EventLogs task' = EventLogs task
         /\ Progress task' = Progress task
     | None =>
         r = Ret None /\ Status task' = TaskStatusCompleted /\ Progress task' = 100%Z
         /\ Result task' = fst (fst res) /\ EventLogs task' = snd (fst res)
         /\ Error_ task' = Error_ task
     end
  /\ exists w3,
       Storage.tasks (storage w3) !! ID task = Some task'
       /\ w' = notify callback (ID task)
                 (match snd res with Some _ => 0%Z | None => 100%Z end) (Status task')
                 (match snd res with Some e => e | None => "Task completed" end)
                 (match snd res with
                  | Some _ => None
                  | None => Some {[ "result" := MVString (fst (fst res)) ]}
                  end) w3.
Proof.
  intros Hdb Hkeep Hres Hlaunch read res.
  pose proof (Execute_resolved task callback w config Hdb Hkeep Hres) as Hexec.
  cbv zeta in Hexec.
  destruct (Execute task callback w) as [[r task'] w'].
  match type of Hexec with
  | context [runAgnoScript config (ID task) callback ?x] =>
      pose proof (runAgnoScript_started config (ID task) callback x lines wait_error
                    Hlaunch) as Hrun;
      destruct (runAgnoScript config (ID task) callback x) as [res' w2]
  end.
  destruct Hexec as (Hdb2 & task3 & -> & -> & Hfinal).
  cbv zeta in Hrun. cbn [fst] in Hrun. fold read in Hrun. fold res in Hrun. subst res'.
  split; [exact Hfinal|].
  eexists. split; [|reflexivity]. simpl. apply lookup_insert_eq.
Qed.

(** X9.  A run in which the read loop meets a [cancelled] event (among
    the lines it reads: those before the first line of 64 KiB or more)
    ends completed, not cancelled and not failed, whatever the exit status
    of the runner: [Execute] returns nil and writes status completed,
    progress 100, the content that preceded the event as the result, and
    as the event logs the decodable lines up to and with that event,
    joined by newlines. *)
Theorem Execute_cancelled_stream_completes (task : Task)
    (callback : option ProgressCallback) (w : World) (config : AgnoConfig)
    (lines : list string) (wait_error : option Error) :
  Storage.db_error (storage w) = None ->
  keeps_repository callback ->
  resolve task (storage w) = Ret (Ok config) ->
  launch config = Started lines wait_error ->
  existsb is_cancelled (events (scanned lines)) = true ->
  let '(r, task', w') := Execute task callback w in
  r = Ret None
  /\ Status task' = TaskStatusCompleted
  /\ Progress task' = 100%Z
  /\ Result task' = contents (before_cancelled (events (scanned lines)))
  /\ EventLogs task' = join (logged (scanned lines)) nl
  /\ Error_ task' = Error_ task
  /\ exists w3,
       Storage.tasks (storage w3) !! ID task = Some task'
       /\ w' = notify callback (ID task) 100 TaskStatusCompleted "Task completed"
                 (Some {[ "result" := MVString (Result task') ]}) w3.
Proof.
  intros Hdb Hkeep Hres Hlaunch Hc.
  pose proof (Execute_ran task callback w config lines wait_error Hdb Hkeep Hres Hlaunch)
    as H.
  cbv zeta in H. rewrite Hc in H.
  destruct (Execute task callback w) as [[r task'] w'].
  cbn [fst snd] in H. destruct H as ((-> & Hs & Hp & Hr & Hl & He) & w3 & Hrow & ->).
  repeat split; try done.
  exists w3. rewrite Hs, Hr. split; done.
Qed.

(** X10.  After a clean exit, the read loop having met no [cancelled]
    event, the event logs of the task are the lines read (those before
    the first line of 64 KiB or more) that decode as a JSON event, all of
    them and in the order they were written, joined by newlines; the other
    lines, and every line from the first too long one on, are not kept. *)
Theorem Execute_keeps_decodable_lines (task : Task) (callback : option ProgressCallback)
    (w : World) (config : AgnoConfig) (lines : list string) :
  Storage.db_error (storage w) = None ->
  keeps_repository callback ->
  resolve task (storage w) = Ret (Ok config) ->
  launch config = Started lines None ->
  existsb is_cancelled (events (scanned lines)) = false ->
  let '(r, task', w') := Execute task callback w in
  r = Ret None
  /\ EventLogs task' = join (decodable (scanned lines)) nl
  /\ Result task' = contents (events (scanned lines))
  /\ exists w3,
       Storage.tasks (storage w3) !! ID task = Some task'
       /\ w' = notify callback (ID task) 100 TaskStatusCompleted "Task completed"
                 (Some {[ "result" := MVString (Result task') ]}) w3.
Proof.
  intros Hdb Hkeep Hres Hlaunch Hc.
  pose proof (Execute_ran task callback w config lines None Hdb Hkeep Hres Hlaunch) as H.
  cbv zeta in H. rewrite Hc in H.
  destruct (Execute task callback w) as [[r task'] w'].
  cbn [fst snd] in H. destruct H as ((-> & Hs & Hp & Hr & Hl & He) & w3 & Hrow & ->).
  rewrite Hl, (logged_decodable _ Hc). repeat split; [exact Hr|].
  exists w3. rewrite Hs, Hr. split; done.
Qed.

(** X11.  When the runner exits with a non-zero status and, among the
    lines the read loop reads (those before the first line of 64 KiB or
    more), there is no [cancelled] event and the last [error] event, if
    any, has an empty message, the task fails with the error [python
    script finished with error: ] followed by the exit error; the content
    the runner wrote is not kept. *)
Theorem Execute_exit_status_without_error_event (task : Task)
    (callback : option ProgressCallback) (w : World) (config : AgnoConfig)
    (lines : list string) (exit : Error) :
  Storage.db_error (storage w) = None ->
  keeps_repository callback ->
  resolve task (storage w) = Ret (Ok config) ->
  launch config = Started lines (Some exit) ->
  existsb is_cancelled (events (scanned lines)) = false ->
  last_error "" (events (scanned lines)) = "" ->
  let msg := "python script finished with error: " +:+ exit in
  let '(r, task', w') := Execute task callback w in
  r = Ret (Some msg)
  /\ Status task' = TaskStatusFailed
  /\ Error_ task' = msg
  /\ Result task' = Result task
  /\ EventLogs task' = EventLogs task
  /\ exists w3,
       Storage.tasks (storage w3) !! ID task = Some task'
       /\ w' = notify callback (ID task) 0 TaskStatusFailed msg None w3.
Proof.
  intros Hdb Hkeep Hres Hlaunch Hc Hmsg msg.
  pose proof (Execute_ran task callback w config lines (Some exit) Hdb Hkeep Hres Hlaunch)
    as H.
  cbv zeta in H. rewrite Hc, Hmsg in H. cbn [String.eqb negb] in H.
  destruct (Execute task callback w) as [[r task'] w'].
  unfold failure in H. cbn [fst snd] in H.
  destruct H as ((-> & Hs & He & Hr & Hl & Hp) & w3 & Hrow & ->).
  repeat split; try done.
  exists w3. rewrite Hs. split; done.
Qed.

(** X12.  A task whose resource type is none of [bot], [robot] and
    [team] fails with the error [unsupported resource type: ] followed by
    the type, after it was marked running and the callback was told so;
    no resource is read and the runner is not launched. *)
Theorem Execute_unsupported_resource_type (task : Task)
    (callback : option ProgressCallback) (w : World) :
  Storage.db_error (storage w) = None ->
  one_of (ResourceType task) ["bot"; "robot"; "team"] = false ->
  let msg := "unsupported resource type: " +:+ ResourceType task in
  let task1 := set_StartedAt (Some (clock w)) (set_Status TaskStatusRunning task) in
  let w1 := notify callback (ID task) 10 TaskStatusRunning "Task started" None
              (with_storage (Storage.Tasks_Update_ task1 (storage w)) w) in
  let task3 := set_Error msg (set_Status TaskStatusFailed
                 (set_Completed (clock w1) (milliseconds_between (clock w) (clock w1))
                    task1)) in
  Execute task callback w
    = (Ret (Some msg), task3,
       notify callback (ID task) 0 TaskStatusFailed msg None
         (with_storage (Storage.Tasks_Update_ task3 (storage w1)) w1)).
Proof.
  intros Hdb Htype msg task1 w1 task3.
  assert (Storage.Tasks_Update task1 (storage w)
          = Ok (Storage.Tasks_Update_ task1 (storage w))) as Hupd.
  { unfold Storage.Tasks_Update_, Storage.Tasks_Update. rewrite Hdb. reflexivity. }
  unfold Execute. fold task1. rewrite Hupd.
  change (ResourceType task1) with (ResourceType task).
  change (ID task1) with (ID task). fold w1.
  unfold one_of in *. cbn [existsb] in *.
  destruct (String.eqb (ResourceType task) "bot"); [discriminate|].
  destruct (String.eqb (ResourceType task) "robot"); [discriminate|].
  destruct (String.eqb (ResourceType task) "team"); [discriminate|].
  cbn [orb]. unfold failure. reflexivity.
Qed.

Lemma has_prefix_app (p s : string) : has_prefix p (p +:+ s) = true.
Proof.
  induction p as [|a p IH]; [reflexivity|].
  change (has_prefix (String a p) (String a (p +:+ s)) = true).
  simpl. rewrite Ascii.eqb_refl. exact IH.
Qed.

(** X13.  A robot task whose robot loads panics while it is resolved
    exactly when the row of the Soul it names is found and its text does
    not parse as a Soul (it does not parse at all, or is a resource of
    another kind), or, the Soul being found and parsed, the row of the
    Mind it names is found and its text does not parse as a Mind.  A
    robot that does not load does not panic. *)
Theorem botConfig_panics_exactly (task : Task) (s : Storage.Storage) :
  (exists v, botConfig task s = Panic v) <->
  exists robotRow robot,
    Storage.Resources_GetByName (WorkspaceID task) (ResourceName task) ResourceTypeRobot s
      = Ok robotRow
    /\ Crd.Parse (Res_Spec robotRow) = Ok (Crd.RRobot robot)
    /\ exists soulRow,
         Storage.Resources_GetByName (WorkspaceID task)
           (Crd.Robot_Soul (Crd.Robot_Spec robot)) ResourceTypeSoul s = Ok soulRow
         /\ ((forall soul, Crd.Parse (Res_Spec soulRow) <> Ok (Crd.RSoul soul))
             \/ exists mindRow,
                  Storage.Resources_GetByName (WorkspaceID task)
                    (Crd.Robot_Mind (Crd.Robot_Spec robot)) ResourceTypeMind s
                    = Ok mindRow
                  /\ forall mind, Crd.Parse (Res_Spec mindRow) <> Ok (Crd.RMind mind)).
Proof.
  unfold botConfig. split.
  - intros [v H].
    destruct (Storage.Resources_GetByName (WorkspaceID task) (ResourceName task)
                ResourceTypeRobot s) as [robotRow|] eqn:Hrow; [|discriminate].
    destruct (Crd.Parse (Res_Spec robotRow)) as [[| | |robot| |]|] eqn:Hrobot;
      try discriminate.
    exists robotRow, robot. split; [reflexivity|]. split; [exact Hrobot|].
    destruct (Storage.Resources_GetByName (WorkspaceID task)
                (Crd.Robot_Soul (Crd.Robot_Spec robot)) ResourceTypeSoul s)
      as [soulRow|] eqn:Hsoul; [|discriminate].
    exists soulRow. split; [first [reflexivity|exact Hsoul]|].
    destruct (Crd.Parse (Res_Spec soulRow)) as [[soul| | | | |]|] eqn:Hs;
      try (left; intros soul'; congruence).
    right. simpl in H.
    destruct (Storage.Resources_GetByName (WorkspaceID task)
                (Crd.Robot_Mind (Crd.Robot_Spec robot)) ResourceTypeMind s)
      as [mindRow|] eqn:Hmind; [|discriminate].
    exists mindRow. split; [first [reflexivity|exact Hmind]|].
    destruct (Crd.Parse (Res_Spec mindRow)) as [[|mind| | | |]|] eqn:Hm;
      try (intros mind'; congruence).
    discriminate.
  - intros (robotRow & robot & -> & -> & soulRow & -> & H).
    destruct (Crd.Parse (Res_Spec soulRow)) as [[soul| | | | |]|] eqn:Hs;
      try (simpl; eauto).
    destruct H as [H|(mindRow & -> & H)]; [by destruct (H soul)|].
    destruct (Crd.Parse (Res_Spec mindRow)) as [[|mind| | | |]|] eqn:Hm;
      try (simpl; eauto).
    by destruct (H mind).
Qed.

(** X14.  The configuration of a robot whose Soul and Mind load: the
    model is the Mind's, the soul part carries the name of the robot (not
    of the Soul) and the personality of the Soul, the session is named
    after the task id.  The craft decides the tools only: a robot without
    craft, or whose craft does not load, is configured without tools. *)
Theorem botConfig_of_loaded_robot (task : Task) (s : Storage.Storage)
    (robotRow soulRow mindRow : Models.Resource)
    (robot : Crd.Robot) (soul : Crd.Soul) (mind : Crd.Mind) :
  Storage.Resources_GetByName (WorkspaceID task) (ResourceName task) ResourceTypeRobot s
    = Ok robotRow ->
  Crd.Parse (Res_Spec robotRow) = Ok (Crd.RRobot robot) ->
  Storage.Resources_GetByName (WorkspaceID task) (Crd.Robot_Soul (Crd.Robot_Spec robot))
    ResourceTypeSoul s = Ok soulRow ->
  Crd.Parse (Res_Spec soulRow) = Ok (Crd.RSoul soul) ->
  Storage.Resources_GetByName (WorkspaceID task) (Crd.Robot_Mind (Crd.Robot_Spec robot))
    ResourceTypeMind s = Ok mindRow ->
  Crd.Parse (Res_Spec mindRow) = Ok (Crd.RMind mind) ->
  let craft := Crd.Robot_Craft (Crd.Robot_Spec robot) in
  exists config,
    botConfig task s = Ret (Ok config)
    /\ Cfg_Type config = "robot"
    /\ Cfg_Prompt config = Prompt task
    /\ Cfg_Model config = model_of mind
    /\ Cfg_Soul config = {| SoulCfg_Name := Crd.Name (Crd.Robot_Metadata robot);
                            SoulCfg_Personality := Crd.Personality (Crd.Soul_Spec soul) |}
    /\ Cfg_SessionID config = "task-" +:+ pretty (ID task)
    /\ Cfg_Team config = None
    /\ (craft = "" -> Cfg_MCPTools config = [])
    /\ (craft <> "" -> Cfg_MCPTools config = loadMCPTools (WorkspaceID task) craft s)
    /\ (is_err (Storage.Resources_GetByName (WorkspaceID task) craft ResourceTypeCraft s)
          = true -> Cfg_MCPTools config = []).
Proof.
  intros Hrow Hrobot Hsoul Hs Hmind Hm craft.
  unfold botConfig. rewrite Hrow, Hrobot, Hsoul, Hs. cbn [assert_Soul].
  rewrite Hmind, Hm. cbn [assert_Mind].
  eexists. split; [reflexivity|]. cbn [Cfg_Type Cfg_Prompt Cfg_Model Cfg_Soul
    Cfg_SessionID Cfg_Team Cfg_MCPTools]. fold craft.
  repeat split.
  - intros ->. reflexivity.
  - intros Hne. apply String.eqb_neq in Hne. rewrite Hne. reflexivity.
  - intros Herr. destruct (String.eqb craft ""); [reflexivity|].
    cbn [negb]. unfold loadMCPTools.
    destruct (Storage.Resources_GetByName (WorkspaceID task) craft ResourceTypeCraft s);
      [discriminate|reflexivity].
Qed.

(** X15.  [loadMCPTools] never fails: a craft that is missing, does not
    parse, is a resource of another kind or has no MCP section gives no
    tools.  Otherwise it gives one tool per server of the section, in
    order and with the server's name, command, arguments and environment;
    every tool is of type [stdio] with a timeout of 300. *)
Theorem loadMCPTools_tools (workspaceID : N) (craftName : string) (s : Storage.Storage) :
  let tools := loadMCPTools workspaceID craftName s in
  Forall (fun tool => MCP_Type tool = "stdio" /\ MCP_Timeout tool = 300%Z
                      /\ MCP_URL tool = "" /\ MCP_Headers tool = ∅
                      /\ MCP_SSEReadTimeout tool = 0%Z) tools
  /\ match Storage.Resources_GetByName workspaceID craftName ResourceTypeCraft s with
     | Err _ => tools = []
     | Ok row =>
         match Crd.Parse (Res_Spec row) with
         | Ok (Crd.RCraft craft) =>
             let servers := match Crd.MCP (Crd.Craft_Spec craft) with
                            | Some mcp => Crd.Servers mcp
                            | None => []
                            end in
             map MCP_Name tools = map Crd.Server_Name servers
             /\ map MCP_Command tools = map Crd.Server_Command servers
             /\ map MCP_Args tools = map Crd.Server_Args servers
             /\ map MCP_Env tools = map Crd.Server_Env servers
         | _ => tools = []
         end
     end.
Proof.
  unfold loadMCPTools.
  destruct (Storage.Resources_GetByName workspaceID craftName ResourceTypeCraft s)
    as [row|]; [|split; [constructor|reflexivity]].
  destruct (Crd.Parse (Res_Spec row)) as [[| |craft| | |]|];
    try (split; [constructor|reflexivity]).
  destruct (Crd.MCP (Crd.Craft_Spec craft)) as [mcp|];
    [|split; [constructor|repeat split]].
  cbv zeta. split.
  - apply Forall_map. apply Forall_forall. intros server _. repeat split.
  - rewrite !map_map. repeat split.
Qed.

(** What the member loop keeps: a driving mind once chosen stays, and
    there is one as soon as a member was loaded. *)
Lemma load_members_mind (workspaceID : N) (names : list string) (s : Storage.Storage) :
  forall members leaderMind members' leaderMind',
    load_members workspaceID names s members leaderMind = Ret (members', leaderMind') ->
    (is_Some leaderMind -> is_Some leaderMind')
    /\ (members = [] \/ is_Some leaderMind -> members' = [] \/ is_Some leaderMind').
Proof.
  induction names as [|name rest IH]; intros members lm members' lm' H; simpl in H.
  - injection H as <- <-. split; auto.
  - destruct (loadRobotAsMember workspaceID name s) as [[[member mindDef]|]|];
      [| |discriminate].
    + apply IH in H as [H1 H2]. split.
      * intros Hsome. apply H1. destruct lm; [done|by eexists].
      * intros _. right. apply H1. destruct lm; by eexists.
    + apply IH in H. exact H.
Qed.

(** The errors [executeTeam] returns before it launches the runner. *)
Definition team_error (e : Error) : Prop :=
  has_prefix "failed to load team: " e = true
  \/ has_prefix "failed to parse team spec: " e = true
  \/ e = "invalid team resource"
  \/ has_prefix "failed to load leader robot: " e = true
  \/ e = "team has no valid members or leader".

(** X16.  The errors of team resolution are: the team does not load or
    does not parse, its row is no Team, its named leader does not load,
    or it has neither a leader nor a member that loads.  The error [no
    mind found for team] of the source is never returned: a team with a
    leader or a loaded member has a driving mind. *)
Theorem teamConfig_errors (task : Task) (s : Storage.Storage) (e : Error) :
  teamConfig task s = Ret (Err e) ->
  team_error e /\ e <> "no mind found for team".
Proof.
  unfold teamConfig, team_error. intros H.
  destruct (Storage.Resources_GetByName (WorkspaceID task) (ResourceName task)
              ResourceTypeTeam s) as [teamRow|err].
  2: { injection H as <-. split; [left; apply has_prefix_app|discriminate]. }
  destruct (Crd.Parse (Res_Spec teamRow)) as [[| | | |teamDef|]|err].
  7: { injection H as <-. split; [right; left; apply has_prefix_app|discriminate]. }
  1-4, 6: injection H as <-; split; [auto|discriminate].
  unfold load_leader in H.
  destruct (negb (String.eqb (Crd.Team_Leader (Crd.Team_Spec teamDef)) "")).
  - destruct (loadRobotAsMember (WorkspaceID task) _ s)
      as [[[leaderMember leaderMindDef]|err]|]; [| |discriminate].
    + destruct (load_members _ _ s [] (Some leaderMindDef))
        as [[members leaderMind]|] eqn:Hm; [|discriminate].
      apply load_members_mind in Hm as [Hm _].
      destruct (Hm ltac:(by eexists)) as [mind ->].
      rewrite andb_false_r in H. discriminate.
    + injection H as <-.
      split; [right; right; right; left; apply has_prefix_app|discriminate].
  - destruct (load_members _ _ s [] None)
      as [[members leaderMind]|] eqn:Hm; [|discriminate].
    apply load_members_mind in Hm as [_ Hm].
    destruct (Hm ltac:(by left)) as [->|[mind ->]].
    + simpl in H. injection H as <-. split; [auto 10|discriminate].
    + destruct (Nat.eqb (length members) 0 && negb (is_Some_b None));
        [|discriminate].
      injection H as <-. split; [auto 10|discriminate].
Qed.

(** X17.  The configuration of a team: it is of type [team], carries
    the prompt of the task and the name, mode and description of the
    Team, names the session after the task id, has an empty soul part and
    no tools (the craft of the team is not read), and has a leader or at
    least one member. *)
Theorem teamConfig_shape (task : Task) (s : Storage.Storage) (config : AgnoConfig) :
  teamConfig task s = Ret (Ok config) ->
  Cfg_Type config = "team"
  /\ Cfg_Prompt config = Prompt task
  /\ Cfg_SessionID config = "task-" +:+ pretty (ID task)
  /\ Cfg_Soul config = {| SoulCfg_Name := ""; SoulCfg_Personality := "" |}
  /\ Cfg_MCPTools config = []
  /\ exists teamRow teamDef team,
       Storage.Resources_GetByName (WorkspaceID task) (ResourceName task)
         ResourceTypeTeam s = Ok teamRow
       /\ Crd.Parse (Res_Spec teamRow) = Ok (Crd.RTeam teamDef)
       /\ Cfg_Team config = Some team
       /\ TeamCfg_Name team = Crd.Name (Crd.Team_Metadata teamDef)
       /\ TeamCfg_Mode team = Crd.Team_Mode (Crd.Team_Spec teamDef)
       /\ TeamCfg_Description team = Crd.Team_Description (Crd.Team_Spec teamDef)
       /\ (TeamCfg_Members team <> [] \/ is_Some (TeamCfg_Leader team)).
Proof.
  unfold teamConfig. intros H.
  destruct (Storage.Resources_GetByName (WorkspaceID task) (ResourceName task)
              ResourceTypeTeam s) as [teamRow|err] eqn:Hrow; [|discriminate].
  destruct (Crd.Parse (Res_Spec teamRow)) as [[| | | |teamDef|]|err] eqn:Hparse;
    try discriminate.
  destruct (load_leader _ _ s) as [[[leader leaderMind0]|]|]; try discriminate.
  destruct (load_members _ _ s [] leaderMind0) as [[members leaderMind]|];
    [|discriminate].
  destruct (Nat.eqb (length members) 0 && negb (is_Some_b leader)) eqn:Hany;
    [discriminate|].
  destruct leaderMind as [mind|]; [|discriminate].
  injection H as <-. cbn. do 5 (split; [reflexivity|]).
  exists teamRow, teamDef. eexists. split; [reflexivity|]. split; [exact Hparse|].
  do 4 (split; [reflexivity|]).
  cbn [TeamCfg_Members TeamCfg_Leader].
  apply andb_false_iff in Hany as [Hm|Hl].
  - left. intros Hnil. rewrite Hnil in Hm. discriminate.
  - right. destruct leader; [by eexists|discriminate].
Qed.

End WithEnv.

End ExecutorMoreFacts.

(** ** Facts about the task handler *)

Module HandlerFacts.

Import Models World Executor ExecutorSpec TaskRows LifecycleFacts.

Section WithEnv.
Context `{Yaml : Crd.YamlCodec} `{Env : RunnerEnv} `{Enc : TaskHandler.LogEncoder}.

(** The event the handler's callback broadcasts. *)
Definition event_of (taskID : N) (progress : Z) (status : TaskStatus) (message : string)
    (metadata : CallbackMetadata) : Broadcaster.TaskEvent :=
  {| Broadcaster.TaskID := taskID;
     Broadcaster.Type_ := "log";
     Broadcaster.Content := message;
     Broadcaster.Details_ := TaskHandler.details_of metadata;
     Broadcaster.Progress_ := progress;
     Broadcaster.Status_ := status_string status;
     Broadcaster.EventType := TaskHandler.event_type_of metadata;
     Broadcaster.Timestamp := 0 |}.

Lemma callback_broadcaster taskID progress status message metadata w :
  broadcaster (TaskHandler.callback taskID progress status message metadata w)
    = Broadcaster.Broadcast (clock w) (event_of taskID progress status message metadata)
        (broadcaster w).
Proof.
  unfold TaskHandler.callback. simpl.
  destruct (Storage.Tasks_GetByID taskID (storage w)); reflexivity.
Qed.

Lemma GetByID_Ok taskID s task :
  Storage.Tasks_GetByID taskID s = Ok task ->
  Storage.db_error s = None /\ Storage.tasks s !! taskID = Some task.
Proof.
  unfold Storage.Tasks_GetByID.
  destruct (Storage.db_error s); [discriminate|].
  destruct (Storage.tasks s !! taskID); [|discriminate].
  intros [= ->]. done.
Qed.

(** X18.  The answers of the cancel endpoint.  A task that cannot be
    read: 404.  A task of another user: 403.  A task of the user that is
    not active (it never was queued, or was processed or cancelled
    before): 500, although nothing failed.  In these three cases nothing
    changes and no callback is made.  An active task of the user, queued
    with the handler's callback: 200; the callback broadcast the
    cancellation, the entry left the active map, the channel still holds
    the item, and the row is the one read at the start with status
    cancelled (the progress 0 the callback wrote is overwritten by the
    progress the row had). *)
Theorem Cancel_handler_outcomes (userID taskID : N) (q : Orchestrator.TaskQueue)
    (w : World) :
  let res := TaskHandler.Cancel userID taskID (q, w) in
  (is_err (Storage.Tasks_GetByID taskID (storage w)) = true ->
     res = (TaskHandler.NotFound, (q, w), []))
  /\ forall task,
       Storage.Tasks_GetByID taskID (storage w) = Ok task ->
       (UserID task <> userID -> res = (TaskHandler.Forbidden, (q, w), []))
       /\ (UserID task = userID -> Orchestrator.active q !! taskID = None ->
           res = (TaskHandler.InternalServerError, (q, w), []))
       /\ forall item,
            UserID task = userID ->
            Orchestrator.active q !! taskID = Some item ->
            Orchestrator.Callback item = Some TaskHandler.callback ->
            exists q' w',
              res = (TaskHandler.OK, (q', w'),
                     [Orchestrator.EvCallback taskID 0 TaskStatusCancelled
                        "Task cancelled by user" None;
                      Orchestrator.EvActiveDelete taskID])
              /\ Orchestrator.active q' = delete taskID (Orchestrator.active q)
              /\ Orchestrator.tasks q' = Orchestrator.tasks q
              /\ row_of (ID task) w' = Some (set_Status TaskStatusCancelled task)
              /\ broadcaster w'
                 = Broadcaster.Broadcast (clock w)
                     (event_of taskID 0 TaskStatusCancelled "Task cancelled by user" None)
                     (broadcaster w).
Proof.
  intros res. unfold res, TaskHandler.Cancel. split.
  - destruct (Storage.Tasks_GetByID taskID (storage w)); [discriminate|reflexivity].
  - intros task Hget. rewrite Hget. split; [|split].
    + intros Hne. apply N.eqb_neq in Hne. rewrite Hne. reflexivity.
    + intros -> Hnone. rewrite N.eqb_refl. unfold Orchestrator.Cancel.
      rewrite Hnone. reflexivity.
    + intros item -> Hsome Hcb. rewrite N.eqb_refl. unfold Orchestrator.Cancel.
      rewrite Hsome. unfold mbind, Orchestrator.QM_bind, Orchestrator.invoke,
        Orchestrator.delete_active, mret, Orchestrator.QM_ret.
      rewrite Hcb. cbv beta iota zeta.
      eexists. eexists. split; [reflexivity|].
      split; [reflexivity|]. split; [reflexivity|].
      apply GetByID_Ok in Hget as [Hdb _]. split.
      * unfold row_of, Storage.Tasks_Update_, Storage.Tasks_Update. simpl.
        rewrite (callback_db_ok _ _ _ _ _ _ Hdb). simpl.
        apply lookup_insert_eq.
      * simpl. apply callback_broadcaster.
Qed.

(** X19.  When the database fails, a worker that takes an item queued
    with the handler's callback cannot record anything: the executor
    returns at its first write, the failure is broadcast to the
    subscribers of the task with the message [execution failed: failed to
    update task status: ] and the database's error, the entry leaves the
    active map, and the database is as it was, so the row of the task
    keeps the status it had. *)
Theorem processTask_with_database_down (item : Orchestrator.TaskItem)
    (q : Orchestrator.TaskQueue) (w : World) (e : Error) :
  Orchestrator.Callback item = Some TaskHandler.callback ->
  Storage.db_error (storage w) = Some e ->
  let id := ID (Orchestrator.Task_ item) in
  let msg := "execution failed: failed to update task status: " +:+ e in
  exists w',
    Orchestrator.processTask item (q, w)
      = (tt,
         (Orchestrator.with_active (delete id (Orchestrator.active q)) q, w'),
         [Orchestrator.EvExecute id;
          Orchestrator.EvCallback id 0 TaskStatusFailed msg None;
          Orchestrator.EvActiveDelete id])
    /\ storage w' = storage w
    /\ broadcaster w'
       = Broadcaster.Broadcast (clock w) (event_of id 0 TaskStatusFailed msg None)
           (broadcaster w).
Proof.
  intros Hcb Hdb id msg.
  unfold Orchestrator.processTask, Orchestrator.run_executor, mbind,
    Orchestrator.QM_bind. cbn [Orchestrator.Execute Wiring.AgnoExecutor].
  unfold Execute, Storage.Tasks_Update. rewrite Hdb.
  unfold Orchestrator.invoke, Orchestrator.delete_active. rewrite Hcb.
  cbv beta iota zeta. eexists. split; [reflexivity|]. split.
  - rewrite callback_storage. unfold Storage.Tasks_GetByID. rewrite Hdb. reflexivity.
  - apply callback_broadcaster.
Qed.

End WithEnv.

End HandlerFacts.

(** ** Facts about the Gemini message conversion *)

Module LlmFacts.

Import Llm.

Lemma convert_message_from contents sp msg :
  convert_message (contents, sp) msg =
    (contents ++ fst (convert_message ([], sp) msg), snd (convert_message ([], sp) msg)).
Proof.
  unfold convert_message.
  destruct (String.eqb (Msg_Role msg) "system"); [by rewrite app_nil_r|].
  destruct (negb (String.eqb sp "") && _); reflexivity.
Qed.

Lemma convert_from msgs : forall contents sp,
  foldl convert_message (contents, sp) msgs =
    (contents ++ fst (foldl convert_message ([], sp) msgs),
     snd (foldl convert_message ([], sp) msgs)).
Proof.
  induction msgs as [|msg rest IH]; intros contents sp; cbn [foldl fst snd].
  - by rewrite app_nil_r.
  - rewrite convert_message_from.
    destruct (convert_message ([], sp) msg) as [new sp'] eqn:Hstep. cbn [fst snd].
    rewrite IH, (IH new sp'). cbn [fst snd]. by rewrite app_assoc.
Qed.



Lemma convert_passes_on mid : forall contents sp,
  forallb (fun m => negb (is_system m) && negb (is_user m)) mid = true ->
  foldl convert_message (contents, sp) mid = (contents ++ map passed_on mid, sp).
Proof.
  induction mid as [|msg rest IH]; intros contents sp H; cbn [foldl map].
  - by rewrite app_nil_r.
  - cbn [forallb] in H. apply andb_true_iff in H as [Hmsg Hrest].
    apply andb_true_iff in Hmsg as [Hsys Huser].
    unfold is_system, is_user in *.
    apply negb_true_iff in Hsys, Huser.
    assert (convert_message (contents, sp) msg = (contents ++ [passed_on msg], sp)) as ->.
    { unfold convert_message, passed_on, gemini_role. rewrite Hsys.
      assert (String.eqb (if String.eqb (Msg_Role msg) "assistant" then "model"
                          else Msg_Role msg) "user" = false) as Hrole.
      { destruct (String.eqb (Msg_Role msg) "assistant"); [reflexivity|exact Huser]. }
      rewrite Hrole, andb_false_r. reflexivity. }
    rewrite IH by exact Hrest. rewrite <- app_assoc. reflexivity.
Qed.

(** X21.  The system prompt: a non-empty system message is prepended,
    followed by an empty line, to the first user message that comes after
    it, the messages in between (of neither role) being passed on as they
    are; what precedes the system message and what follows the user
    message are converted as if they stood alone. *)
Theorem convertToGeminiContents_system_prompt (before between after : list Message)
    (prompt question : string) :
  prompt <> "" ->
  forallb (fun m => negb (is_system m) && negb (is_user m)) between = true ->
  convertToGeminiContents
    (before ++ [{| Msg_Role := "system"; Msg_Content := prompt |}] ++ between
            ++ [{| Msg_Role := "user"; Msg_Content := question |}] ++ after)
  = convertToGeminiContents before
    ++ map passed_on between
    ++ [{| Gem_Role := "user";
           Gem_Parts := [{| Part_Text := prompt +:+ blank_line +:+ question |}] |}]
    ++ convertToGeminiContents after.
Proof.
  intros Hprompt Hbetween. unfold convertToGeminiContents.
  rewrite !foldl_app.
  destruct (foldl convert_message ([], "") before) as [c0 sp0]. simpl fst.
  change (foldl convert_message (c0, sp0)
            [{| Msg_Role := "system"; Msg_Content := prompt |}]) with (c0, prompt).
  rewrite (convert_passes_on between c0 prompt Hbetween).
  cbn [foldl]. unfold convert_message at 2. cbn [Msg_Role Msg_Content String.eqb
    Ascii.eqb Bool.eqb andb].
  apply String.eqb_neq in Hprompt. rewrite Hprompt. cbn [negb andb].
  rewrite convert_from. cbn [fst]. rewrite <- !app_assoc. reflexivity.
Qed.

(** A system prompt, an earlier answer of the model and a question. *)
Lemma system_prompt_joins_the_question :
  convertToGeminiContents
    [ {| Msg_Role := "system"; Msg_Content := "Be brief." |};
      {| Msg_Role := "assistant"; Msg_Content := "Hello." |};
      {| Msg_Role := "user"; Msg_Content := "Why?" |};
      {| Msg_Role := "user"; Msg_Content := "And how?" |} ]
  = [ {| Gem_Role := "model"; Gem_Parts := [{| Part_Text := "Hello." |}] |};
      {| Gem_Role := "user";
         Gem_Parts := [{| Part_Text := "Be brief." +:+ blank_line +:+ "Why?" |}] |};
      {| Gem_Role := "user"; Gem_Parts := [{| Part_Text := "And how?" |}] |} ].
Proof.
  exact (convertToGeminiContents_system_prompt []
           [{| Msg_Role := "assistant"; Msg_Content := "Hello." |}]
           [{| Msg_Role := "user"; Msg_Content := "And how?" |}]
           "Be brief." "Why?" ltac:(discriminate) eq_refl).
Defined.

End LlmFacts.

(** ** Facts about the client cache *)

Module LlmExecutorFacts.

Import LlmExecutor.

Section WithOs.
Context `{Os : Environ}.

(** X22.  The client cache is keyed by provider, model and base URL
    only.  Once a client was made for a Mind, every Mind with the same key
    is given that client, and the cache stays as it is, whatever API key
    that Mind carries and whatever the environment holds. *)
Theorem getLLMClient_reuses_cached (mind mind' : Crd.Mind) (e e1 : Executor)
    (client : Llm.Client) :
  getLLMClient mind e = (Ok client, e1) ->
  cacheKey mind' = cacheKey mind ->
  getLLMClient mind' e1 = (Ok client, e1).
Proof.
  unfold getLLMClient. intros H Hkey. rewrite Hkey.
  destruct (llmClients e !! cacheKey mind) as [c|] eqn:Hc.
  - injection H as <- <-. rewrite Hc. reflexivity.
  - destruct (make_client mind) as [c|]; [|discriminate].
    injection H as <- <-. simpl. rewrite lookup_insert_eq. reflexivity.
Qed.

(** X23.  When [getLLMClient] fails, for a Mind without cached client.
    A provider that takes its key from the environment fails exactly when
    the Mind has no API key and the provider's variables are unset or
    empty, with the error [API key not configured for provider: ] and the
    provider.  Ollama never fails.  Any other provider fails exactly when
    the Mind has no base URL, and with one is given an OpenAI-compatible
    client with the Mind's key, empty or not.  A failure leaves the cache
    as it was; a success caches the client under the Mind's key. *)
Theorem getLLMClient_errors (mind : Crd.Mind) (e : Executor) :
  llmClients e !! cacheKey mind = None ->
  let spec := Crd.Mind_Spec mind in
  let cached client :=
    (Ok client, {| llmClients := <[cacheKey mind := client]> (llmClients e) |}) in
  match key_variables (Crd.Provider spec) with
  | Some variables =>
      if String.eqb (Crd.APIKey spec) ""
         && forallb (fun name => String.eqb (Getenv name) "") variables
      then getLLMClient mind e = (Err (no_key (Crd.Provider spec)), e)
      else exists client, getLLMClient mind e = cached client
  | None =>
      if String.eqb (Crd.Provider spec) "ollama"
      then getLLMClient mind e
           = cached (Llm.OllamaClient (Crd.ModelID spec)
                       (if String.eqb (Crd.BaseURL spec) "" then "http://localhost:11434"
                        else Crd.BaseURL spec))
      else if String.eqb (Crd.BaseURL spec) ""
      then getLLMClient mind e
           = (Err ("unsupported LLM provider: " +:+ Crd.Provider spec
                   +:+ " (provide base_url for OpenAI-compatible APIs)"), e)
      else getLLMClient mind e
           = cached (Llm.OpenAIClient (Crd.ModelID spec) (Crd.APIKey spec)
                       (Crd.BaseURL spec))
  end.
Proof.
  intros Hnone spec cached. unfold cached, getLLMClient. rewrite Hnone.
  unfold key_variables, make_client. fold spec.
  destruct (String.eqb (Crd.Provider spec) "ollama") eqn:Hollama.
  { apply String.eqb_eq in Hollama. rewrite Hollama. cbn.
    unfold Llm.NewOllamaClient.
    destruct (String.eqb (Crd.BaseURL spec) "") eqn:Hb; [reflexivity|].
    rewrite Hb. reflexivity. }
  unfold or_env, Llm.NewOpenAICompatibleClient.
  repeat match goal with
  | |- context [String.eqb (Crd.Provider spec) ?p] =>
      destruct (String.eqb (Crd.Provider spec) p)
  end; cbn [orb forallb andb].
  all: destruct (String.eqb (Crd.APIKey spec) "") eqn:Hk; cbn [andb];
    rewrite ?andb_true_r;
    repeat match goal with
    | |- context [String.eqb (Getenv ?name) ""] =>
        destruct (String.eqb (Getenv name) "") eqn:?; cbn [andb]
    end;
    rewrite ?Hk;
    try congruence;
    try reflexivity;
    try (destruct (String.eqb (Crd.BaseURL spec) "") eqn:Hb; cbn [negb];
         rewrite ?Hb; first [reflexivity | eexists; reflexivity]);
    try (eexists; reflexivity).
Qed.

End WithOs.

End LlmExecutorFacts.

(** ** Facts about the document parser *)

Module AttachmentFacts.

Import Attachment.

Lemma one_of_elem_of (s : string) (l : list string) :
  Executor.one_of s l = true <-> s ∈ l.
Proof.
  unfold Executor.one_of. rewrite existsb_exists. split.
  - intros (x & Hin & Heq). apply String.eqb_eq in Heq as ->.
    by apply list_elem_of_In.
  - intros Hin. exists s. split; [by apply list_elem_of_In|apply String.eqb_refl].
Qed.

(** The types [Parse] has a case for. *)
Definition parsed_types : list string :=
  [ "text/plain"; "text/markdown"; "text/html"; "application/json"; "application/xml";
    "application/pdf";
    "application/msword";
    "application/vnd.openxmlformats-officedocument.wordprocessingml.document";
    "image/jpeg"; "image/png"; "image/gif"; "image/bmp"; "image/webp" ].

Lemma is_ok_parseText data : is_ok (parseText data) = true.
Proof. unfold parseText. destruct (_ <? _)%nat; reflexivity. Qed.

Lemma Parse_ok (data mimeType : string) :
  is_ok (Parse data mimeType) = Executor.one_of mimeType parsed_types.
Proof.
  unfold Parse, parsed_types, Executor.one_of. cbn [existsb].
  repeat match goal with
  | |- context [String.eqb mimeType ?c] => destruct (String.eqb mimeType c)
  end; cbn [orb]; first [apply is_ok_parseText | reflexivity].
Qed.

Lemma IsSupportedMimeType_elem_of (mimeType : string) :
  IsSupportedMimeType mimeType = true
  <-> mimeType ∈ concat (map snd SupportedMimeTypes).
Proof.
  unfold IsSupportedMimeType. rewrite existsb_exists. split.
  - intros (group & Hin & Hex). apply existsb_exists in Hex as (t & Ht & Heq).
    apply String.eqb_eq in Heq as <-.
    apply list_elem_of_In, in_concat. exists (snd group). split; [|done].
    by apply in_map.
  - intros Hin. apply list_elem_of_In, in_concat in Hin as (types & Hin & Ht).
    apply in_map_iff in Hin as (group & <- & Hgroup).
    exists group. split; [done|]. apply existsb_exists.
    exists mimeType. split; [done|apply String.eqb_refl].
Qed.

(** X24.  [IsSupportedMimeType] accepts more types than [Parse]
    extracts text from.  A type is supported exactly when [Parse]
    succeeds on it or it is one of six types (PowerPoint, Excel, CSV and
    SVG): for these [Parse] returns the error [unsupported MIME type: ]
    with the type, whatever the file holds. *)
Theorem Parse_and_IsSupportedMimeType (data mimeType : string) :
  (IsSupportedMimeType mimeType = true
   <-> is_ok (Parse data mimeType) = true \/ mimeType ∈ accepted_but_unparsed)
  /\ (mimeType ∈ accepted_but_unparsed ->
      Parse data mimeType = Err ("unsupported MIME type: " +:+ mimeType)).
Proof.
  split.
  - rewrite IsSupportedMimeType_elem_of, Parse_ok, one_of_elem_of.
    unfold SupportedMimeTypes, parsed_types, accepted_but_unparsed.
    cbn [map snd concat app]. rewrite !elem_of_cons, !elem_of_nil. tauto.
  - intros Hin. pose proof (Parse_ok data mimeType) as Hok.
    assert (Executor.one_of mimeType parsed_types = false) as Hno.
    { apply not_true_is_false. rewrite one_of_elem_of.
      unfold accepted_but_unparsed, parsed_types in *.
      rewrite !elem_of_cons, !elem_of_nil in Hin.
      rewrite !elem_of_cons, !elem_of_nil.
      intros H. repeat destruct Hin as [->|Hin]; try done;
        repeat destruct H as [H|H]; try discriminate; done. }
    rewrite Hno in Hok. unfold Parse in *.
    repeat match goal with
    | |- context [Executor.one_of mimeType ?l] =>
        destruct (Executor.one_of mimeType l)
    end; try reflexivity; try (rewrite is_ok_parseText in Hok); discriminate.
Qed.

Lemma substring_prefix (n : nat) : forall s,
  String.length (String.substring 0 n s) = Nat.min n (String.length s)
  /\ String.prefix (String.substring 0 n s) s = true.
Proof.
  induction n as [|n IH]; intros s.
  - destruct s; simpl; split; reflexivity.
  - destruct s as [|c s]; simpl; [split; reflexivity|].
    destruct (IH s) as [H1 H2]. rewrite H1, H2.
    destruct (Ascii.ascii_dec c c); [split; reflexivity|done].
Qed.

Lemma prefix_refl (s : string) : String.prefix s s = true.
Proof.
  induction s as [|c s IH]; simpl; [reflexivity|].
  destruct (Ascii.ascii_dec c c); [exact IH|done].
Qed.

(** X25.  What [Parse] extracts.  From a text type: the first 50000
    bytes of the file, all of it when it is shorter.  From a PDF, a Word
    document or an image: a fixed notice that is the same for every file,
    the file not being read. *)
Theorem Parse_text_or_notice (data mimeType text : string) :
  Parse data mimeType = Ok text ->
  if Executor.one_of mimeType
       ["text/plain"; "text/markdown"; "text/html"; "application/json"; "application/xml"]
  then String.length text = Nat.min MaxTextLength (String.length data)
       /\ String.prefix text data = true
  else forall data', Parse data' mimeType = Ok text.
Proof.
  unfold Parse.
  destruct (Executor.one_of mimeType
              ["text/plain"; "text/markdown"; "text/html"; "application/json";
               "application/xml"]).
  - unfold parseText.
    destruct (Nat.ltb_spec MaxTextLength (String.length data)) as [Hlt|Hge];
      intros [= <-].
    + apply substring_prefix.
    + split; [lia|apply prefix_refl].
  - repeat match goal with
    | |- context [Executor.one_of mimeType ?l] =>
        destruct (Executor.one_of mimeType l)
    end; intros H data'; first [exact H | discriminate].
Qed.

(** A short text file is extracted whole; a PDF is not read. *)
Lemma text_is_kept_and_pdf_is_not_read :
  Parse "# Notes" "text/markdown" = Ok "# Notes"
  /\ Parse "%PDF-1.7 ..." "application/pdf" = Parse "" "application/pdf".
Proof.
  split; [reflexivity|].
  rewrite (Parse_text_or_notice "%PDF-1.7 ..." "application/pdf"
             "[PDF content - parser not implemented yet]" eq_refl "").
  reflexivity.
Defined.

Lemma split_dots_cons (s : string) : exists part parts, split_dots s = part :: parts.
Proof.
  induction s as [|c s (part & parts & IH)]; simpl; [by eauto|].
  destruct (Ascii.eqb c "."); [by eauto|]. rewrite IH. by eauto.
Qed.

Lemma split_dots_app (a b : string) :
  split_dots (a +:+ String "."%char b) = split_dots a ++ split_dots b.
Proof.
  induction a as [|c a IH].
  - reflexivity.
  - change (String c a +:+ String "."%char b) with (String c (a +:+ String "."%char b)).
    simpl. rewrite IH. destruct (Ascii.eqb c "."); [reflexivity|].
    destruct (split_dots_cons a) as (part & parts & ->). reflexivity.
Qed.

Lemma split_dots_dotless (s : string) : has_dot s = false -> split_dots s = [s].
Proof.
  induction s as [|c s IH]; simpl; [reflexivity|].
  destruct (Ascii.eqb c "."); simpl; [discriminate|].
  intros H. rewrite (IH H). reflexivity.
Qed.

(** X26.  [GetFileExtension] returns what follows the last dot of the
    file name, with the dot: the extension of a name that ends in a dot
    and a dot-free suffix is that dot and suffix, whatever precedes them
    (other dots too); a name without dot has the empty extension. *)
Theorem GetFileExtension_last_dot (stem suffix : string) :
  has_dot suffix = false ->
  GetFileExtension (stem +:+ "." +:+ suffix) = "." +:+ suffix
  /\ GetFileExtension suffix = "".
Proof.
  intros Hdot. unfold GetFileExtension. split.
  - change ("." +:+ suffix) with (String "."%char suffix).
    rewrite split_dots_app, (split_dots_dotless _ Hdot).
    destruct (split_dots_cons stem) as (part & parts & ->).
    rewrite last_last. rewrite length_app. simpl.
    destruct (Nat.ltb_spec 1 (S (length parts + 1))); [reflexivity|lia].
  - rewrite (split_dots_dotless _ Hdot). reflexivity.
Qed.

(** An archive, a hidden file, a name that ends in a dot and a name
    without dot. *)
Lemma extensions_of_four_names :
  GetFileExtension "notes.tar.gz" = ".gz"
  /\ GetFileExtension ".bashrc" = ".bashrc"
  /\ GetFileExtension "draft." = "."
  /\ GetFileExtension "README" = "".
Proof.
  pose proof (GetFileExtension_last_dot "notes.tar" "gz" eq_refl) as [H1 _].
  pose proof (GetFileExtension_last_dot "" "bashrc" eq_refl) as [H2 _].
  pose proof (GetFileExtension_last_dot "draft" "" eq_refl) as [H3 _].
  pose proof (GetFileExtension_last_dot "" "README" eq_refl) as [_ H4].
  repeat split; assumption.
Defined.

End AttachmentFacts.

(** ** Multi-document texts *)

Module CrdDocumentFacts.

Import Crd CrdDocuments.

Section WithYaml.
Context `{Yaml : YamlCodec} `{Stream : YamlStream}.

Lemma parse_documents_Ok (decoded : list (result Dyn)) :
  forall (acc rs : list Resource),
    parse_documents decoded acc = Ok rs <->
    exists new, rs = acc ++ new /\ map parse_document decoded = map Ok new.
Proof.
  induction decoded as [|doc rest IH]; intros acc rs; simpl.
  - split.
    + intros [= <-]. exists []. by rewrite app_nil_r.
    + intros ([|? ?] & -> & Hnew); [by rewrite app_nil_r | discriminate].
  - destruct (parse_document doc) as [r|e].
    + rewrite IH. split.
      * intros (new & -> & Hnew). exists (r :: new).
        rewrite <- app_assoc. simpl. by rewrite Hnew.
      * intros ([|r' new] & -> & Hnew); [discriminate|].
        simpl in Hnew. injection Hnew as <- Hnew. exists new.
        rewrite <- app_assoc. done.
    + split; [discriminate|].
      intros ([|? ?] & _ & Hnew); discriminate.
Qed.

Lemma parse_documents_Err (decoded : list (result Dyn)) :
  forall (acc : list Resource) (e : Error),
    parse_documents decoded acc = Err e <->
    exists good bad rest rs,
      decoded = good ++ bad :: rest
      /\ map parse_document good = map Ok rs
      /\ parse_document bad = Err e.
Proof.
  induction decoded as [|doc rest IH]; intros acc e; simpl.
  - split; [discriminate|].
    intros (good & bad & rest & rs & Hd & _). by destruct good.
  - destruct (parse_document doc) as [r|e'] eqn:Hdoc.
    + rewrite IH. split.
      * intros (good & bad & rest' & rs & -> & Hgood & Hbad).
        exists (doc :: good), bad, rest', (r :: rs). simpl.
        rewrite Hdoc, Hgood. done.
      * intros (good & bad & rest' & rs & Hd & Hgood & Hbad).
        destruct good as [|g good]; simpl in Hd; injection Hd as <- ->.
        { congruence. }
        destruct rs as [|r' rs]; [discriminate|].
        simpl in Hgood. injection Hgood as _ Hgood.
        by exists good, bad, rest', rs.
    + split.
      * intros [= ->]. by exists [], doc, rest, [].
      * intros (good & bad & rest' & rs & Hd & Hgood & Hbad).
        destruct good as [|g good]; simpl in Hd; injection Hd as <- ->.
        { congruence. }
        destruct rs as [|r' rs]; [discriminate|].
        simpl in Hgood. congruence.
Qed.

(** X27. [ParseMultiple] is all or nothing, and in order: it returns
    resources exactly when every document of the text decodes, marshals
    and parses, and then one resource per document in the order of the
    text; it returns an error exactly when some document fails after
    documents that all succeed, and the error is that first failure's,
    whatever follows it. *)
Theorem ParseMultiple_all_or_first_error (data : string) :
  (forall rs : list Resource,
     ParseMultiple data = Ok rs <->
     map parse_document (yaml_Decode_all data) = map Ok rs)
  /\ (forall e : Error,
        ParseMultiple data = Err e <->
        exists good bad rest rs,
          yaml_Decode_all data = good ++ bad :: rest
          /\ map parse_document good = map Ok rs
          /\ parse_document bad = Err e).
Proof.
  unfold ParseMultiple. split.
  - intros rs. rewrite parse_documents_Ok. split.
    + by intros (new & -> & Hnew).
    + intros Hnew. by exists rs.
  - intros e. apply parse_documents_Err.
Qed.

End WithYaml.

(** Two documents give two resources in their order; a document that is
    no resource between them gives the error of [Parse] on it, and none
    of the resources. *)
Lemma two_documents_and_a_broken_one :
  ParseMultiple (Yaml := Samples.sample_yaml) (Stream := EndpointSamples.yaml_stream)
    EndpointSamples.two_documents
    = Ok [RSoul Samples.soul_a; RMind Samples.mind_m]
  /\ ParseMultiple (Yaml := Samples.sample_yaml) (Stream := EndpointSamples.yaml_stream)
       EndpointSamples.broken_documents
     = Err "failed to parse metadata: yaml: unmarshal errors".
Proof.
  pose proof (ParseMultiple_all_or_first_error
                (Yaml := Samples.sample_yaml) (Stream := EndpointSamples.yaml_stream)
                EndpointSamples.two_documents) as [Hok _].
  split; [by apply Hok | reflexivity].
Defined.

End CrdDocumentFacts.

(** ** The resource and task endpoints *)

Module EndpointFacts.

Import Models World Repositories Endpoints.

Lemma find_replaced (P : Models.Resource -> bool) (id : N) (r' : Models.Resource)
    (rows : list Models.Resource) (r0 : Models.Resource) :
  List.find P rows = Some r0 -> Res_ID r0 = id -> P r' = true ->
  List.find P (map (fun row => if N.eqb (Res_ID row) id then r' else row) rows) = Some r'.
Proof.
  intros Hfind Hid Hr'. induction rows as [|x rows IH]; [discriminate|].
  simpl in *. destruct (N.eqb (Res_ID x) id) eqn:Hx.
  - by rewrite Hr'.
  - destruct (P x); [|by apply IH].
    injection Hfind as ->. apply N.eqb_neq in Hx. congruence.
Qed.

Lemma find_appended (P : Models.Resource -> bool) (rows : list Models.Resource)
    (r : Models.Resource) :
  List.find P rows = None -> P r = true -> List.find P (rows ++ [r]) = Some r.
Proof.
  intros Hnone Hr. induction rows as [|x rows IH]; simpl in *.
  - by rewrite Hr.
  - destruct (P x); [discriminate | by apply IH].
Qed.

Lemma find_elem_of (P : Models.Resource -> bool) (rows : list Models.Resource)
    (r : Models.Resource) :
  List.find P rows = Some r -> r ∈ rows /\ P r = true.
Proof.
  induction rows as [|x rows IH]; [discriminate|]. simpl.
  destruct (P x) eqn:Hx.
  - intros [= ->]. split; [apply list_elem_of_here | done].
  - intros H. destruct (IH H). split; [by apply list_elem_of_further | done].
Qed.

Lemma existsb_elem_of (P : Models.Resource -> bool) (rows : list Models.Resource)
    (r : Models.Resource) :
  r ∈ rows -> P r = true -> existsb P rows = true.
Proof.
  intros Hin Hr. apply existsb_exists. exists r. split; [|done].
  by apply list_elem_of_In.
Qed.

Section WithDatabase.
Context `{Yaml : Crd.YamlCodec} `{Db : Database} `{Enc : TaskHandler.LogEncoder}.

(** A second [Update] of a row just saved changes nothing. *)
Lemma Resources_Update_listed (r : Models.Resource) (s : Storage.Storage) :
  Storage.db_error s = None ->
  r ∈ Storage.resources s ->
  (forall row, row ∈ Storage.resources s -> Res_ID row = Res_ID r -> row = r) ->
  Resources_Update r s = Ok s.
Proof.
  intros Hdb Hin Hsame. unfold Resources_Update. rewrite Hdb.
  rewrite (existsb_elem_of _ _ r Hin) by apply N.eqb_refl.
  f_equal. destruct s as [e ts ls rs]. unfold with_resources. simpl in *. f_equal.
  rewrite <- (map_id rs) at 2. apply map_ext_in. intros row Hrow.
  destruct (N.eqb (Res_ID row) (Res_ID r)) eqn:Hid; [|done].
  symmetry. apply Hsame; [by apply list_elem_of_In | by apply N.eqb_eq].
Qed.

(** X28. When [Apply] answers 200 or 201, the text of the request parsed,
    and the row it answers with holds that text, under the name, the
    type and the description of the resource parsed, in the workspace of
    the query, or in the first of the caller's when the query names none;
    no check is made that the workspace of the query is the caller's.
    Afterwards that row is the one [GetByName] finds, and applying the
    same text again answers 200 [updated] with the same row and changes
    nothing.  With any other answer the tables are as they were. *)
Theorem Apply_then_GetByName (userID : N) (wsIDStr body : string) (s : Storage.Storage) :
  let '(response, s') := Apply userID wsIDStr (Ok body) s in
  match response with
  | Apply_OK _ row | Apply_Created _ row =>
      exists resource resourceType,
        Crd.Parse body = Ok resource
        /\ type_of_kind (Crd.GetKind resource) = Some resourceType
        /\ default_workspace userID (query_workspace wsIDStr) = Some (Res_WorkspaceID row)
        /\ Res_Type row = resourceType
        /\ Res_Name row = Crd.Name (Crd.GetMetadata resource)
        /\ Res_Description row = Crd.Description (Crd.GetMetadata resource)
        /\ Res_Spec row = body
        /\ Storage.Resources_GetByName (Res_WorkspaceID row) (Res_Name row) (Res_Type row) s'
           = Ok row
        /\ Apply userID wsIDStr (Ok body) s' = (Apply_OK "updated" row, s')
  | _ => s' = s
  end.
Proof.
  unfold Apply.
  destruct (default_workspace userID (query_workspace wsIDStr)) as [workspaceID|] eqn:Hws;
    [|done].
  destruct (Crd.Parse body) as [resource|e] eqn:Hparse; [|done].
  destruct (type_of_kind (Crd.GetKind resource)) as [resourceType|] eqn:Htype; [|done].
  set (name := Crd.Name (Crd.GetMetadata resource)).
  set (description := Crd.Description (Crd.GetMetadata resource)).
  set (P := Storage.resource_matches workspaceID name resourceType).
  assert (Hmatch : forall r, P r = true ->
            Res_WorkspaceID r = workspaceID /\ Res_Name r = name
            /\ Res_Type r = resourceType).
  { intros r Hr. unfold P, Storage.resource_matches in Hr.
    apply andb_true_iff in Hr as [Hr H3]. apply andb_true_iff in Hr as [H1 H2].
    apply N.eqb_eq in H1. apply String.eqb_eq in H2. apply String.eqb_eq in H3.
    done. }
  destruct (Storage.Resources_GetByName workspaceID name resourceType s)
    as [existing|e] eqn:Hget.
  - unfold Storage.Resources_GetByName in Hget.
    destruct (Storage.db_error s) eqn:Hdb; [discriminate|].
    fold P in Hget. destruct (List.find P (Storage.resources s)) as [r0|] eqn:Hfind;
      [|discriminate].
    injection Hget as ->.
    destruct (find_elem_of _ _ _ Hfind) as [Hin HP].
    destruct (Hmatch _ HP) as (Hw & Hn & Ht).
    set (row := set_Spec_Description body description existing).
    assert (HProw : P row = true) by exact HP.
    unfold Resources_Update at 1. rewrite Hdb.
    rewrite (existsb_elem_of _ _ existing Hin) by apply N.eqb_refl.
    set (s' := with_resources _ s).
    assert (Hfind' : List.find P (Storage.resources s') = Some row).
    { exact (find_replaced P (Res_ID existing) row _ existing Hfind eq_refl HProw). }
    destruct (find_elem_of _ _ _ Hfind') as [Hin' _].
    assert (Hget' : Storage.Resources_GetByName workspaceID name resourceType s' = Ok row).
    { unfold Storage.Resources_GetByName. fold P.
      change (Storage.db_error s') with (Storage.db_error s).
      by rewrite Hdb, Hfind'. }
    exists resource, resourceType.
    change (Res_WorkspaceID row) with (Res_WorkspaceID existing).
    change (Res_Name row) with (Res_Name existing).
    change (Res_Type row) with (Res_Type existing).
    rewrite Hw, Hn, Ht. do 7 (split; [done|]). split; [exact Hget'|].
    rewrite Hget'.
    change (set_Spec_Description body description row) with row.
    rewrite Resources_Update_listed; [done | done | exact Hin' |].
    intros r Hr Hid. subst s'. simpl in Hr.
    apply list_elem_of_fmap in Hr as (x & -> & _).
    destruct (N.eqb (Res_ID x) (Res_ID existing)) eqn:Hx; [done|].
    apply N.eqb_neq in Hx. done.
  - unfold Resources_Create.
    destruct (Storage.db_error s) eqn:Hdb; [done|].
    unfold Storage.Resources_GetByName in Hget. rewrite Hdb in Hget. fold P in Hget.
    destruct (List.find P (Storage.resources s)) as [r0|] eqn:Hfind; [discriminate|].
    set (row := set_Res_ID (next_resource_id s) _).
    set (s' := with_resources _ s).
    assert (HProw : P row = true).
    { unfold P, Storage.resource_matches, row. simpl.
      by rewrite N.eqb_refl, !String.eqb_refl. }
    assert (Hfind' : List.find P (Storage.resources s') = Some row).
    { by apply find_appended. }
    assert (Hget' : Storage.Resources_GetByName workspaceID name resourceType s' = Ok row).
    { unfold Storage.Resources_GetByName. fold P.
      change (Storage.db_error s') with (Storage.db_error s).
      by rewrite Hdb, Hfind'. }
    exists resource, resourceType.
    do 7 (split; [done|]). split; [exact Hget'|].
    cbn [Res_WorkspaceID Res_Name Res_Type row set_Res_ID] in Hget' |- *.
    rewrite Hget'.
    change (set_Spec_Description body description row) with row.
    rewrite Resources_Update_listed; [done | done | |].
    + subst s'. simpl. apply elem_of_app. right. apply list_elem_of_here.
    + intros r Hr Hid. subst s'. simpl in Hr.
      apply elem_of_app in Hr as [Hr|Hr].
      * apply next_resource_id_fresh in Hr. simpl in Hid. lia.
      * by apply list_elem_of_singleton in Hr.
Qed.

(** X29. The outcomes of [Create].  With 201 the row of the task is
    stored as pending under a key the table did not hold, for the caller
    and with the prompt and the resource of the request, and the task is
    the last of the queue and active, with the handler's callback.  With
    500 either nothing was stored and nothing queued, or the queue was
    full: then the pending row is stored all the same, and the task is
    neither queued nor active, so no worker will ever take it.  With 400
    nothing has changed.  [Create] panics only on a closed queue. *)
Theorem Create_outcomes (userID : N) (req : CreateTaskRequest)
    (q : Orchestrator.TaskQueue) (w : World) :
  let '(r, (q', w'), tr) := Create userID (Ok req) (q, w) in
  match r with
  | Ret (Create_Created task) =>
      Storage.tasks (storage w) !! ID task = None
      /\ Storage.Tasks_GetByID (ID task) (storage w') = Ok task
      /\ Status task = TaskStatusPending /\ UserID task = userID
      /\ Prompt task = Req_Prompt req
      /\ ResourceType task = Req_ResourceType req
      /\ ResourceName task = Req_ResourceName req
      /\ default_workspace userID (Req_WorkspaceID req) = Some (WorkspaceID task)
      /\ Orchestrator.tasks q' =
           Orchestrator.tasks q ++
             [{| Orchestrator.Task_ := task;
                 Orchestrator.Callback := Some TaskHandler.callback |}]
      /\ Orchestrator.active q' !! ID task =
           Some {| Orchestrator.Task_ := task;
                   Orchestrator.Callback := Some TaskHandler.callback |}
  | Ret (Create_InternalServerError error) =>
      q' = q /\ tr = []
      /\ (error = "Failed to create task" /\ w' = w
          \/ error = "Failed to submit task"
             /\ (Orchestrator.tasks_cap q <= length (Orchestrator.tasks q))%nat
             /\ exists task,
                  Storage.tasks (storage w) !! ID task = None
                  /\ Storage.Tasks_GetByID (ID task) (storage w') = Ok task
                  /\ Status task = TaskStatusPending)
  | Ret (Create_BadRequest _) => q' = q /\ w' = w /\ tr = []
  | Panic _ => Orchestrator.tasks_closed q = true
  end.
Proof.
  unfold Create.
  destruct (default_workspace userID (Req_WorkspaceID req)) as [workspaceID|] eqn:Hws;
    [|done].
  unfold Tasks_Create.
  destruct (Storage.db_error (storage w)) eqn:Hdb; [by split; [|split; [|left]]|].
  set (task := set_Task_ID (next_task_id (storage w)) _).
  set (s' := Storage.with_tasks _ (storage w)).
  assert (Hfresh : Storage.tasks (storage w) !! ID task = None).
  { destruct (Storage.tasks (storage w) !! ID task) eqn:Hrow; [|done].
    pose proof (next_task_id_fresh (storage w) (ID task) (mk_is_Some _ _ Hrow)) as Hlt.
    simpl in Hlt. lia. }
  assert (Hget : Storage.Tasks_GetByID (ID task) s' = Ok task).
  { unfold Storage.Tasks_GetByID.
    change (Storage.db_error s') with (Storage.db_error (storage w)). rewrite Hdb.
    subst s'. cbn [Storage.tasks Storage.with_tasks]. by rewrite lookup_insert_eq. }
  unfold Orchestration.SubmitTask, mbind, Orchestrator.QM_bind, Orchestrator.Enqueue.
  destruct (Orchestrator.tasks_closed q) eqn:Hclosed; [done|].
  destruct (length (Orchestrator.tasks q) <? Orchestrator.tasks_cap q)%nat eqn:Hroom.
  - cbn. do 9 (split; [done|]). by rewrite lookup_insert_eq.
  - apply Nat.ltb_ge in Hroom. cbn. split; [done|]. split; [done|]. right.
    split; [done|]. split; [done|]. by exists task.
Qed.

(** X30. [Delete] removes the row of a task for its owner only, and
    whatever the status of the task: afterwards [Get] finds no such task
    for anyone, the other rows are as before, and a callback of the
    task, which may still be queued or running, writes nothing to the
    database.  With any answer but 200 the tables are as they were. *)
Theorem Delete_outcomes (userID taskID : N) (s : Storage.Storage) :
  let '(response, s') := Delete userID taskID s in
  match response with
  | Task_OK _ =>
      (exists task, Storage.Tasks_GetByID taskID s = Ok task /\ UserID task = userID)
      /\ (forall anyone, Get anyone taskID s' = Task_NotFound)
      /\ (forall id, id <> taskID ->
            Storage.Tasks_GetByID id s' = Storage.Tasks_GetByID id s)
      /\ (forall progress status message metadata w,
            storage (TaskHandler.callback taskID progress status message metadata
                       (with_storage s' w)) = s')
  | _ => s' = s
  end.
Proof.
  unfold Delete.
  destruct (Storage.Tasks_GetByID taskID s) as [task|e] eqn:Hget; [|done].
  destruct (N.eqb (UserID task) userID) eqn:Howner; [|done]. cbn [negb].
  unfold Tasks_Delete, Storage.Tasks_GetByID in *.
  destruct (Storage.db_error s) eqn:Hdb; [discriminate|].
  assert (Hgone : forall anyone, Get anyone taskID
                    (Storage.with_tasks (delete taskID (Storage.tasks s)) s)
                  = Task_NotFound).
  { intros anyone. unfold Get, Storage.Tasks_GetByID.
    cbn [Storage.db_error Storage.tasks Storage.with_tasks].
    by rewrite Hdb, lookup_delete_eq. }
  split; [|split; [exact Hgone|split]].
  - exists task. split; [done | by apply N.eqb_eq].
  - intros id Hid. cbn [Storage.db_error Storage.tasks Storage.with_tasks].
    by rewrite Hdb, lookup_delete_ne.
  - intros progress status message metadata w.
    rewrite LifecycleFacts.callback_storage. unfold Storage.Tasks_GetByID.
    cbn [storage with_storage Storage.db_error Storage.tasks Storage.with_tasks].
    by rewrite Hdb, lookup_delete_eq.
Qed.

End WithDatabase.

End EndpointFacts.

Module EndpointRuns.

Import Models World Repositories Endpoints EndpointFacts.

(** User 8, who has no workspace, applies a Soul [a] to workspace 1: the
    row there is updated.  User 7 applies it with no workspace in the
    query: it is created in workspace 3, the first of the user's, under
    the next key; applying it again updates that row and changes
    nothing. *)
Lemma apply_twice :
  fst (Apply (Yaml := MoreSamples.yaml_codec) (Db := EndpointSamples.database)
         8 "1" (Ok Samples.doc_soul_a) EndpointSamples.storage)
    = Apply_OK "updated" (Samples.row 1 "Soul" "a" Samples.doc_soul_a)
  /\ exists row s',
       Apply (Yaml := MoreSamples.yaml_codec) (Db := EndpointSamples.database)
         7 "" (Ok Samples.doc_soul_a) EndpointSamples.storage
         = (Apply_Created "created" row, s')
       /\ Res_ID row = 10%N /\ Res_WorkspaceID row = 3%N
       /\ Apply (Yaml := MoreSamples.yaml_codec) (Db := EndpointSamples.database)
            7 "" (Ok Samples.doc_soul_a) s'
          = (Apply_OK "updated" row, s').
Proof.
  split; [reflexivity|].
  pose proof (Apply_then_GetByName
                (Yaml := MoreSamples.yaml_codec) (Db := EndpointSamples.database)
                7 "" Samples.doc_soul_a EndpointSamples.storage) as H.
  destruct (Apply (Yaml := MoreSamples.yaml_codec) (Db := EndpointSamples.database)
              7 "" (Ok Samples.doc_soul_a) EndpointSamples.storage)
    as [response s'] eqn:E.
  vm_compute in E. injection E as <- <-.
  destruct H as (resource & resourceType & _ & _ & _ & _ & _ & _ & _ & _ & Hagain).
  eexists _, _. split; [reflexivity|]. split; [reflexivity|]. split; [reflexivity|].
  exact Hagain.
Defined.

(** User 7 creates a task while the queue is full: the answer is 500,
    and the row of task 1 is stored, pending, in workspace 3. *)
Lemma create_on_a_full_queue :
  let '(r, (q', w'), tr) :=
    Create (Db := EndpointSamples.database) 7 (Ok EndpointSamples.request)
      (EndpointSamples.full_queue, MoreSamples.world None []) in
  r = Ret (Create_InternalServerError "Failed to submit task")
  /\ q' = EndpointSamples.full_queue
  /\ (Status <$> TaskRows.row_of 1 w') = Some TaskStatusPending
  /\ (WorkspaceID <$> TaskRows.row_of 1 w') = Some 3%N.
Proof.
  pose proof (Create_outcomes (Db := EndpointSamples.database) 7 EndpointSamples.request
                EndpointSamples.full_queue (MoreSamples.world None [])) as H.
  destruct (Create (Db := EndpointSamples.database) 7 (Ok EndpointSamples.request)
              (EndpointSamples.full_queue, MoreSamples.world None []))
    as [[r [q' w']] tr] eqn:E.
  vm_compute in E. injection E as <- <- <- <-.
  destruct H as (Hq & _). split; [reflexivity|]. split; [exact Hq|].
  split; vm_compute; reflexivity.
Defined.

(** Task 1 is user 1's: user 2 may not delete it; user 1 deletes it, and
    it is found no more. *)
Lemma delete_by_owner_only :
  let s := MoreSamples.database None [Samples.task_for 1 "robot" "r" "hi"] in
  Delete 2 1 s = (Task_Forbidden, s)
  /\ exists s',
       Delete 1 1 s = (Task_OK None, s')
       /\ Get 1 1 s' = Task_NotFound.
Proof.
  intros s. split; [reflexivity|].
  pose proof (Delete_outcomes (Enc := Samples.sample_encoder) 1 1 s) as H.
  destruct (Delete 1 1 s) as [response s'] eqn:E.
  vm_compute in E. injection E as <- <-.
  destruct H as (_ & Hgone & _).
  eexists. split; [reflexivity|]. apply Hgone.
Defined.

End EndpointRuns.

(** ** More runs on the samples *)

Module MoreScenarios.

Import Models World Executor ExecutorSpec ExecutorFacts TaskRows LifecycleFacts.
Import ExecutorMoreFacts.

(** The runner writes the content [a], a line that is no JSON, a
    cancelled event and the content [b], and is killed: the task ends
    completed with the result [a]. *)
Lemma killed_after_cancelled_event :
  let task := Samples.task_for 1 "robot" "r" "abort" in
  let w := MoreSamples.world None [task] in
  let '(r, task', w') :=
    Execute (Yaml := MoreSamples.yaml_codec) (Env := MoreSamples.runner)
      task (Some TaskHandler.callback) w in
  r = Ret None
  /\ Status task' = TaskStatusCompleted
  /\ Result task' = "a"
  /\ EventLogs task' = Samples.line_content "a" +:+ nl +:+ Samples.line_cancelled.
Proof.
  intros task w.
  pose proof (Execute_cancelled_stream_completes
                (Yaml := MoreSamples.yaml_codec) (Env := MoreSamples.runner)
                task (Some TaskHandler.callback) w _ _ _
                eq_refl callback_keeps_repository eq_refl eq_refl eq_refl) as H.
  destruct (Execute (Yaml := MoreSamples.yaml_codec) (Env := MoreSamples.runner)
              task (Some TaskHandler.callback) w)
    as [[r task'] w'].
  destruct H as (Hr & Hstatus & _ & Hresult & Hlogs & _).
  rewrite Hresult, Hlogs. repeat split; try done.
Defined.

(** The runner writes a traceback between its events, and a content of
    64 KiB after the content [head], and exits 0: the event logs hold the
    two events before the long line and not the traceback, and the result
    is [head]; the content [tail] and the completed event, written after
    the long line, are not read. *)
Lemma traceback_is_not_logged :
  let task := Samples.task_for 1 "robot" "r" "flood" in
  let w := MoreSamples.world None [task] in
  let '(r, task', w') :=
    Execute (Yaml := MoreSamples.yaml_codec) (Env := MoreSamples.runner)
      task (Some TaskHandler.callback) w in
  r = Ret None
  /\ EventLogs task' = Samples.line_started +:+ nl +:+ Samples.line_content "head"
  /\ Result task' = "head".
Proof.
  intros task w.
  assert (Hread : scanned [Samples.line_started; MoreSamples.line_traceback;
                           Samples.line_content "head";
                           Samples.line_content MoreSamples.flood;
                           Samples.line_content "tail"; Samples.line_completed]
                  = [Samples.line_started; MoreSamples.line_traceback;
                     Samples.line_content "head"]) by (vm_compute; reflexivity).
  pose proof (Execute_keeps_decodable_lines
                (Yaml := MoreSamples.yaml_codec) (Env := MoreSamples.runner)
                task (Some TaskHandler.callback) w _ _
                eq_refl callback_keeps_repository eq_refl eq_refl) as H.
  rewrite Hread in H. specialize (H eq_refl).
  destruct (Execute (Yaml := MoreSamples.yaml_codec) (Env := MoreSamples.runner)
              task (Some TaskHandler.callback) w)
    as [[r task'] w'].
  destruct H as (Hr & Hlogs & Hresult & _).
  rewrite Hlogs, Hresult. repeat split; try done.
Defined.

(** The runner writes a content and a traceback and exits 139: the task
    fails with the exit status, and the content is not its result. *)
Lemma crash_without_error_event :
  let task := Samples.task_for 1 "robot" "r" "crash" in
  let w := MoreSamples.world None [task] in
  let '(r, task', w') :=
    Execute (Yaml := MoreSamples.yaml_codec) (Env := MoreSamples.runner)
      task (Some TaskHandler.callback) w in
  r = Ret (Some "python script finished with error: exit status 139")
  /\ Status task' = TaskStatusFailed
  /\ Result task' = "".
Proof.
  intros task w.
  pose proof (Execute_exit_status_without_error_event
                (Yaml := MoreSamples.yaml_codec) (Env := MoreSamples.runner)
                task (Some TaskHandler.callback) w _ _ _
                eq_refl callback_keeps_repository eq_refl eq_refl eq_refl eq_refl) as H.
  destruct (Execute (Yaml := MoreSamples.yaml_codec) (Env := MoreSamples.runner)
              task (Some TaskHandler.callback) w)
    as [[r task'] w'].
  destruct H as (Hr & Hstatus & _ & Hresult & _).
  rewrite Hresult. repeat split; try done.
Defined.

(** A task for a resource of type [workflow] fails, and its row ends
    failed with the error. *)
Lemma workflow_is_no_resource_type :
  let task := Samples.task_for 1 "workflow" "r" "hi" in
  let w := MoreSamples.world None [task] in
  let res := Execute (Yaml := MoreSamples.yaml_codec) (Env := MoreSamples.runner)
               task (Some TaskHandler.callback) w in
  fst (fst res) = Ret (Some "unsupported resource type: workflow")
  /\ (Status <$> row_of 1 (snd res)) = Some TaskStatusFailed
  /\ (Error_ <$> row_of 1 (snd res)) = Some "unsupported resource type: workflow".
Proof.
  intros task w res.
  pose proof (Execute_unsupported_resource_type
                (Yaml := MoreSamples.yaml_codec) (Env := MoreSamples.runner)
                task (Some TaskHandler.callback) w eq_refl eq_refl) as H.
  cbv zeta in H. subst res. rewrite H. cbn [fst snd].
  split; [reflexivity|]. split; vm_compute; reflexivity.
Defined.

(** The robot [masked] names as its Soul a row whose text is a Mind:
    resolving a task for it panics. *)
Lemma soul_row_with_the_text_of_a_mind :
  exists v,
    botConfig (Yaml := MoreSamples.yaml_codec)
      (Samples.task_for 1 "robot" "masked" "hi") (MoreSamples.database None []) = Panic v.
Proof.
  apply (botConfig_panics_exactly (Yaml := MoreSamples.yaml_codec)).
  eexists _, _. split; [reflexivity|]. split; [reflexivity|].
  eexists. split; [reflexivity|]. left. intros soul. discriminate.
Defined.

(** The robot [crafty] has the craft [toolbox], with two servers; the
    robot [tinker] names a craft that does not exist. *)
Lemma crafty_and_tinker :
  (exists config,
     botConfig (Yaml := MoreSamples.yaml_codec)
       (Samples.task_for 1 "robot" "crafty" "hi") (MoreSamples.database None [])
       = Ret (Ok config)
     /\ SoulCfg_Name (Cfg_Soul config) = "crafty"
     /\ map MCP_Name (Cfg_MCPTools config) = ["files"; "web"])
  /\ (exists config,
        botConfig (Yaml := MoreSamples.yaml_codec)
          (Samples.task_for 2 "robot" "tinker" "hi") (MoreSamples.database None [])
          = Ret (Ok config)
        /\ Cfg_MCPTools config = []).
Proof.
  split.
  - pose proof (botConfig_of_loaded_robot (Yaml := MoreSamples.yaml_codec)
                  (Samples.task_for 1 "robot" "crafty" "hi") (MoreSamples.database None [])
                  _ _ _ _ _ _ eq_refl eq_refl eq_refl eq_refl eq_refl eq_refl) as H.
    cbv zeta in H.
    destruct H as (config & Hc & _ & _ & _ & Hsoul & _ & _ & _ & Htools & _).
    exists config. split; [exact Hc|]. rewrite Hsoul. split; [reflexivity|].
    rewrite Htools by discriminate. reflexivity.
  - pose proof (botConfig_of_loaded_robot (Yaml := MoreSamples.yaml_codec)
                  (Samples.task_for 2 "robot" "tinker" "hi") (MoreSamples.database None [])
                  _ _ _ _ _ _ eq_refl eq_refl eq_refl eq_refl eq_refl eq_refl) as H.
    cbv zeta in H.
    destruct H as (config & Hc & _ & _ & _ & _ & _ & _ & _ & _ & Htools).
    exists config. split; [exact Hc|]. apply Htools. reflexivity.
Defined.

(** There is no team [ghosts]. *)
Lemma team_that_does_not_load :
  exists e,
    teamConfig (Yaml := MoreSamples.yaml_codec)
      (Samples.task_for 1 "team" "ghosts" "hi") (MoreSamples.database None [])
      = Ret (Err e)
    /\ team_error e /\ e <> "no mind found for team".
Proof.
  eexists. split; [reflexivity|].
  apply (teamConfig_errors (Yaml := MoreSamples.yaml_codec)
           (Samples.task_for 1 "team" "ghosts" "hi") (MoreSamples.database None [])).
  reflexivity.
Defined.

(** The team [pair] has no leader and the members [absent], which does
    not load, and [r]. *)
Lemma team_pair_is_configured :
  exists config team,
    teamConfig (Yaml := MoreSamples.yaml_codec)
      (Samples.task_for 1 "team" "pair" "hi") (MoreSamples.database None [])
      = Ret (Ok config)
    /\ Cfg_Type config = "team" /\ Cfg_MCPTools config = []
    /\ Cfg_Team config = Some team /\ length (TeamCfg_Members team) = 1%nat.
Proof.
  pose proof (teamConfig_shape (Yaml := MoreSamples.yaml_codec)
                (Samples.task_for 1 "team" "pair" "hi") (MoreSamples.database None [])
                _ eq_refl) as (Htype & _ & _ & _ & Htools & _).
  eexists _, _. split; [reflexivity|]. split; [exact Htype|]. split; [exact Htools|].
  split; reflexivity.
Defined.

(** A worker takes a task while the database is locked: the row stays
    pending. *)
Lemma worker_with_the_database_locked :
  let task := Samples.task_for 1 "robot" "r" "hi" in
  let item := {| Orchestrator.Task_ := task;
                 Orchestrator.Callback := Some TaskHandler.callback |} in
  let w := MoreSamples.world (Some "database is locked") [task] in
  let '(_, (q', w'), tr) :=
    Orchestrator.processTask
      (Exec := Wiring.AgnoExecutor (Yaml := MoreSamples.yaml_codec)
                 (Env := MoreSamples.runner))
      item (Orchestrator.NewTaskQueue 2, w) in
  storage w' = storage w
  /\ (Status <$> row_of 1 w') = Some TaskStatusPending
  /\ tr = [Orchestrator.EvExecute 1;
           Orchestrator.EvCallback 1 0 TaskStatusFailed
             "execution failed: failed to update task status: database is locked" None;
           Orchestrator.EvActiveDelete 1].
Proof.
  intros task item w.
  pose proof (HandlerFacts.processTask_with_database_down
                (Yaml := MoreSamples.yaml_codec) (Env := MoreSamples.runner)
                item (Orchestrator.NewTaskQueue 2) w _ eq_refl eq_refl) as H.
  cbv zeta in H. destruct H as (w' & -> & Hs & _).
  split; [exact Hs|]. split; [|reflexivity].
  unfold row_of. rewrite Hs. reflexivity.
Defined.

(** A Mind for Groq with a key of its own makes a client with that
    key; a Mind for the same model without key is then given that client
    and not one with the key of the environment. *)
Lemma second_mind_gets_the_first_key :
  let mine := ClientSamples.mind_of "groq" "llama3" "gsk-mine" "" in
  let other := ClientSamples.mind_of "groq" "llama3" "" "" in
  exists e1,
    LlmExecutor.getLLMClient (Os := ClientSamples.environ) mine LlmExecutor.New
      = (Ok (Llm.OpenAIClient "llama3" "gsk-mine" "https://api.groq.com/openai/v1"), e1)
    /\ LlmExecutor.getLLMClient (Os := ClientSamples.environ) other e1
       = (Ok (Llm.OpenAIClient "llama3" "gsk-mine" "https://api.groq.com/openai/v1"), e1)
    /\ fst (LlmExecutor.getLLMClient (Os := ClientSamples.environ) other LlmExecutor.New)
       = Ok (Llm.OpenAIClient "llama3" "gsk-from-the-environment"
               "https://api.groq.com/openai/v1").
Proof.
  intros mine other. eexists. split; [reflexivity|]. split; [|reflexivity].
  apply (LlmExecutorFacts.getLLMClient_reuses_cached (Os := ClientSamples.environ)
           mine other LlmExecutor.New); reflexivity.
Defined.

(** With no key in the Mind and none in the environment, OpenAI fails;
    a provider the switch does not know fails without base URL. *)
Lemma minds_without_client :
  LlmExecutor.getLLMClient (Os := ClientSamples.environ)
    (ClientSamples.mind_of "openai" "gpt-4o" "" "") LlmExecutor.New
    = (Err "API key not configured for provider: openai", LlmExecutor.New)
  /\ LlmExecutor.getLLMClient (Os := ClientSamples.environ)
       (ClientSamples.mind_of "mistral" "large" "k" "") LlmExecutor.New
     = (Err "unsupported LLM provider: mistral (provide base_url for OpenAI-compatible APIs)",
        LlmExecutor.New).
Proof.
  split.
  - exact (LlmExecutorFacts.getLLMClient_errors (Os := ClientSamples.environ)
             (ClientSamples.mind_of "openai" "gpt-4o" "" "") LlmExecutor.New eq_refl).
  - exact (LlmExecutorFacts.getLLMClient_errors (Os := ClientSamples.environ)
             (ClientSamples.mind_of "mistral" "large" "k" "") LlmExecutor.New eq_refl).
Defined.

(** A worker on a running queue that holds the tasks 1 and 2 executes
    them in that order and then waits; on the same queue once stopped, a
    worker whose [select] takes the [Done] case executes nothing. *)
Lemma two_tasks_and_a_stopped_queue :
  let t1 := Samples.task_for 1 "robot" "r" "hi" in
  let t2 := Samples.task_for 2 "robot" "r" "stop" in
  let q := Samples.queue_holding 5 [Samples.item_of t1; Samples.item_of t2] in
  let w := Samples.world_with [t1; t2] in
  (let '(turn, (q', _), tr) := Orchestration.worker [true; true; true] (q, w) in
   turn = Some Orchestrator.Waiting
   /\ Orchestration.executed tr = [1%N; 2%N]
   /\ Orchestrator.tasks q' = [])
  /\ Orchestration.worker [true] (Orchestrator.Stop q, w)
     = (Some Orchestrator.Returned, (Orchestrator.Stop q, w), []).
Proof.
  intros t1 t2 q w. split.
  - destruct (OrchestrationFacts.worker_takes_tasks_in_order q w [true; true; true])
      as [H _].
    specialize (H eq_refl ltac:(simpl; lia)). cbv zeta in H.
    destruct (Orchestration.worker [true; true; true] (q, w)) as [[turn [q' w']] tr].
    destruct H as (-> & He & Ht & _). repeat split; assumption.
  - apply (OrchestrationFacts.worker_takes_tasks_in_order (Orchestrator.Stop q) w []).
    reflexivity.
Defined.

End MoreScenarios.
